(** * NERDm meta data creator: the schema resolution engine

    A shallow embedding of the four resolver methods of [MetaDataCreator]
    ([_translate_type], [_get_type], [_get_ndrm_type], [_get_prop_type],
    [_get_properties]) and of the data part of [create_obj], [set_schema],
    [init_layout] and [add_obj], together with the properties the
    specification states about them and further properties of the code.

    The resolver walks a JSON document decoded by [json.loads]; it probes
    the nodes with [in], subscripts them, iterates over them and compares
    them with [==].  These operations are modelled on the decoded values as
    Python defines them, including the exceptions they raise on operands of
    the wrong kind. *)

From Stdlib Require Import List String Ascii ZArith Bool Lia PeanoNat.
From Stdlib Require Import Sorted Permutation.
Import ListNotations.

Local Open Scope string_scope.
Local Open Scope list_scope.

(** ** Decoded JSON values *)

(** What [json.loads] builds: [None], [bool], [int], [str], [list] and
    [dict].  A dict keeps its keys in insertion order, which the resolver
    observes when it iterates, so it is an association list; lookups take
    the first binding of a key.  Numbers are the integers: a literal with
    a fraction or an exponent is decoded to a [float], and no such value
    is represented here.  A string is a sequence of 8-bit characters:
    the names and keys of the schemas are ASCII, and a character outside
    ASCII is not represented as one character. *)
Unset Elimination Schemes.
Inductive value : Type :=
| VNone
| VBool (b : bool)
| VInt (n : Z)
| VStr (s : string)
| VList (l : list value)
| VDict (d : list (value * value)).
Set Elimination Schemes.

Abbreviation dict := (list (value * value)).

(** ** Exceptions and outcomes *)

Inductive exn : Type :=
| KeyError (k : value)
| IndexError
| TypeError
| AttributeError.

(** [KeyError] and [IndexError] are the two subclasses of [LookupError]. *)
Definition is_LookupError (e : exn) : bool :=
  match e with
  | KeyError _ | IndexError => true
  | TypeError | AttributeError => false
  end.

(** A call returns a value, raises, or exhausts the recursion depth it was
    given (the interpreter's recursion limit). *)
Inductive outcome (A : Type) : Type :=
| Ok (a : A)
| Raise (e : exn)
| OutOfFuel.

Arguments Ok {A} a.
Arguments Raise {A} e.
Arguments OutOfFuel {A}.

Definition bind {A B : Type} (c : outcome A) (k : A -> outcome B) : outcome B :=
  match c with
  | Ok a => k a
  | Raise e => Raise e
  | OutOfFuel => OutOfFuel
  end.

Declare Scope py_scope.
Delimit Scope py_scope with py.
Notation "x <- c ;; k" := (bind c (fun x => k))
  (at level 61, c at next level, right associativity) : py_scope.
Notation "' pat <- c ;; k" := (bind c (fun v => match v with pat => k end))
  (at level 61, pat pattern, c at next level, right associativity) : py_scope.
Local Open Scope py_scope.

(** ** Python operations on decoded values *)

Module Py.

(** [None], [bool], [int] and [str] are hashable; [list] and [dict] are
    not. *)
Definition hashable (v : value) : bool :=
  match v with
  | VNone | VBool _ | VInt _ | VStr _ => true
  | VList _ | VDict _ => false
  end.

(** [==] on hashable values; [True == 1] and [False == 0]. *)
Definition key_eq (a b : value) : bool :=
  match a, b with
  | VNone, VNone => true
  | VStr x, VStr y => String.eqb x y
  | VBool x, VBool y => Bool.eqb x y
  | VBool x, VInt y => Z.eqb (Z.b2z x) y
  | VInt x, VBool y => Z.eqb x (Z.b2z y)
  | VInt x, VInt y => Z.eqb x y
  | _, _ => false
  end.

(** The binding of key [k], if any. *)
Fixpoint dict_get (k : value) (d : dict) : option value :=
  match d with
  | [] => None
  | (k', v) :: d' => if key_eq k' k then Some v else dict_get k d'
  end.

Definition dict_has (k : value) (d : dict) : bool :=
  match dict_get k d with Some _ => true | None => false end.

(** [d[k] = v]: an existing key keeps its position, a new key goes last. *)
Fixpoint dict_set (k v : value) (d : dict) : dict :=
  match d with
  | [] => [(k, v)]
  | (k', v') :: d' =>
      if key_eq k' k then (k', v) :: d' else (k', v') :: dict_set k v d'
  end.

(** [a == b].  Lists are equal when they have the same length and equal
    elements; dicts when they have the same number of keys and every key
    of the first is bound to an equal value in the second. *)
Fixpoint py_eq (a b : value) {struct a} : bool :=
  match a, b with
  | VList l1, VList l2 =>
      (fix all2 (l1 l2 : list value) {struct l1} : bool :=
         match l1, l2 with
         | [], [] => true
         | x :: l1', y :: l2' => py_eq x y && all2 l1' l2'
         | _, _ => false
         end) l1 l2
  | VDict d1, VDict d2 =>
      Nat.eqb (List.length d1) (List.length d2) &&
      (fix sub (d : dict) {struct d} : bool :=
         match d with
         | [] => true
         | (k, v) :: d' =>
             match dict_get k d2 with
             | Some v' => py_eq v v'
             | None => false
             end && sub d'
         end) d1
  | _, _ => key_eq a b
  end.

(** [needle in hay] for two strings. *)
Fixpoint contains (needle hay : string) : bool :=
  prefix needle hay ||
  match hay with
  | EmptyString => false
  | String _ hay' => contains needle hay'
  end.

(** The one-character strings of [s], as [for c in s] yields them. *)
Fixpoint chars (s : string) : list value :=
  match s with
  | EmptyString => []
  | String c s' => VStr (String c EmptyString) :: chars s'
  end.

(** [x in c]. *)
Definition py_in (x c : value) : outcome bool :=
  match c with
  | VDict d => if hashable x then Ok (dict_has x d) else Raise TypeError
  | VList l => Ok (existsb (fun e => py_eq e x) l)
  | VStr s =>
      match x with
      | VStr k => Ok (contains k s)
      | _ => Raise TypeError
      end
  | VNone | VBool _ | VInt _ => Raise TypeError
  end.

(** An index: an [int], or a [bool] used as one. *)
Definition as_index (k : value) : option Z :=
  match k with
  | VInt n => Some n
  | VBool b => Some (Z.b2z b)
  | _ => None
  end.

(** [l[i]] on a sequence; a negative index counts from the end. *)
Definition seq_get {A : Type} (l : list A) (i : Z) : option A :=
  let n := Z.of_nat (List.length l) in
  let j := if (i <? 0)%Z then (i + n)%Z else i in
  if ((0 <=? j) && (j <? n))%Z%bool then nth_error l (Z.to_nat j) else None.

(** [c[k]]. *)
Definition py_getitem (c k : value) : outcome value :=
  match c with
  | VDict d =>
      if hashable k then
        match dict_get k d with
        | Some v => Ok v
        | None => Raise (KeyError k)
        end
      else Raise TypeError
  | VList l =>
      match as_index k with
      | Some i =>
          match seq_get l i with
          | Some v => Ok v
          | None => Raise IndexError
          end
      | None => Raise TypeError
      end
  | VStr s =>
      match as_index k with
      | Some i =>
          match seq_get (chars s) i with
          | Some v => Ok v
          | None => Raise IndexError
          end
      | None => Raise TypeError
      end
  | VNone | VBool _ | VInt _ => Raise TypeError
  end.

(** The values [for x in c] yields. *)
Definition py_iter (c : value) : outcome (list value) :=
  match c with
  | VList l => Ok l
  | VDict d => Ok (map fst d)
  | VStr s => Ok (chars s)
  | VNone | VBool _ | VInt _ => Raise TypeError
  end.

(** [c.copy()]: only [list] and [dict] have the method. *)
Definition py_copy (c : value) : outcome value :=
  match c with
  | VList _ | VDict _ => Ok c
  | VNone | VBool _ | VInt _ | VStr _ => Raise AttributeError
  end.

(** [s.split(sep)] for a one-character separator. *)
Fixpoint split (sep : ascii) (s : string) : list string :=
  match s with
  | EmptyString => [EmptyString]
  | String c s' =>
      if Ascii.eqb c sep then EmptyString :: split sep s'
      else
        match split sep s' with
        | h :: t => String c h :: t
        | [] => [String c EmptyString]
        end
  end.

(** [x.split("/")[-1]]: only [str] has the method. *)
Definition split_last (x : value) : outcome value :=
  match x with
  | VStr s => Ok (VStr (last (split "/"%char s) EmptyString))
  | _ => Raise AttributeError
  end.

(** [type(v) == dict]. *)
Definition is_dict (v : value) : bool :=
  match v with VDict _ => true | _ => false end.

End Py.
Import Py.

(** More of Python, for the methods around the resolver. *)
Module PyData.

(** [l[i] = x] on a list; a negative index counts from the end. *)
Definition seq_set {A : Type} (l : list A) (i : Z) (x : A) : option (list A) :=
  let n := Z.of_nat (List.length l) in
  let j := if (i <? 0)%Z then (i + n)%Z else i in
  if ((0 <=? j) && (j <? n))%Z%bool
  then Some (firstn (Z.to_nat j) l ++ x :: skipn (S (Z.to_nat j)) l)
  else None.

(** [c[k] = v], as the container after the assignment.  Only [dict] and
    [list] support it. *)
Definition py_setitem (c k v : value) : outcome value :=
  match c with
  | VDict d => if hashable k then Ok (VDict (dict_set k v d)) else Raise TypeError
  | VList l =>
      match as_index k with
      | Some i =>
          match seq_set l i v with
          | Some l' => Ok (VList l')
          | None => Raise IndexError
          end
      | None => Raise TypeError
      end
  | VNone | VBool _ | VInt _ | VStr _ => Raise TypeError
  end.

(** [c.items()]: only [dict] has the method. *)
Definition py_items (c : value) : outcome (list (value * value)) :=
  match c with
  | VDict d => Ok d
  | _ => Raise AttributeError
  end.

(** [a < b] on hashable values: two strings compare by their characters,
    two numbers by their value, and nothing else compares. *)
Definition py_lt (a b : value) : outcome bool :=
  match a, b with
  | VStr x, VStr y => Ok (String.ltb x y)
  | VInt x, VInt y => Ok (Z.ltb x y)
  | VInt x, VBool y => Ok (Z.ltb x (Z.b2z y))
  | VBool x, VInt y => Ok (Z.ltb (Z.b2z x) y)
  | VBool x, VBool y => Ok (Z.ltb (Z.b2z x) (Z.b2z y))
  | _, _ => Raise TypeError
  end.

(** Insertion of [x], which stood before the elements of the sorted list
    [l], past the elements that are less than [x]: the sort is stable. *)
Fixpoint insert_sorted (x : value) (l : list value) : outcome (list value) :=
  match l with
  | [] => Ok [x]
  | y :: l' =>
      lt <- py_lt y x ;;
      if lt : bool then l'' <- insert_sorted x l' ;; Ok (y :: l'')
      else Ok (x :: y :: l')
  end.

(** [l.sort()] on a list of hashable values: ascending and stable, by
    [<] alone.  A list of fewer than two elements is left as it is
    without a comparison; otherwise every element is compared with
    another one, so a list that mixes kinds raises [TypeError]. *)
Fixpoint py_sort (l : list value) : outcome (list value) :=
  match l with
  | [] => Ok []
  | [x] => Ok [x]
  | x :: l' => sorted <- py_sort l' ;; insert_sorted x sorted
  end.

End PyData.
Import PyData.

(** ** The resolver *)

(** The string literals of the source, as values. *)
Notation "` s" := (VStr s) (at level 1, format "` s") : py_scope.

Section Resolver.

(** [self.schema["definitions"]]: the definitions of the merged core
    and extension schemas, by name. *)
Variable definitions : dict.

(** [_translate_type]. *)
Definition _translate_type (t : value) : value :=
  if py_eq t `"array" then VList []
  else if py_eq t `"string" then `""
  else VDict [].

(** The [for dic in schema["anyOf"]] loop of [_get_type]: [v] is the
    variable the loop assigns before it breaks. *)
Fixpoint anyOf_type (alts : list value) (v : value) : outcome value :=
  match alts with
  | [] => Ok v
  | dic :: rest =>
      has_type <- py_in `"type" dic ;;
      if has_type : bool then
        t <- py_getitem dic `"type" ;;
        if py_eq t `"null" then anyOf_type rest v
        else Ok (_translate_type t)
      else anyOf_type rest v
  end.

(** [_get_type]. *)
Fixpoint _get_type (fuel : nat) (schema : value) : outcome value :=
  match fuel with
  | O => OutOfFuel
  | S fuel' =>
      let v := VDict [] in
      has_properties <- py_in `"properties" schema ;;
      if has_properties : bool then Ok v
      else
        has_type <- py_in `"type" schema ;;
        if has_type : bool then
          t <- py_getitem schema `"type" ;;
          Ok (_translate_type t)
        else
          has_anyOf <- py_in `"anyOf" schema ;;
          if has_anyOf : bool then
            a <- py_getitem schema `"anyOf" ;;
            alts <- py_iter a ;;
            anyOf_type alts v
          else
            has_ref <- py_in `"$ref" schema ;;
            if has_ref : bool then
              r <- py_getitem schema `"$ref" ;;
              n <- split_last r ;;
              s <- py_getitem (VDict definitions) n ;;
              _get_type fuel' s
            else Ok v
  end.

(** [f"ndrm:{name}"]. *)
Definition qualified (name : string) : value := VStr ("ndrm:" ++ name)%string.

(** [x.split("/")[-1]] as a string, for the name of a definition. *)
Definition ref_name (x : value) : outcome string :=
  match x with
  | VStr s => Ok (last (split "/"%char s) EmptyString)
  | _ => Raise AttributeError
  end.

(** The [for dic in schema["allOf"]] loop of [_get_ndrm_type]; [rec] is
    the recursive call and [v] the list built so far. *)
Fixpoint allOf_chain (rec : string -> value -> outcome (list value))
    (entries : list value) (v : list value) : outcome (list value) :=
  match entries with
  | [] => Ok v
  | dic :: rest =>
      has_ref <- py_in `"$ref" dic ;;
      if has_ref : bool then
        r <- py_getitem dic `"$ref" ;;
        new_name <- ref_name r ;;
        s <- py_getitem (VDict definitions) `new_name ;;
        ns <- rec new_name s ;;
        allOf_chain rec rest (v ++ ns)
      else allOf_chain rec rest v
  end.

(** [_get_ndrm_type]. *)
Fixpoint _get_ndrm_type (fuel : nat) (name : string) (schema : value)
    : outcome (list value) :=
  match fuel with
  | O => OutOfFuel
  | S fuel' =>
      let v := [qualified name] in
      has_allOf <- py_in `"allOf" schema ;;
      if has_allOf : bool then
        a <- py_getitem schema `"allOf" ;;
        entries <- py_iter a ;;
        allOf_chain (_get_ndrm_type fuel') entries v
      else
        has_ref <- py_in `"$ref" schema ;;
        if has_ref : bool then
          r <- py_getitem schema `"$ref" ;;
          new_name <- ref_name r ;;
          s <- py_getitem (VDict definitions) `new_name ;;
          ns <- _get_ndrm_type fuel' new_name s ;;
          Ok (v ++ ns)
        else Ok v
  end.

(** The first loop of the [anyOf] branch of [_get_prop_type]: [Some v]
    when it returns [v], [None] when it runs to its end. *)
Fixpoint anyOf_prop_type (alts : list value) : outcome (option value) :=
  match alts with
  | [] => Ok None
  | dic :: rest =>
      has_type <- py_in `"type" dic ;;
      if has_type : bool then
        t <- py_getitem dic `"type" ;;
        if py_eq t `"null" then anyOf_prop_type rest
        else Ok (Some (_translate_type t))
      else anyOf_prop_type rest
  end.

(** The second loop of that branch.  It subscripts [prop], not [dic].
    When it runs to its end the function ends without a [return], so the
    call evaluates to [None]. *)
Fixpoint anyOf_prop_ref (fuel : nat) (prop : value) (alts : list value)
    : outcome value :=
  match alts with
  | [] => Ok VNone
  | dic :: rest =>
      has_ref <- py_in `"$ref" dic ;;
      if has_ref : bool then
        r <- py_getitem prop `"$ref" ;;
        mother <- split_last r ;;
        s <- py_getitem (VDict definitions) mother ;;
        _get_type fuel s
      else anyOf_prop_ref fuel prop rest
  end.

(** [_get_prop_type].  The [try] covers the two subscripts only, and
    only [KeyError] is caught. *)
Definition _get_prop_type (fuel : nat) (name schema : value) : outcome value :=
  match (p <- py_getitem schema `"properties" ;; py_getitem p name) with
  | Raise (KeyError _) => Ok `""
  | Raise e => Raise e
  | OutOfFuel => OutOfFuel
  | Ok prop =>
      has_type <- py_in `"type" prop ;;
      if has_type : bool then
        t <- py_getitem prop `"type" ;;
        Ok (_translate_type t)
      else
        has_ref <- py_in `"$ref" prop ;;
        if has_ref : bool then
          r <- py_getitem prop `"$ref" ;;
          mother <- split_last r ;;
          s <- py_getitem (VDict definitions) mother ;;
          _get_type fuel s
        else
          has_allOf <- py_in `"allOf" prop ;;
          if has_allOf : bool then Ok (VDict [])
          else
            has_anyOf <- py_in `"anyOf" prop ;;
            if has_anyOf : bool then
              a <- py_getitem prop `"anyOf" ;;
              alts <- py_iter a ;;
              found <- anyOf_prop_type alts ;;
              match found with
              | Some v => Ok v
              | None =>
                  a' <- py_getitem prop `"anyOf" ;;
                  alts' <- py_iter a' ;;
                  anyOf_prop_ref fuel prop alts'
              end
            else Ok VNone
  end.

(** What [_get_properties] returns when it returns a tuple:
    [properties, required, required_types]. *)
Definition triple : Type := value * value * list value.

(** The accumulator of the [allOf] branch:
    [out_props, required, required_types]. *)
Definition accumulator : Type := dict * list value * list value.

(** [for req in required: required_types.append(...)]. *)
Fixpoint required_defaults (fuel : nat) (schema : value) (names : list value)
    : outcome (list value) :=
  match names with
  | [] => Ok []
  | req :: rest =>
      t <- _get_prop_type fuel req schema ;;
      ts <- required_defaults fuel schema rest ;;
      Ok (t :: ts)
  end.

(** [for prop in ...: if not prop in out_props: out_props[prop] = ...];
    [item prop] is the right-hand side of the assignment. *)
Fixpoint merge_props (item : value -> outcome value) (props : list value)
    (out_props : dict) : outcome dict :=
  match props with
  | [] => Ok out_props
  | prop :: rest =>
      present <- py_in prop (VDict out_props) ;;
      if present : bool then merge_props item rest out_props
      else
        v <- item prop ;;
        merge_props item rest (dict_set prop v out_props)
  end.

(** [for i, prop in enumerate(...): if not prop in required: ...];
    [default_of i prop] is what is appended to [required_types]. *)
Fixpoint merge_required (default_of : nat -> value -> outcome value)
    (i : nat) (names : list value) (required required_types : list value)
    : outcome (list value * list value) :=
  match names with
  | [] => Ok (required, required_types)
  | prop :: rest =>
      present <- py_in prop (VList required) ;;
      if present : bool then
        merge_required default_of (S i) rest required required_types
      else
        t <- default_of i prop ;;
        merge_required default_of (S i) rest
          (required ++ [prop]) (required_types ++ [t])
  end.

(** The body of [for dic in schema["allOf"]] in [_get_properties]; [rec]
    is the recursive call.  Unpacking [None] into three names is a
    [TypeError]. *)
Definition allOf_entry (rec : value -> outcome (option triple)) (fuel : nat)
    (dic : value) (acc : accumulator) : outcome accumulator :=
  let '(out_props, required, required_types) := acc in
  has_properties <- py_in `"properties" dic ;;
  out_props <-
    (if has_properties : bool then
       p <- py_getitem dic `"properties" ;;
       props <- py_iter p ;;
       merge_props
         (fun prop => p <- py_getitem dic `"properties" ;; py_getitem p prop)
         props out_props
     else Ok out_props) ;;
  has_required <- py_in `"required" dic ;;
  if has_required : bool then
    r <- py_getitem dic `"required" ;;
    names <- py_iter r ;;
    '(required, required_types) <-
      merge_required (fun _ prop => _get_prop_type fuel prop dic)
        0 names required required_types ;;
    Ok (out_props, required, required_types)
  else
    has_ref <- py_in `"$ref" dic ;;
    if has_ref : bool then
      r <- py_getitem dic `"$ref" ;;
      n <- split_last r ;;
      s <- py_getitem (VDict definitions) n ;;
      res <- rec s ;;
      match res with
      | None => Raise TypeError
      | Some (tmp_props, tmp_req, tmp_req_types) =>
          props <- py_iter tmp_props ;;
          out_props <- merge_props (py_getitem tmp_props) props out_props ;;
          names <- py_iter tmp_req ;;
          '(required, required_types) <-
            merge_required
              (fun i _ =>
                 match nth_error tmp_req_types i with
                 | Some t => Ok t
                 | None => Raise IndexError
                 end)
              0 names required required_types ;;
          Ok (out_props, required, required_types)
      end
    else Ok (out_props, required, required_types).

(** [for dic in schema["allOf"]] in [_get_properties]. *)
Fixpoint allOf_props (rec : value -> outcome (option triple)) (fuel : nat)
    (entries : list value) (acc : accumulator) : outcome accumulator :=
  match entries with
  | [] => Ok acc
  | dic :: rest =>
      acc' <- allOf_entry rec fuel dic acc ;;
      allOf_props rec fuel rest acc'
  end.

(** [_get_properties].  [Ok None] is the call that reaches the end of
    the function without a [return]. *)
Fixpoint _get_properties (fuel : nat) (schema : value)
    : outcome (option triple) :=
  match fuel with
  | O => OutOfFuel
  | S fuel' =>
      v <- _get_type fuel schema ;;
      if is_dict v then
        has_properties <- py_in `"properties" schema ;;
        if has_properties : bool then
          has_required <- py_in `"required" schema ;;
          '(required, required_types) <-
            (if has_required : bool then
               r <- py_getitem schema `"required" ;;
               required <- py_copy r ;;
               names <- py_iter required ;;
               required_types <- required_defaults fuel schema names ;;
               Ok (required, required_types)
             else Ok (VList [], [])) ;;
          p <- py_getitem schema `"properties" ;;
          props <- py_copy p ;;
          Ok (Some (props, required, required_types))
        else
          has_ref <- py_in `"$ref" schema ;;
          if has_ref : bool then
            r <- py_getitem schema `"$ref" ;;
            n <- split_last r ;;
            s <- py_getitem (VDict definitions) n ;;
            _get_properties fuel' s
          else
            has_allOf <- py_in `"allOf" schema ;;
            if has_allOf : bool then
              a <- py_getitem schema `"allOf" ;;
              entries <- py_iter a ;;
              '(out_props, required, required_types) <-
                allOf_props (_get_properties fuel') fuel entries ([], [], []) ;;
              Ok (Some (VDict out_props, VList required, required_types))
            else Ok None
      else Ok (Some (VDict [], VList [], []))
  end.

(** [for i, req in enumerate(this_req): v[req] = this_types[i]]. *)
Fixpoint set_required (i : nat) (names : list value) (this_types : list value)
    (v : dict) : outcome dict :=
  match names with
  | [] => Ok v
  | req :: rest =>
      t <- match nth_error this_types i with
           | Some t => Ok t
           | None => Raise IndexError
           end ;;
      if hashable req then set_required (S i) rest this_types (dict_set req t v)
      else Raise TypeError
  end.

(** The value [create_obj] builds for the definition selected by name
    and hands to the editor, with the statements of the method that can
    raise before the editor receives it: the copy of the definition's
    [notes] for the notes view, and the two assignments to the copy [s]
    of the definition that becomes the editor's schema.  The widgets are
    left out.  [d] is [self.schema["definitions"][name]], which the
    method looks up anew for the notes. *)
Definition create_obj (fuel : nat) (name : string) : outcome value :=
  d <- py_getitem (VDict definitions) `name ;;
  s <- py_copy d ;;
  v <- _get_type fuel s ;;
  v <- match v with
       | VDict v0 =>
           res <- _get_properties fuel s ;;
           match res with
           | None => Raise TypeError
           | Some (this_props, this_req, this_types) =>
               has_type <- py_in `"@type" this_props ;;
               v1 <- (if has_type : bool then
                        ns <- _get_ndrm_type fuel name s ;;
                        Ok (dict_set `"@type" (VList ns) v0)
                      else Ok v0) ;;
               has_id <- py_in `"@id" this_props ;;
               let v2 := if has_id : bool then dict_set `"@id" `"" v1 else v1 in
               names <- py_iter this_req ;;
               v3 <- set_required 0 names this_types v2 ;;
               has_notes <- py_in `"notes" d ;;
               _ <- (if has_notes : bool then
                       notes <- py_getitem d `"notes" ;;
                       py_copy notes
                     else Ok VNone) ;;
               Ok (VDict v3)
           end
       | _ => Ok v
       end ;;
  s <- py_setitem s `"definitions" (VDict definitions) ;;
  _ <- py_setitem s `"title" `name ;;
  Ok v.

End Resolver.

(** ** Vocabulary of the specification *)

(** A JSON object and a list of names, as [json.loads] decodes them: the
    keys of an object are strings. *)
Definition obj (members : list (string * value)) : value :=
  VDict (map (fun kv => (VStr (fst kv), snd kv)) members).

Definition defs_of (members : list (string * value)) : dict :=
  map (fun kv => (VStr (fst kv), snd kv)) members.

Definition strs (names : list string) : value := VList (map VStr names).

(** The member [k] of an object with members [d]. *)
Definition key (k : string) (d : dict) : option value := dict_get (VStr k) d.

(** The last segment of a [$ref] path: the name of the definition it
    points to. *)
Definition target (r : string) : string := last (split "/"%char r) EmptyString.

(** Every key of [d] is a string. *)
Definition str_keys (d : dict) : Prop :=
  Forall (fun kv => exists s, fst kv = VStr s) d.

(** An [anyOf] alternative the scan passes over: an object without a
    [type], or one whose [type] is the literal ["null"]. *)
Definition skipped (alt : value) : Prop :=
  exists a, alt = VDict a /\ (key "type" a = None \/ key "type" a = Some `"null").

(** An [anyOf] alternative without an explicit [type]. *)
Definition untyped (alt : value) : Prop :=
  exists a, alt = VDict a /\ key "type" a = None.

(** An [allOf] entry that is an object without [$ref]. *)
Definition inline (entry : value) : Prop :=
  exists e, entry = VDict e /\ key "$ref" e = None.

(** Every element is a string. *)
Definition all_strings (l : list value) : Prop :=
  Forall (fun n => exists s, n = VStr s) l.

(** The type chain in the words of the specification: the qualified name,
    then the chain of every [allOf] entry that carries a [$ref], each in
    full and in listed order; without [allOf], the chain of the [$ref]
    target; without either, nothing more. *)
Inductive chain (defs : dict) : string -> value -> list value -> Prop :=
| chain_base name d :
    key "allOf" d = None ->
    key "$ref" d = None ->
    chain defs name (VDict d) [qualified name]
| chain_ref name d r s l :
    key "allOf" d = None ->
    key "$ref" d = Some (VStr r) ->
    key (target r) defs = Some s ->
    chain defs (target r) s l ->
    chain defs name (VDict d) (qualified name :: l)
| chain_allOf name d entries ls :
    key "allOf" d = Some (VList entries) ->
    parents defs entries ls ->
    chain defs name (VDict d) (qualified name :: List.concat ls)
with parents (defs : dict) : list value -> list (list value) -> Prop :=
| parents_nil : parents defs [] []
| parents_plain e rest ls :
    key "$ref" e = None ->
    parents defs rest ls ->
    parents defs (VDict e :: rest) ls
| parents_ref e r s l rest ls :
    key "$ref" e = Some (VStr r) ->
    key (target r) defs = Some s ->
    chain defs (target r) s l ->
    parents defs rest ls ->
    parents defs (VDict e :: rest) (l :: ls).

Scheme chain_parents_ind := Induction for chain Sort Prop
  with parents_chain_ind := Induction for parents Sort Prop.

(** The shape the data model gives a node, as far as the type chain
    reads it: a [$ref] is a path string, and [allOf] is a sequence of
    objects. *)
Definition ref_ok (d : dict) : Prop :=
  forall r, key "$ref" d = Some r -> exists path, r = VStr path.

Definition node_ok (schema : value) : Prop :=
  exists d,
    schema = VDict d /\ ref_ok d /\
    forall a, key "allOf" d = Some a ->
      exists entries,
        a = VList entries /\
        Forall (fun e => exists ed, e = VDict ed /\ ref_ok ed) entries.

Definition defs_ok (defs : dict) : Prop :=
  forall n s, key n defs = Some s -> node_ok s.

(** First-writer-wins: the bindings of [m] are added to [acc] in order, a
    name already present is left as it is. *)
Definition first_writer_wins (acc m : dict) : dict :=
  fold_left
    (fun acc kv => if dict_has (fst kv) acc then acc else acc ++ [kv]) m acc.

(** Append-if-absent: the names are added to [acc] in order, a name
    already present is not added again. *)
Definition append_if_absent (acc names : list value) : list value :=
  fold_left
    (fun acc n => if existsb (fun e => py_eq e n) acc then acc else acc ++ [n])
    names acc.

(** The same on required names paired with their defaults: a pair is
    appended when its name is absent. *)
Definition append_defaults (acc nts : list (value * value)) : list (value * value) :=
  fold_left
    (fun acc nt =>
       if existsb (fun e => py_eq (fst e) (fst nt)) acc then acc else acc ++ [nt])
    nts acc.

(** No two elements are equal under [==]. *)
Definition distinct (l : list value) : Prop :=
  ForallOrdPairs (fun a b => py_eq a b = false) l.

(** The properties an [allOf] entry declares itself. *)
Definition own_properties (e p : dict) : Prop :=
  (key "properties" e = None /\ p = []) \/
  (key "properties" e = Some (VDict p) /\ str_keys p).

(** What an [allOf] entry offers to the composition that [_get_properties
    defs (S fuel)] computes: property bindings, in order, and required
    names with their defaults.  An inline entry, one without [$ref],
    offers its own properties and the names of its [required] list, with
    the [_get_prop_type] of each name in the entry; an entry with a
    [$ref] and without [required] offers the properties of the referenced
    definition after its own, and the required names and defaults of that
    definition. *)
Inductive offers (defs : dict) (fuel : nat)
    : value -> dict -> list (value * value) -> Prop :=
| offers_required e p r names tys :
    own_properties e p ->
    key "$ref" e = None ->
    key "required" e = Some r ->
    py_iter r = Ok names ->
    Forall2 (fun n t => _get_prop_type defs (S fuel) n (VDict e) = Ok t) names tys ->
    offers defs fuel (VDict e) p (combine names tys)
| offers_plain e p :
    own_properties e p ->
    key "required" e = None ->
    key "$ref" e = None ->
    offers defs fuel (VDict e) p []
| offers_ref e p r s tp tr names tys :
    own_properties e p ->
    key "required" e = None ->
    key "$ref" e = Some (VStr r) ->
    key (target r) defs = Some s ->
    _get_properties defs fuel s = Ok (Some (VDict tp, tr, tys)) ->
    str_keys tp ->
    py_iter tr = Ok names ->
    offers defs fuel (VDict e) (p ++ tp) (combine names tys).

(** The entries of an [allOf] list with what each of them offers. *)
Inductive all_offers (defs : dict) (fuel : nat)
    : list value -> list dict -> list (list (value * value)) -> Prop :=
| all_offers_nil : all_offers defs fuel [] [] []
| all_offers_cons dic p nts entries ps ntss :
    offers defs fuel dic p nts ->
    all_offers defs fuel entries ps ntss ->
    all_offers defs fuel (dic :: entries) (p :: ps) (nts :: ntss).

(** What "the properties operation merges each entry's properties and
    unions the entries' required names" promises of an object node that
    carries [allOf], at the least: the call returns a triple, every
    property an entry declares is a key of the returned property map, and
    every name an entry lists as required is in the returned required
    list. *)
Definition merges_every_entry (defs : dict) (fuel : nat) (schema : value)
    : Prop :=
  forall d v0 entries,
    schema = VDict d ->
    key "allOf" d = Some (VList entries) ->
    _get_type defs fuel schema = Ok (VDict v0) ->
    exists props required tys,
      _get_properties defs fuel schema =
      Ok (Some (VDict props, VList required, tys)) /\
      (forall e p k,
         In (VDict e) entries -> key "properties" e = Some (VDict p) ->
         dict_has k p = true -> dict_has k props = true) /\
      (forall e names n,
         In (VDict e) entries -> key "required" e = Some (VList names) ->
         In n names -> In n required).

(** The call raises a [LookupError]. *)
Definition signals_LookupError {A : Type} (o : outcome A) : Prop :=
  exists e, o = Raise e /\ is_LookupError e = true.

(** The reading of "a [$ref] target that is not a key of the definitions
    signals a [LookupError], never a silent result": on a node that
    carries a [$ref] to a name outside the definitions, both [_get_type]
    and [_get_properties] raise a [LookupError]. *)
Definition unknown_target_signals (defs : dict) (fuel : nat) (schema : value)
    : Prop :=
  forall d r,
    schema = VDict d ->
    key "$ref" d = Some (VStr r) ->
    key (target r) defs = None ->
    signals_LookupError (_get_type defs fuel schema) /\
    signals_LookupError (_get_properties defs fuel schema).

(** The reading of "the default of each required property is
    [defaultValue] of that property's own sub-schema": every returned
    default is the [_get_type] of the sub-schema the returned property map
    binds to the required name. *)
Definition defaults_by_defaultValue (defs : dict) (fuel : nat) (schema : value)
    : Prop :=
  forall props req tys names,
    _get_properties defs fuel schema = Ok (Some (props, req, tys)) ->
    py_iter req = Ok names ->
    Forall2
      (fun n t =>
         exists sub, py_getitem props n = Ok sub /\ _get_type defs fuel sub = Ok t)
      names tys.

(** Where the default [t] of a required name [n] comes from in the
    composition that [_get_properties defs (S fuel)] computes: from an
    entry that lists [n] as required, as the [_get_prop_type] of [n] in
    that entry, or from an entry without [required] that refers to a
    definition, as the default this definition's triple pairs with [n]. *)
Definition default_from_entry (defs : dict) (fuel : nat) (dic n t : value)
    : Prop :=
  (exists e r names,
     dic = VDict e /\ key "required" e = Some r /\ py_iter r = Ok names /\
     In n names /\ _get_prop_type defs (S fuel) n dic = Ok t) \/
  (exists e r s tp tr tys names i,
     dic = VDict e /\ key "required" e = None /\ key "$ref" e = Some (VStr r) /\
     key (target r) defs = Some s /\
     _get_properties defs fuel s = Ok (Some (tp, tr, tys)) /\
     py_iter tr = Ok names /\
     nth_error names i = Some n /\ nth_error tys i = Some t).

(** The entry offers [n] as a required name. *)
Definition lists_required (defs : dict) (fuel : nat) (dic n : value) : Prop :=
  exists p nts t, offers defs fuel dic p nts /\ In (n, t) nts.

(** The outcome [o'] of a call with more depth agrees with the outcome
    [o] of the call with less, unless the latter ran out of depth. *)
Definition settled_in {A : Type} (o o' : outcome A) : Prop :=
  o = OutOfFuel \/ o' = o.

(** ** Example schemas *)

(** The definitions [Foo -> Bar -> Baz] of the specification's example. *)
Definition foo_bar_baz : dict :=
  defs_of [("Foo", obj [("$ref", `"#/definitions/Bar")]);
           ("Bar", obj [("$ref", `"#/definitions/Baz")]);
           ("Baz", obj [("type", `"object")])].

(** A diamond: [D] inherits from [B] and [C], which both inherit from
    [A]. *)
Definition diamond : dict :=
  defs_of [("A", obj [("type", `"object")]);
           ("B", obj [("allOf", VList [obj [("$ref", `"#/definitions/A")]])]);
           ("C", obj [("allOf", VList [obj [("$ref", `"#/definitions/A")];
                                       obj [("properties", obj [])]])]);
           ("D", obj [("allOf", VList [obj [("$ref", `"#/definitions/B")];
                                       obj [("$ref", `"#/definitions/C")]])])].

(** The specification's example: [A] requires [x], [B] requires [x] and
    [y], and both declare [x], with different shapes. *)
Definition entry_A : value :=
  obj [("properties", obj [("x", obj [("type", `"string")])]);
       ("required", strs ["x"])].

Definition entry_B : value :=
  obj [("properties", obj [("x", obj [("type", `"array")]);
                           ("y", obj [("type", `"array")])]);
       ("required", strs ["x"; "y"])].

(** A definition with one required property, and a node that inherits
    from it. *)
Definition base_defs : dict :=
  defs_of [("Base", obj [("properties", obj [("a", obj [("type", `"string")])]);
                         ("required", strs ["a"])])].

(** A definition of the array kind. *)
Definition bar_defs : dict := defs_of [("Bar", obj [("type", `"array")])].

(** A composition whose first entry declares [x] as an array and whose
    second entry lists [x] as required. *)
Definition split_required : value :=
  obj [("allOf", VList [obj [("properties", obj [("x", obj [("type", `"array")])])];
                        obj [("required", strs ["x"])]])].

(** Nodes that carry [allOf] next to [properties] and next to [$ref],
    and a node whose [allOf] entry refers to a definition of the object
    kind without properties. *)
Definition allOf_beside_properties : value :=
  obj [("properties", obj [("own", obj [("type", `"string")])]);
       ("allOf", VList [entry_A])].

Definition allOf_beside_ref : value :=
  obj [("$ref", `"#/definitions/Base"); ("allOf", VList [entry_A])].

Definition bare_defs : dict := defs_of [("Bare", obj [("type", `"object")])].

Definition allOf_of_bare : value :=
  obj [("allOf", VList [obj [("$ref", `"#/definitions/Bare")]])].

(** Nodes that carry a [$ref] to a name that is not defined, next to a
    [type] and next to [properties]. *)
Definition ghost_string : value :=
  obj [("type", `"string"); ("$ref", `"#/definitions/Ghost")].

Definition ghost_object : value :=
  obj [("type", `"object"); ("$ref", `"#/definitions/Ghost")].

Definition ghost_properties : value :=
  obj [("properties", obj [("a", obj [("type", `"string")])]);
       ("$ref", `"#/definitions/Ghost")].

(** The [Person] scenario of the specification. *)
Definition person_defs : dict :=
  defs_of [("Person",
            obj [("properties", obj [("name", obj [("type", `"string")]);
                                     ("age", obj [("type", `"string")])]);
                 ("required", strs ["name"])])].

(** Two definitions that refer to each other. *)
Definition ping_pong : dict :=
  defs_of [("Ping", obj [("$ref", `"#/definitions/Pong")]);
           ("Pong", obj [("$ref", `"#/definitions/Ping")])].

(** A definition that declares ["@type"] and ["@id"] and requires
    ["@type"], one of the object kind without properties, and one of the
    string kind. *)
Definition typed_defs : dict :=
  defs_of [("Thing",
            obj [("properties", obj [("@type", obj [("type", `"array")]);
                                     ("@id", obj [("type", `"string")]);
                                     ("name", obj [("type", `"string")])]);
                 ("required", strs ["@type"; "name"])]);
           ("Bare", obj [("type", `"object")]);
           ("Text", obj [("type", `"string")])].

(** The properties and the required names of [Thing]. *)
Definition thing_properties : dict :=
  [(`"@type", obj [("type", `"array")]);
   (`"@id", obj [("type", `"string")]);
   (`"name", obj [("type", `"string")])].

(** [Thing] with the [notes] the schemas carry, a list of strings, and
    with [notes] that are a single string. *)
Definition noted : dict :=
  [(`"properties", VDict thing_properties);
   (`"required", strs ["@type"; "name"]);
   (`"notes", strs ["A thing."])].

Definition scribbled : dict :=
  [(`"properties", VDict thing_properties);
   (`"required", strs ["@type"; "name"]);
   (`"notes", `"A thing.")].

Definition noted_defs : dict :=
  [(`"Noted", VDict noted); (`"Scribbled", VDict scribbled)].

(** The members of a core schema and of an extension schema that
    redefines [B] and adds [C]. *)
Definition core_members : dict :=
  [(`"title", `"core");
   (`"definitions", obj [("A", obj [("type", `"string")]);
                         ("B", obj [("type", `"string")])])].

Definition ext_members : dict :=
  [(`"definitions", obj [("B", obj [("type", `"array")]);
                         ("C", obj [("$ref", `"#/definitions/A")])])].

(** ** The schema document, the selector and the meta data *)

(** [f"{name} list"]. *)
Definition list_key (name : string) : string := (name ++ " list")%string.

(** The property [set_schema] declares in the output schema for the
    definition [key]. *)
Definition list_property (key : string) : value :=
  VDict [(`"description", VStr ("List of " ++ key ++ " objects")%string);
         (`"type", `"array");
         (`"items", VDict [(`"$ref", VStr ("#/definitions/" ++ key)%string)])].

(** [for key, val in ext_schema["definitions"].items():
       self.schema["definitions"][key] = val].
    The assignment changes the dict that [self.schema] holds under
    ["definitions"]; the last line of the body writes the changed dict
    back into its place. *)
Fixpoint include_definitions (items : list (value * value)) (schema : value)
    : outcome value :=
  match items with
  | [] => Ok schema
  | (key, val) :: rest =>
      defs <- py_getitem schema `"definitions" ;;
      defs' <- py_setitem defs key val ;;
      schema' <- py_setitem schema `"definitions" defs' ;;
      include_definitions rest schema'
  end.

(** [for key, val in self.schema["definitions"].items(): ...] in
    [set_schema]: [prop_link] is the [properties] dict of [MetaData] and
    [out_defs] is [self.out_schema["definitions"]].  [key + " list"] is a
    [TypeError] unless [key] is a string. *)
Fixpoint declare_lists (items : list (value * value)) (prop_link out_defs : dict)
    : outcome (dict * dict) :=
  match items with
  | [] => Ok (prop_link, out_defs)
  | (key, val) :: rest =>
      match key with
      | VStr k =>
          declare_lists rest
            (dict_set (VStr (list_key k)) (list_property k) prop_link)
            (dict_set key val out_defs)
      | _ => Raise TypeError
      end
  end.

(** What [set_schema] computes from the two decoded documents, the core
    schema and the extension schema: [self.schema] and
    [self.out_schema].  Fetching and decoding the documents is left
    out. *)
Definition set_schema (schema ext_schema : value) : outcome (value * value) :=
  ext_defs <- py_getitem ext_schema `"definitions" ;;
  ext_items <- py_items ext_defs ;;
  schema <- include_definitions ext_items schema ;;
  defs <- py_getitem schema `"definitions" ;;
  items <- py_items defs ;;
  '(prop_link, out_defs) <- declare_lists items [(`"title", `"Meta Data")] [] ;;
  Ok (schema,
      VDict [(`"title", `"MetaData");
             (`"MetaData", VDict [(`"properties", VDict prop_link)]);
             (`"definitions", VDict out_defs);
             (`"$ref", `"#/MetaData")]).

(** The options of the object selector that [init_layout] builds:
    [self.schema_name], the names of the definitions, sorted.  The schema
    view is built first from [self.schema["definitions"].items()]. *)
Definition schema_name (schema : value) : outcome (list value) :=
  defs <- py_getitem schema `"definitions" ;;
  _ <- py_items defs ;;
  names <- py_iter defs ;;
  py_sort names.

(** [x.append(v)], where [v] is [self.layout[1][1][0].value]: only
    [list] has the method, and only an editor has a value; a spacer in
    the editor's place has none.  Both are an [AttributeError]. *)
Definition append_editor_value (x : value) (object_editor : option value)
    : outcome value :=
  match x with
  | VList l =>
      match object_editor with
      | Some v => Ok (VList (l ++ [v]))
      | None => Raise AttributeError
      end
  | _ => Raise AttributeError
  end.

(** The value of the meta data editor after [add_obj]: [tmp_data] is its
    value before, [selected] the name in the selector and [object_editor]
    the value of the object's editor, if there is one.  An
    [AttributeError] is caught and leaves the data as it was. *)
Definition add_obj (tmp_data : value) (selected : string)
    (object_editor : option value) : outcome value :=
  let key := VStr (list_key selected) in
  let attempt :=
    present <- py_in key tmp_data ;;
    if present : bool then
      l <- py_getitem tmp_data key ;;
      l' <- append_editor_value l object_editor ;;
      py_setitem tmp_data key l'
    else
      match object_editor with
      | Some v => py_setitem tmp_data key (VList [v])
      | None => Raise AttributeError
      end in
  match attempt with
  | Raise AttributeError => Ok tmp_data
  | o => o
  end.

(** ** Vocabulary of the further properties *)

(** The three values the docstring of [_get_type] names: the empty list,
    the empty string and the empty dict. *)
Definition default_kind (v : value) : Prop :=
  v = VList [] \/ v = `"" \/ v = VDict [].

(** A node that does nothing but refer to a definition: [_get_type],
    [_get_ndrm_type] and [_get_properties] all follow its [$ref]. *)
Definition refers_to (defs : dict) (schema next : value) : Prop :=
  exists d r,
    schema = VDict d /\
    key "properties" d = None /\ key "type" d = None /\
    key "anyOf" d = None /\ key "allOf" d = None /\
    key "$ref" d = Some (VStr r) /\
    key (target r) defs = Some next.

(** A set of nodes that refer to one another and to nothing else: from
    each of them the references lead back into the set, as on a cycle. *)
Definition ref_cycle (defs : dict) (nodes : value -> Prop) : Prop :=
  forall schema, nodes schema ->
    exists next, refers_to defs schema next /\ nodes next.

(** A qualified name of a definition that exists. *)
Definition names_a_definition (defs : dict) (v : value) : Prop :=
  exists n, v = qualified n /\ dict_has (VStr n) defs = true.

(** The [notes] of a definition, when it has any, are a list or a dict:
    the values with a [copy] method, which returns them. *)
Definition notes_can_be_copied (d : dict) : Prop :=
  forall notes, key "notes" d = Some notes -> py_copy notes = Ok notes.

(** The dict [create_obj] has built before it sets the required
    names. *)
Definition preset (p : dict) (chain : list value) : dict :=
  let v1 := if dict_has `"@type" p then dict_set `"@type" (VList chain) [] else [] in
  if dict_has `"@id" p then dict_set `"@id" `"" v1 else v1.

(** The assignments [d[key] = val] for the bindings of [items], in
    order. *)
Definition assign_all (items acc : dict) : dict :=
  fold_left (fun acc kv => dict_set (fst kv) (snd kv) acc) items acc.

(** In a sorted list, [b] may follow [a]: [b < a] does not hold. *)
Definition ascending (a b : value) : Prop := py_lt b a = Ok false.

(** What the meta data lists under the key of the selected name: nothing
    yet, or the elements of a list. *)
Definition listed (d : dict) (selected : string) (old : list value) : Prop :=
  (key (list_key selected) d = None /\ old = []) \/
  key (list_key selected) d = Some (VList old).

(** Two nodes that differ in the path of their [$ref] at most, the two
    paths ending in the same segment. *)
Definition same_but_path (d d' : dict) : Prop :=
  (forall k, k <> "$ref" -> key k d = key k d') /\
  exists r r',
    key "$ref" d = Some (VStr r) /\ key "$ref" d' = Some (VStr r') /\
    target r = target r'.

(** The properties [set_schema] declares for the definitions named
    [names], in their order. *)
Definition declared_lists (names : list string) : dict :=
  map (fun n => (VStr (list_key n), list_property n)) names.

(** A dict as [json.loads] builds it: its keys are strings, each once. *)
Definition well_keyed (d : dict) : Prop :=
  str_keys d /\ NoDup (map fst d).

(** The string has no ["/"]. *)
Fixpoint no_slash (s : string) : bool :=
  match s with
  | EmptyString => true
  | String c s' => negb (Ascii.eqb c "/"%char) && no_slash s'
  end.

(** ** Outcomes *)

Lemma bind_Ok {A B : Type} (c : outcome A) (k : A -> outcome B) b :
  bind c k = Ok b -> exists a, c = Ok a /\ k a = Ok b.
Proof. destruct c; cbn; intros H; try discriminate. eauto. Qed.

(** ** Probing objects *)

Section Probing.

Variables (k : string) (d : dict).

Lemma in_absent : key k d = None -> py_in `k (VDict d) = Ok false.
Proof. unfold key, py_in, dict_has; cbn [hashable]; intros ->; reflexivity. Qed.

Lemma in_present v : key k d = Some v -> py_in `k (VDict d) = Ok true.
Proof. unfold key, py_in, dict_has; cbn [hashable]; intros ->; reflexivity. Qed.

Lemma getitem_absent : key k d = None -> py_getitem (VDict d) `k = Raise (KeyError `k).
Proof. unfold key, py_getitem; cbn [hashable]; intros ->; reflexivity. Qed.

Lemma getitem_present v : key k d = Some v -> py_getitem (VDict d) `k = Ok v.
Proof. unfold key, py_getitem; cbn [hashable]; intros ->; reflexivity. Qed.

End Probing.

(** Rewrites the probes of an object whose members are known. *)
Ltac probe :=
  repeat match goal with
    | H : key ?k ?d = None |- context [py_in (VStr ?k) (VDict ?d)] =>
        rewrite (in_absent k d H)
    | H : key ?k ?d = Some ?v |- context [py_in (VStr ?k) (VDict ?d)] =>
        rewrite (in_present k d v H)
    | H : key ?k ?d = None |- context [py_getitem (VDict ?d) (VStr ?k)] =>
        rewrite (getitem_absent k d H)
    | H : key ?k ?d = Some ?v |- context [py_getitem (VDict ?d) (VStr ?k)] =>
        rewrite (getitem_present k d v H)
    | |- _ => progress cbn [bind]
    end.

(** [t == "s"] holds for the string ["s"] only. *)
Lemma py_eq_str t s : py_eq t `s = true <-> t = `s.
Proof.
  destruct t; cbn; try (split; [discriminate | intros [=]]).
  rewrite String.eqb_eq. split; [intros -> | intros [= ->]]; reflexivity.
Qed.

Lemma py_eq_str_neq t s : t <> `s -> py_eq t `s = false.
Proof.
  intros H. destruct (py_eq t `s) eqn:E; [|reflexivity].
  apply py_eq_str in E. contradiction.
Qed.

Lemma translate_array : _translate_type `"array" = VList [].
Proof. reflexivity. Qed.

Lemma translate_string : _translate_type `"string" = `"".
Proof. reflexivity. Qed.

Lemma translate_other t :
  t <> `"array" -> t <> `"string" -> _translate_type t = VDict [].
Proof.
  intros Ha Hs. unfold _translate_type.
  rewrite (py_eq_str_neq _ _ Ha), (py_eq_str_neq _ _ Hs). reflexivity.
Qed.

(** ** Default values *)

Section DefaultValue.

Variable defs : dict.

Lemma _get_type_typed fuel d t :
  key "properties" d = None ->
  key "type" d = Some t ->
  _get_type defs (S fuel) (VDict d) = Ok (_translate_type t).
Proof. intros Hp Ht. cbn [_get_type]. probe. reflexivity. Qed.

Lemma _get_type_shapeless fuel d :
  key "properties" d = None ->
  key "type" d = None ->
  key "anyOf" d = None ->
  key "$ref" d = None ->
  _get_type defs (S fuel) (VDict d) = Ok (VDict []).
Proof. intros Hp Ht Ha Hr. cbn [_get_type]. probe. reflexivity. Qed.

(** C4.  A node without [properties], [$ref], [allOf] and [anyOf] has
    the empty list as default when its [type] is ["array"], the empty
    string when it is ["string"], and the empty mapping for any other
    [type] and for none; in each case the call returns and nothing is
    raised. *)
Theorem default_of_plain_node fuel d :
  key "properties" d = None ->
  key "$ref" d = None ->
  key "allOf" d = None ->
  key "anyOf" d = None ->
  (key "type" d = Some `"array" ->
     _get_type defs (S fuel) (VDict d) = Ok (VList [])) /\
  (key "type" d = Some `"string" ->
     _get_type defs (S fuel) (VDict d) = Ok `"") /\
  (forall t, key "type" d = Some t -> t <> `"array" -> t <> `"string" ->
     _get_type defs (S fuel) (VDict d) = Ok (VDict [])) /\
  (key "type" d = None ->
     _get_type defs (S fuel) (VDict d) = Ok (VDict [])) /\
  (exists v, _get_type defs (S fuel) (VDict d) = Ok v).
Proof.
  intros Hp Hr Hall Hany. split; [|split; [|split; [|split]]].
  - intros Ht. now rewrite (_get_type_typed _ _ _ Hp Ht).
  - intros Ht. now rewrite (_get_type_typed _ _ _ Hp Ht).
  - intros t Ht Ha Hs.
    rewrite (_get_type_typed _ _ _ Hp Ht), (translate_other _ Ha Hs).
    reflexivity.
  - intros Ht. apply _get_type_shapeless; assumption.
  - destruct (key "type" d) as [t|] eqn:Ht.
    + eexists. apply _get_type_typed; eassumption.
    + eexists. apply _get_type_shapeless; assumption.
Qed.

End DefaultValue.

Lemma default_of_plain_node_witness :
  _get_type [] 1 (obj [("type", `"array")]) = Ok (VList []) /\
  _get_type [] 1 (obj [("type", `"string")]) = Ok `"" /\
  _get_type [] 1 (obj [("type", `"number")]) = Ok (VDict []) /\
  _get_type [] 1 (obj [("description", `"free text")]) = Ok (VDict []).
Proof.
  split; [|split; [|split]].
  - apply (default_of_plain_node [] 0 [(`"type", `"array")]); reflexivity.
  - apply (default_of_plain_node [] 0 [(`"type", `"string")]); reflexivity.
  - apply (default_of_plain_node [] 0 [(`"type", `"number")]) with (t := `"number");
      (reflexivity || discriminate).
  - apply (default_of_plain_node [] 0 [(`"description", `"free text")]); reflexivity.
Defined.

(** ** The scan of [anyOf] alternatives *)

Section AnyOf.

Variable defs : dict.

Lemma anyOf_type_skip alt rest v :
  skipped alt -> anyOf_type (alt :: rest) v = anyOf_type rest v.
Proof.
  intros (a & -> & [Ht | Ht]); cbn [anyOf_type]; probe; reflexivity.
Qed.

Lemma anyOf_type_skip_all pre rest v :
  Forall skipped pre -> anyOf_type (pre ++ rest) v = anyOf_type rest v.
Proof.
  induction 1 as [|alt pre Halt _ IH]; [reflexivity|].
  rewrite <- app_comm_cons, anyOf_type_skip by assumption. exact IH.
Qed.

Lemma anyOf_type_hit a t rest v :
  key "type" a = Some t -> t <> `"null" ->
  anyOf_type (VDict a :: rest) v = Ok (_translate_type t).
Proof.
  intros Ht Hn. cbn [anyOf_type]. probe.
  rewrite (py_eq_str_neq _ _ Hn). reflexivity.
Qed.

Lemma untyped_skipped alt : untyped alt -> skipped alt.
Proof. intros (a & -> & Ht). exists a. auto. Qed.

Lemma _get_type_anyOf fuel d alts :
  key "properties" d = None ->
  key "type" d = None ->
  key "anyOf" d = Some (VList alts) ->
  _get_type defs (S fuel) (VDict d) = anyOf_type alts (VDict []).
Proof. intros Hp Ht Ha. cbn [_get_type]. probe. reflexivity. Qed.

(** C3.  On a node without [properties] and [type] but with [anyOf],
    the default is the mapped default of the first alternative that
    carries a [type] other than ["null"]: the alternatives before it,
    which carry no [type] or the type ["null"], are passed over, and
    the alternatives after it are not looked at.  The mapped default is
    the empty list for ["array"], the empty string for ["string"] and the
    empty mapping for any other type.  When no alternative carries a
    [type], and also when every alternative that carries one has the
    type ["null"], the default is the empty mapping. *)
Theorem default_of_first_non_null_alternative fuel d alts :
  key "properties" d = None ->
  key "type" d = None ->
  key "anyOf" d = Some (VList alts) ->
  (forall pre a t post,
     alts = pre ++ VDict a :: post ->
     Forall skipped pre ->
     key "type" a = Some t ->
     t <> `"null" ->
     _get_type defs (S fuel) (VDict d) = Ok (_translate_type t) /\
     (t = `"array" -> _get_type defs (S fuel) (VDict d) = Ok (VList [])) /\
     (t = `"string" -> _get_type defs (S fuel) (VDict d) = Ok `"") /\
     (t <> `"array" -> t <> `"string" ->
        _get_type defs (S fuel) (VDict d) = Ok (VDict []))) /\
  (Forall untyped alts ->
     _get_type defs (S fuel) (VDict d) = Ok (VDict [])) /\
  (Forall skipped alts ->
     _get_type defs (S fuel) (VDict d) = Ok (VDict [])).
Proof.
  intros Hp Ht Ha. rewrite (_get_type_anyOf _ _ _ Hp Ht Ha).
  split; [|split].
  - intros pre a t post -> Hpre Hat Hn.
    rewrite anyOf_type_skip_all by assumption.
    rewrite (anyOf_type_hit _ _ _ _ Hat Hn).
    split; [reflexivity|]. split; [|split].
    + intros ->. reflexivity.
    + intros ->. reflexivity.
    + intros Harr Hstr. rewrite (translate_other _ Harr Hstr). reflexivity.
  - intros Hall.
    rewrite <- (app_nil_r alts), anyOf_type_skip_all; [reflexivity|].
    eapply Forall_impl; [|exact Hall]. apply untyped_skipped.
  - intros Hall.
    rewrite <- (app_nil_r alts), anyOf_type_skip_all; [reflexivity | exact Hall].
Qed.

End AnyOf.

Lemma default_of_first_non_null_alternative_witness :
  _get_type [] 1
    (obj [("anyOf", VList [obj [("type", `"null")]; obj [("type", `"array")]])])
  = Ok (VList []) /\
  _get_type [] 1
    (obj [("anyOf", VList [obj [("type", `"null")]; obj [("type", `"string")];
                           obj [("type", `"array")]])])
  = Ok `"" /\
  _get_type [] 1
    (obj [("anyOf", VList [obj [("title", `"a")]; obj [("type", `"number")];
                           obj [("type", `"array")]])])
  = Ok (VDict []) /\
  _get_type [] 1
    (obj [("anyOf", VList [obj [("title", `"a")]; obj [("minimum", VInt 0)]])])
  = Ok (VDict []) /\
  _get_type [] 1
    (obj [("anyOf", VList [obj [("type", `"null")]; obj [("title", `"a")]])])
  = Ok (VDict []).
Proof.
  split; [|split; [|split; [|split]]].
  - apply (default_of_first_non_null_alternative [] 0
             [(`"anyOf", VList [obj [("type", `"null")]; obj [("type", `"array")]])]
             [obj [("type", `"null")]; obj [("type", `"array")]]
             eq_refl eq_refl eq_refl)
      with (pre := [obj [("type", `"null")]]) (a := [(`"type", `"array")])
           (post := []) (t := `"array").
    + reflexivity.
    + constructor; [|constructor].
      exists [(`"type", `"null")]. split; [reflexivity | right; reflexivity].
    + reflexivity.
    + discriminate.
    + reflexivity.
  - apply (default_of_first_non_null_alternative [] 0
             [(`"anyOf", VList [obj [("type", `"null")]; obj [("type", `"string")];
                                obj [("type", `"array")]])]
             [obj [("type", `"null")]; obj [("type", `"string")];
              obj [("type", `"array")]]
             eq_refl eq_refl eq_refl)
      with (pre := [obj [("type", `"null")]]) (a := [(`"type", `"string")])
           (post := [obj [("type", `"array")]]) (t := `"string").
    + reflexivity.
    + constructor; [|constructor].
      exists [(`"type", `"null")]. split; [reflexivity | right; reflexivity].
    + reflexivity.
    + discriminate.
    + reflexivity.
  - apply (default_of_first_non_null_alternative [] 0
             [(`"anyOf", VList [obj [("title", `"a")]; obj [("type", `"number")];
                                obj [("type", `"array")]])]
             [obj [("title", `"a")]; obj [("type", `"number")];
              obj [("type", `"array")]]
             eq_refl eq_refl eq_refl)
      with (pre := [obj [("title", `"a")]]) (a := [(`"type", `"number")])
           (post := [obj [("type", `"array")]]) (t := `"number").
    + reflexivity.
    + constructor; [|constructor].
      exists [(`"title", `"a")]. split; [reflexivity | left; reflexivity].
    + reflexivity.
    + discriminate.
    + discriminate.
    + discriminate.
  - destruct (default_of_first_non_null_alternative [] 0
                [(`"anyOf", VList [obj [("title", `"a")]; obj [("minimum", VInt 0)]])]
                [obj [("title", `"a")]; obj [("minimum", VInt 0)]]
                eq_refl eq_refl eq_refl) as (_ & Huntyped & _).
    apply Huntyped.
    constructor; [|constructor; [|constructor]].
    + exists [(`"title", `"a")]. split; reflexivity.
    + exists [(`"minimum", VInt 0)]. split; reflexivity.
  - destruct (default_of_first_non_null_alternative [] 0
                [(`"anyOf", VList [obj [("type", `"null")]; obj [("title", `"a")]])]
                [obj [("type", `"null")]; obj [("title", `"a")]]
                eq_refl eq_refl eq_refl) as (_ & _ & Hskipped).
    apply Hskipped.
    constructor; [|constructor; [|constructor]].
    + exists [(`"type", `"null")]. split; [reflexivity | right; reflexivity].
    + exists [(`"title", `"a")]. split; [reflexivity | left; reflexivity].
Defined.

(** ** Property types, missing members and unknown definitions *)

Section Lookup.

Variable defs : dict.

(** C9.  For a property name that the [properties] mapping of the
    schema does not bind, and for a schema without [properties], the
    property type is the empty string. *)
Theorem property_type_of_missing_property fuel name d :
  key "properties" d = None \/
  (exists p, key "properties" d = Some (VDict p) /\ key name p = None) ->
  _get_prop_type defs fuel `name (VDict d) = Ok `"".
Proof.
  unfold _get_prop_type. intros [Hp | (p & Hp & Hn)]; probe; reflexivity.
Qed.

(** C10.  A node that resolves to the mapping kind and carries none of
    [properties], [$ref] and [allOf] makes [_get_properties] end
    without a [return]: the call evaluates to [None], not to a triple
    of empty collections. *)
Theorem properties_of_shapeless_object fuel d v0 :
  key "properties" d = None ->
  key "$ref" d = None ->
  key "allOf" d = None ->
  _get_type defs (S fuel) (VDict d) = Ok (VDict v0) ->
  _get_properties defs (S fuel) (VDict d) = Ok None.
Proof.
  intros Hp Hr Ha Ht. cbn [_get_properties]. rewrite Ht.
  cbn [bind is_dict]. probe. reflexivity.
Qed.

Lemma _get_type_ref fuel d r :
  key "properties" d = None ->
  key "type" d = None ->
  key "anyOf" d = None ->
  key "$ref" d = Some `r ->
  _get_type defs (S fuel) (VDict d) =
  (s <- py_getitem (VDict defs) (VStr (target r)) ;; _get_type defs fuel s).
Proof. intros Hp Ht Ha Hr. cbn [_get_type]. probe. reflexivity. Qed.

End Lookup.

Lemma property_type_of_missing_property_witness :
  _get_prop_type [] 0 `"age" (obj [("type", `"object")]) = Ok `"" /\
  _get_prop_type [] 0 `"age"
    (obj [("properties", obj [("name", obj [("type", `"array")])])]) = Ok `"".
Proof.
  split.
  - apply (property_type_of_missing_property [] 0 "age" [(`"type", `"object")]).
    left. reflexivity.
  - apply (property_type_of_missing_property [] 0 "age"
             [(`"properties", obj [("name", obj [("type", `"array")])])]).
    right. exists [(`"name", obj [("type", `"array")])]. split; reflexivity.
Defined.

Lemma properties_of_shapeless_object_witness :
  _get_properties [] 1 (obj [("type", `"object")]) = Ok None /\
  _get_properties [] 1 (obj []) = Ok None.
Proof.
  split.
  - apply (properties_of_shapeless_object [] 0 [(`"type", `"object")] []);
      reflexivity.
  - apply (properties_of_shapeless_object [] 0 [] []); reflexivity.
Defined.

(** ** The type chain *)

Section TypeChain.

Variable defs : dict.

Lemma _get_ndrm_type_base fuel name d :
  key "allOf" d = None -> key "$ref" d = None ->
  _get_ndrm_type defs (S fuel) name (VDict d) = Ok [qualified name].
Proof. intros Ha Hr. cbn [_get_ndrm_type]. probe. reflexivity. Qed.

Lemma _get_ndrm_type_ref fuel name d r s :
  key "allOf" d = None -> key "$ref" d = Some `r ->
  key (target r) defs = Some s ->
  _get_ndrm_type defs (S fuel) name (VDict d) =
  (ns <- _get_ndrm_type defs fuel (target r) s ;; Ok (qualified name :: ns)).
Proof.
  intros Ha Hr Hs. cbn [_get_ndrm_type]. probe.
  unfold ref_name; fold (target r). probe. reflexivity.
Qed.

Lemma _get_ndrm_type_allOf fuel name d entries :
  key "allOf" d = Some (VList entries) ->
  _get_ndrm_type defs (S fuel) name (VDict d) =
  allOf_chain defs (_get_ndrm_type defs fuel) entries [qualified name].
Proof. intros Ha. cbn [_get_ndrm_type]. probe. reflexivity. Qed.

Lemma allOf_chain_plain rec e rest v :
  key "$ref" e = None ->
  allOf_chain defs rec (VDict e :: rest) v = allOf_chain defs rec rest v.
Proof. intros Hr. cbn [allOf_chain]. probe. reflexivity. Qed.

Lemma allOf_chain_ref rec e r s rest v :
  key "$ref" e = Some `r ->
  key (target r) defs = Some s ->
  allOf_chain defs rec (VDict e :: rest) v =
  (ns <- rec (target r) s ;; allOf_chain defs rec rest (v ++ ns)).
Proof.
  intros Hr Hs. cbn [allOf_chain]. probe.
  unfold ref_name; fold (target r). probe. reflexivity.
Qed.

(** The chains of the specification are the ones the code returns,
    whenever it is given enough depth. *)
Lemma chain_computed name schema l :
  chain defs name schema l ->
  exists fuel, forall fuel', fuel <= fuel' ->
    _get_ndrm_type defs fuel' name schema = Ok l.
Proof.
  intros H.
  induction H using chain_parents_ind with
    (P0 := fun entries ls _ =>
             exists fuel, forall fuel', fuel <= fuel' -> forall v,
               allOf_chain defs (_get_ndrm_type defs fuel') entries v
               = Ok (v ++ List.concat ls)).
  - exists 1. intros [|fuel'] Hle; [lia|].
    apply _get_ndrm_type_base; assumption.
  - destruct IHchain as [fuel IH]. exists (S fuel).
    intros [|fuel'] Hle; [lia|].
    rewrite (_get_ndrm_type_ref _ _ _ _ _ e e0 e1), IH by lia. reflexivity.
  - destruct IHchain as [fuel IH]. exists (S fuel).
    intros [|fuel'] Hle; [lia|].
    rewrite (_get_ndrm_type_allOf _ _ _ _ e), IH by lia. reflexivity.
  - exists 0. intros fuel' _ v. cbn. rewrite app_nil_r. reflexivity.
  - destruct IHchain as [fuel IH]. exists fuel. intros fuel' Hle v.
    rewrite allOf_chain_plain by assumption. apply IH, Hle.
  - destruct IHchain as [f1 IH1], IHchain0 as [f2 IH2].
    exists (Nat.max f1 f2). intros fuel' Hle v.
    rewrite (allOf_chain_ref _ _ _ _ _ _ e0 e1), IH1 by lia. cbn [bind].
    rewrite IH2 by lia. cbn [List.concat]. rewrite app_assoc. reflexivity.
Qed.

Lemma allOf_chain_ref_lookup rec e r rest v :
  key "$ref" e = Some `r ->
  allOf_chain defs rec (VDict e :: rest) v =
  (s <- py_getitem (VDict defs) (VStr (target r)) ;;
   ns <- rec (target r) s ;;
   allOf_chain defs rec rest (v ++ ns)).
Proof.
  intros Hr. cbn [allOf_chain]. probe.
  unfold ref_name; fold (target r). probe. reflexivity.
Qed.

Lemma _get_ndrm_type_ref_lookup fuel name d r :
  key "allOf" d = None -> key "$ref" d = Some `r ->
  _get_ndrm_type defs (S fuel) name (VDict d) =
  (s <- py_getitem (VDict defs) (VStr (target r)) ;;
   ns <- _get_ndrm_type defs fuel (target r) s ;;
   Ok (qualified name :: ns)).
Proof.
  intros Ha Hr. cbn [_get_ndrm_type]. probe.
  unfold ref_name; fold (target r). probe. reflexivity.
Qed.

(** On nodes of the data model's shape, whatever the code returns is a
    chain of the specification. *)
Lemma computed_chain :
  defs_ok defs ->
  forall fuel name schema l,
    node_ok schema ->
    _get_ndrm_type defs fuel name schema = Ok l ->
    chain defs name schema l.
Proof.
  intros Hdefs. induction fuel as [|fuel IH]; intros name schema l Hnode Hrun.
  - discriminate.
  - destruct Hnode as (d & -> & Href & Hall).
    destruct (key "allOf" d) as [a|] eqn:Ha.
    + destruct (Hall a eq_refl) as (entries & -> & Hentries).
      rewrite (_get_ndrm_type_allOf _ _ _ _ Ha) in Hrun.
      assert (Hloop : forall v l0,
                allOf_chain defs (_get_ndrm_type defs fuel) entries v = Ok l0 ->
                exists ls, parents defs entries ls /\ l0 = v ++ List.concat ls).
      { clear Hrun Ha Hall. induction Hentries as [|e entries (ed & -> & Hed) _ IHe];
          intros v l0 Hl0.
        - injection Hl0 as <-. exists []. split; [constructor|].
          cbn. rewrite app_nil_r. reflexivity.
        - destruct (key "$ref" ed) as [r|] eqn:Hr.
          + destruct (Hed r Hr) as [path ->].
            revert Hl0. rewrite (allOf_chain_ref_lookup _ _ _ _ _ Hr).
            destruct (key (target path) defs) as [s|] eqn:Hs; probe;
              [|discriminate].
            intros Hl0. apply bind_Ok in Hl0 as (ns & Hns & Hl0).
            destruct (IHe _ _ Hl0) as (ls & Hls & ->).
            exists (ns :: ls). split.
            * eapply parents_ref; eauto.
            * cbn [List.concat]. rewrite app_assoc. reflexivity.
          + rewrite (allOf_chain_plain _ _ _ _ Hr) in Hl0.
            destruct (IHe _ _ Hl0) as (ls & Hls & ->).
            exists ls. split; [|reflexivity]. apply parents_plain; assumption. }
      destruct (Hloop _ _ Hrun) as (ls & Hls & ->).
      apply chain_allOf with (entries := entries); assumption.
    + destruct (key "$ref" d) as [r|] eqn:Hr.
      * destruct (Href r Hr) as [path ->].
        revert Hrun. rewrite (_get_ndrm_type_ref_lookup _ _ _ _ Ha Hr).
        destruct (key (target path) defs) as [s|] eqn:Hs; probe;
          [|discriminate].
        intros Hrun. apply bind_Ok in Hrun as (ns & Hns & [= <-]).
        eapply chain_ref; eauto.
      * rewrite (_get_ndrm_type_base _ _ _ Ha Hr) in Hrun.
        injection Hrun as <-. apply chain_base; assumption.
Qed.

End TypeChain.

(** C2.  The type chain is the qualified name followed by the chains of
    the parents as the specification lists them, each [allOf] entry with a
    [$ref] in full and in listed order, otherwise the [$ref] target,
    otherwise nothing: every chain so described is what [_get_ndrm_type]
    returns at any sufficient depth, and on nodes of the data model's
    shape it returns nothing else.  For [Foo -> Bar -> Baz] it is
    [ndrm:Foo, ndrm:Bar, ndrm:Baz], and a repeated ancestor stays
    repeated. *)
Theorem type_chain_lists_parents_in_order :
  (forall defs name schema l,
     chain defs name schema l ->
     exists fuel, forall fuel', fuel <= fuel' ->
       _get_ndrm_type defs fuel' name schema = Ok l) /\
  (forall defs fuel name schema l,
     defs_ok defs ->
     node_ok schema ->
     _get_ndrm_type defs fuel name schema = Ok l ->
     chain defs name schema l) /\
  _get_ndrm_type foo_bar_baz 3 "Foo" (obj [("$ref", `"#/definitions/Bar")])
  = Ok [`"ndrm:Foo"; `"ndrm:Bar"; `"ndrm:Baz"] /\
  _get_ndrm_type diamond 3 "D"
    (obj [("allOf", VList [obj [("$ref", `"#/definitions/B")];
                           obj [("$ref", `"#/definitions/C")]])])
  = Ok [`"ndrm:D"; `"ndrm:B"; `"ndrm:A"; `"ndrm:C"; `"ndrm:A"].
Proof.
  split; [exact chain_computed|]. split; [|split; reflexivity].
  intros defs fuel name schema l Hdefs Hnode Hrun.
  exact (computed_chain defs Hdefs fuel name schema l Hnode Hrun).
Qed.

Lemma type_chain_lists_parents_in_order_witness :
  exists fuel,
    _get_ndrm_type foo_bar_baz fuel "Foo" (obj [("$ref", `"#/definitions/Bar")])
    = Ok [qualified "Foo"; qualified "Bar"; qualified "Baz"].
Proof.
  destruct type_chain_lists_parents_in_order as [H _].
  destruct (H foo_bar_baz "Foo" (obj [("$ref", `"#/definitions/Bar")])
              [qualified "Foo"; qualified "Bar"; qualified "Baz"]) as [fuel Hf].
  - apply chain_ref with (r := "#/definitions/Bar") (s := obj [("$ref", `"#/definitions/Baz")]);
      try reflexivity.
    apply chain_ref with (r := "#/definitions/Baz") (s := obj [("type", `"object")]);
      try reflexivity.
    apply chain_base; reflexivity.
  - exists fuel. apply Hf. apply Nat.le_refl.
Defined.

(** ** Keys and dictionaries *)

Lemma key_eq_refl k : hashable k = true -> key_eq k k = true.
Proof.
  destruct k; cbn; intros H; try discriminate; trivial.
  - apply Bool.eqb_reflx.
  - apply Z.eqb_refl.
  - apply String.eqb_refl.
Qed.

Lemma key_eq_compat a b c : key_eq a b = true -> key_eq c a = key_eq c b.
Proof.
  destruct a, b; cbn; intros H; try discriminate;
    repeat match goal with
      | H : Bool.eqb _ _ = true |- _ => apply Bool.eqb_prop in H; subst
      | H : Z.eqb _ _ = true |- _ => apply Z.eqb_eq in H; subst
      | H : String.eqb _ _ = true |- _ => apply String.eqb_eq in H; subst
      end;
    try reflexivity.
  - destruct c; cbn; try reflexivity. destruct b, b0; reflexivity.
  - destruct c; cbn; try reflexivity. destruct b, b0; reflexivity.
Qed.

Lemma dict_get_compat a b d : key_eq a b = true -> dict_get a d = dict_get b d.
Proof.
  intros H. induction d as [|[k v] d IH]; cbn; [reflexivity|].
  rewrite (key_eq_compat _ _ k H), IH. reflexivity.
Qed.

Lemma dict_get_app k d1 d2 :
  dict_get k (d1 ++ d2) =
  match dict_get k d1 with Some v => Some v | None => dict_get k d2 end.
Proof.
  induction d1 as [|[k' v'] d1 IH]; cbn; [reflexivity|].
  destruct (key_eq k' k); [reflexivity | exact IH].
Qed.

Lemma dict_set_fresh k v d : dict_get k d = None -> dict_set k v d = d ++ [(k, v)].
Proof.
  induction d as [|[k' v'] d IH]; cbn; [reflexivity|].
  destruct (key_eq k' k); [discriminate|].
  intros H. rewrite (IH H). reflexivity.
Qed.

Lemma dict_has_false k d : dict_has k d = false <-> dict_get k d = None.
Proof. unfold dict_has. destruct (dict_get k d); split; congruence. Qed.

Lemma str_keys_hashable d kv : str_keys d -> In kv d -> hashable (fst kv) = true.
Proof.
  unfold str_keys. rewrite Forall_forall. intros H Hin.
  destruct (H _ Hin) as [s ->]. reflexivity.
Qed.

Lemma str_keys_app d1 d2 : str_keys d1 -> str_keys d2 -> str_keys (d1 ++ d2).
Proof. unfold str_keys. intros. apply Forall_app. auto. Qed.

(** A lookup in the merged map finds the earlier writer. *)
Lemma dict_get_first_writer_wins k m : forall acc,
  dict_get k (first_writer_wins acc m) =
  match dict_get k acc with Some v => Some v | None => dict_get k m end.
Proof.
  unfold first_writer_wins.
  induction m as [|[k' v'] m IH]; intros acc; cbn [fold_left fst].
  - destruct (dict_get k acc); reflexivity.
  - rewrite IH. cbn [dict_get]. unfold dict_has.
    destruct (dict_get k' acc) as [w|] eqn:Hk'.
    + destruct (dict_get k acc) eqn:Hk; [reflexivity|].
      destruct (key_eq k' k) eqn:E; [|reflexivity].
      rewrite (dict_get_compat _ _ _ E) in Hk'. congruence.
    + rewrite dict_get_app. cbn [dict_get].
      destruct (dict_get k acc); [reflexivity|].
      destruct (key_eq k' k); reflexivity.
Qed.

Lemma first_writer_wins_app acc m1 m2 :
  first_writer_wins acc (m1 ++ m2) =
  first_writer_wins (first_writer_wins acc m1) m2.
Proof. apply fold_left_app. Qed.

(** In a fold of merges the first map that binds a name decides. *)
Lemma dict_get_merged k v : forall pre p post acc,
  dict_get k acc = None ->
  Forall (fun q => dict_get k q = None) pre ->
  dict_get k p = Some v ->
  dict_get k (fold_left first_writer_wins (pre ++ p :: post) acc) = Some v.
Proof.
  assert (Hkeep : forall ms acc, dict_get k acc = Some v ->
            dict_get k (fold_left first_writer_wins ms acc) = Some v).
  { induction ms as [|m ms IH]; intros acc H; [exact H|].
    cbn [fold_left]. apply IH. rewrite dict_get_first_writer_wins, H.
    reflexivity. }
  induction pre as [|q pre IH]; intros p post acc Hacc Hpre Hp; cbn [app fold_left].
  - apply Hkeep. rewrite dict_get_first_writer_wins, Hacc. exact Hp.
  - inversion Hpre; subst. apply IH; trivial.
    rewrite dict_get_first_writer_wins, Hacc. assumption.
Qed.

(** ** The loops of the [allOf] composition *)

Lemma absent_from_present k out q0 :
  Forall (fun kv : value * value => dict_has (fst kv) out = true) q0 ->
  dict_has k out = false ->
  dict_get k q0 = None.
Proof.
  intros Hq0 Hk. induction Hq0 as [|[k0 v0] q0 Hk0 _ IH]; cbn; [reflexivity|].
  destruct (key_eq k0 k) eqn:E; [|exact IH].
  cbn in Hk0. unfold dict_has in *.
  rewrite (dict_get_compat _ _ _ E) in Hk0.
  destruct (dict_get k out); discriminate.
Qed.

(** Copying the bindings of a dict that are not yet in [out_props] is the
    first-writer-wins merge. *)
Lemma merge_props_suffix item p :
  str_keys p ->
  (forall k, item k = py_getitem (VDict p) k) ->
  forall q q0 out,
    p = q0 ++ q ->
    Forall (fun kv => dict_has (fst kv) out = true) q0 ->
    merge_props item (map fst q) out = Ok (first_writer_wins out q).
Proof.
  intros Hstr Hitem. induction q as [|[k v] q IH]; intros q0 out Hp Hq0.
  - reflexivity.
  - assert (Hk : hashable k = true).
    { apply (str_keys_hashable p (k, v) Hstr). rewrite Hp.
      apply in_or_app. right. left. reflexivity. }
    cbn [map fst merge_props]. unfold py_in. rewrite Hk. cbn [bind].
    unfold first_writer_wins. cbn [fold_left fst].
    destruct (dict_has k out) eqn:E.
    + apply (IH (q0 ++ [(k, v)])).
      * rewrite <- app_assoc. exact Hp.
      * apply Forall_app. split; [exact Hq0|]. constructor; [exact E|constructor].
    + rewrite Hitem. unfold py_getitem. rewrite Hk, Hp, dict_get_app.
      rewrite (absent_from_present _ _ _ Hq0 E). cbn [dict_get].
      rewrite (key_eq_refl _ Hk). cbn [bind].
      apply dict_has_false in E. rewrite (dict_set_fresh _ _ _ E).
      apply (IH (q0 ++ [(k, v)])).
      * rewrite <- app_assoc. exact Hp.
      * apply Forall_app. split.
        -- eapply Forall_impl; [|exact Hq0]. intros [k0 v0]. unfold dict_has.
           rewrite dict_get_app. destruct (dict_get (fst (k0, v0)) out); trivial.
           discriminate.
        -- constructor; [|constructor]. unfold dict_has. cbn [fst].
           rewrite dict_get_app, E. cbn. rewrite (key_eq_refl _ Hk). reflexivity.
Qed.

Lemma merge_props_dict item p out :
  str_keys p ->
  (forall k, item k = py_getitem (VDict p) k) ->
  merge_props item (map fst p) out = Ok (first_writer_wins out p).
Proof.
  intros Hstr Hitem.
  apply (merge_props_suffix item p Hstr Hitem p [] out); [reflexivity|constructor].
Qed.

Lemma existsb_combine_fst (f : value -> bool) : forall (l1 l2 : list value),
  List.length l1 = List.length l2 ->
  existsb (fun e => f (fst e)) (combine l1 l2) = existsb f l1.
Proof.
  induction l1 as [|a l1 IH]; intros [|b l2] Hlen; cbn; try discriminate;
    try reflexivity.
  rewrite IH by (cbn in Hlen; lia). reflexivity.
Qed.

Lemma fst_combine : forall (l1 l2 : list value),
  List.length l1 = List.length l2 -> map fst (combine l1 l2) = l1.
Proof.
  induction l1 as [|a l1 IH]; intros [|b l2] Hlen; cbn in *; try discriminate;
    [reflexivity|].
  rewrite IH by lia. reflexivity.
Qed.

Lemma snd_combine : forall (l1 l2 : list value),
  List.length l1 = List.length l2 -> map snd (combine l1 l2) = l2.
Proof.
  induction l1 as [|a l1 IH]; intros [|b l2] Hlen; cbn in *; try discriminate;
    [reflexivity|].
  rewrite IH by lia. reflexivity.
Qed.

Lemma combine_snoc (l1 l2 : list value) a b :
  List.length l1 = List.length l2 ->
  combine (l1 ++ [a]) (l2 ++ [b]) = combine l1 l2 ++ [(a, b)].
Proof.
  revert l2. induction l1 as [|x l1 IH]; intros [|y l2] Hlen; cbn in *;
    try discriminate; [reflexivity|].
  rewrite IH by lia. reflexivity.
Qed.

(** Appending the absent names together with their defaults keeps the two
    lists in step with the merge of pairs. *)
Lemma merge_required_spec default_of : forall names tys i req rtys,
  List.length names = List.length tys ->
  List.length req = List.length rtys ->
  (forall j n t, nth_error names j = Some n -> nth_error tys j = Some t ->
                 default_of (i + j) n = Ok t) ->
  merge_required default_of i names req rtys =
  Ok (map fst (append_defaults (combine req rtys) (combine names tys)),
      map snd (append_defaults (combine req rtys) (combine names tys))).
Proof.
  induction names as [|n names IH]; intros [|t tys] i req rtys Hlen Hacc Hdef;
    try discriminate.
  - cbn. rewrite fst_combine, snd_combine by lia. reflexivity.
  - cbn [merge_required combine]. unfold py_in. cbn [bind].
    unfold append_defaults. cbn [fold_left fst].
    rewrite (existsb_combine_fst (fun e => py_eq e n)) by exact Hacc.
    destruct (existsb (fun e => py_eq e n) req).
    + apply IH; [cbn in Hlen; lia | exact Hacc |].
      intros j n' t' Hn Ht. replace (S i + j) with (i + S j) by lia.
      apply Hdef; assumption.
    + pose proof (Hdef 0 n t eq_refl eq_refl) as Hd.
      replace (i + 0) with i in Hd by lia. rewrite Hd.
      cbn [bind]. rewrite <- combine_snoc by exact Hacc.
      apply IH; [cbn in Hlen; lia | rewrite !length_app; cbn; lia |].
      intros j n' t' Hn Ht. replace (S i + j) with (i + S j) by lia.
      apply Hdef; assumption.
Qed.

Lemma Forall2_nth_error {A B : Type} (R : A -> B -> Prop) l1 l2 :
  Forall2 R l1 l2 ->
  forall j a b, nth_error l1 j = Some a -> nth_error l2 j = Some b -> R a b.
Proof.
  induction 1 as [|x y l1 l2 Hxy _ IH]; intros [|j] a b Ha Hb; cbn in *;
    try discriminate.
  - injection Ha as <-. injection Hb as <-. exact Hxy.
  - eapply IH; eassumption.
Qed.

Lemma combine_fst_snd (l : list (value * value)) :
  combine (map fst l) (map snd l) = l.
Proof.
  induction l as [|[a b] l IH]; cbn; [reflexivity|]. rewrite IH. reflexivity.
Qed.

(** ** Depth *)

Lemma settled_refl {A : Type} (o : outcome A) : settled_in o o.
Proof. right. reflexivity. Qed.

Lemma bind_settled {A B : Type} (c c' : outcome A) (k k' : A -> outcome B) :
  settled_in c c' ->
  (forall a, settled_in (k a) (k' a)) ->
  settled_in (bind c k) (bind c' k').
Proof.
  intros [-> | ->] Hk; [left; reflexivity|].
  destruct c; cbn; [apply Hk | right; reflexivity | left; reflexivity].
Qed.

Lemma settled_Ok {A : Type} (o o' : outcome A) a :
  settled_in o o' -> o = Ok a -> o' = Ok a.
Proof. intros [-> | ->]; [discriminate | trivial]. Qed.

Lemma settled_Raise {A : Type} (o o' : outcome A) e :
  settled_in o o' -> o = Raise e -> o' = Raise e.
Proof. intros [-> | ->]; [discriminate | trivial]. Qed.

(** Goes through two computations that differ in their recursive calls
    only; [tac] settles those. *)
Ltac settle tac :=
  repeat first
    [ apply settled_refl
    | tac
    | apply bind_settled; [|intros ?]
    | match goal with
      | |- settled_in (if ?b then _ else _) (if ?b then _ else _) => destruct b
      | |- settled_in (match ?x with _ => _ end) (match ?x with _ => _ end) =>
          destruct x
      end ].

Section Depth.

Variable defs : dict.

Lemma _get_type_deeper : forall fuel fuel' schema,
  fuel <= fuel' ->
  settled_in (_get_type defs fuel schema) (_get_type defs fuel' schema).
Proof.
  induction fuel as [|fuel IH]; intros [|fuel'] schema Hle;
    [left; reflexivity | left; reflexivity | lia |].
  cbn [_get_type]. settle ltac:(apply IH; lia).
Qed.

Lemma anyOf_prop_ref_deeper fuel fuel' prop alts :
  fuel <= fuel' ->
  settled_in (anyOf_prop_ref defs fuel prop alts)
             (anyOf_prop_ref defs fuel' prop alts).
Proof.
  intros Hle. induction alts as [|dic alts IH]; cbn [anyOf_prop_ref].
  - apply settled_refl.
  - settle ltac:(first [exact IH | apply _get_type_deeper; exact Hle]).
Qed.

Lemma _get_prop_type_deeper fuel fuel' name schema :
  fuel <= fuel' ->
  settled_in (_get_prop_type defs fuel name schema)
             (_get_prop_type defs fuel' name schema).
Proof.
  intros Hle. unfold _get_prop_type.
  settle ltac:(first [ apply _get_type_deeper; exact Hle
                     | apply anyOf_prop_ref_deeper; exact Hle ]).
Qed.

Lemma required_defaults_deeper fuel fuel' schema names :
  fuel <= fuel' ->
  settled_in (required_defaults defs fuel schema names)
             (required_defaults defs fuel' schema names).
Proof.
  intros Hle. induction names as [|n names IH]; cbn [required_defaults].
  - apply settled_refl.
  - settle ltac:(first [exact IH | apply _get_prop_type_deeper; exact Hle]).
Qed.

Lemma merge_required_deeper f f' :
  (forall i n, settled_in (f i n) (f' i n)) ->
  forall names i req tys,
    settled_in (merge_required f i names req tys)
               (merge_required f' i names req tys).
Proof.
  intros Hf. induction names as [|n names IH]; intros i req tys;
    cbn [merge_required].
  - apply settled_refl.
  - settle ltac:(first [apply IH | apply Hf]).
Qed.

Lemma allOf_entry_deeper rec rec' fuel fuel' dic acc :
  (forall s, settled_in (rec s) (rec' s)) ->
  fuel <= fuel' ->
  settled_in (allOf_entry defs rec fuel dic acc)
             (allOf_entry defs rec' fuel' dic acc).
Proof.
  intros Hrec Hle. unfold allOf_entry. destruct acc as [[out req] tys].
  settle ltac:(first [ apply Hrec
                     | apply merge_required_deeper; intros;
                       first [ apply _get_prop_type_deeper; exact Hle
                             | apply settled_refl ] ]).
Qed.

Lemma allOf_props_deeper rec rec' fuel fuel' :
  (forall s, settled_in (rec s) (rec' s)) ->
  fuel <= fuel' ->
  forall entries acc,
    settled_in (allOf_props defs rec fuel entries acc)
               (allOf_props defs rec' fuel' entries acc).
Proof.
  intros Hrec Hle. induction entries as [|dic entries IH]; intros acc;
    cbn [allOf_props].
  - apply settled_refl.
  - settle ltac:(first [apply IH | apply allOf_entry_deeper; assumption]).
Qed.

Lemma _get_properties_deeper : forall fuel fuel' schema,
  fuel <= fuel' ->
  settled_in (_get_properties defs fuel schema)
             (_get_properties defs fuel' schema).
Proof.
  induction fuel as [|fuel IH]; intros [|fuel'] schema Hle;
    [left; reflexivity | left; reflexivity | lia |].
  cbn [_get_properties].
  settle ltac:(first [ apply IH; lia
                     | apply _get_type_deeper; exact Hle
                     | apply required_defaults_deeper; exact Hle
                     | apply allOf_props_deeper;
                       [intros; apply IH; lia | exact Hle] ]).
Qed.

Lemma allOf_chain_deeper rec rec' :
  (forall n s, settled_in (rec n s) (rec' n s)) ->
  forall entries v,
    settled_in (allOf_chain defs rec entries v) (allOf_chain defs rec' entries v).
Proof.
  intros Hrec. induction entries as [|dic entries IH]; intros v;
    cbn [allOf_chain].
  - apply settled_refl.
  - settle ltac:(first [apply IH | apply Hrec]).
Qed.

Lemma _get_ndrm_type_deeper : forall fuel fuel' name schema,
  fuel <= fuel' ->
  settled_in (_get_ndrm_type defs fuel name schema)
             (_get_ndrm_type defs fuel' name schema).
Proof.
  induction fuel as [|fuel IH]; intros [|fuel'] name schema Hle;
    [left; reflexivity | left; reflexivity | lia |].
  cbn [_get_ndrm_type].
  settle ltac:(first [ apply IH; lia
                     | apply allOf_chain_deeper; intros; apply IH; lia ]).
Qed.

End Depth.

(** ** Required names and their defaults stay in step *)

Section InStep.

Variable defs : dict.

Lemma required_defaults_length fuel schema : forall names tys,
  required_defaults defs fuel schema names = Ok tys ->
  List.length names = List.length tys.
Proof.
  induction names as [|n names IH]; intros tys H; cbn [required_defaults] in H.
  - injection H as <-. reflexivity.
  - apply bind_Ok in H as (t & _ & H). apply bind_Ok in H as (ts & Hts & H).
    injection H as <-. cbn. rewrite (IH _ Hts). reflexivity.
Qed.

Lemma merge_required_lengths default_of : forall names i req tys req' tys',
  merge_required default_of i names req tys = Ok (req', tys') ->
  List.length req = List.length tys ->
  List.length req' = List.length tys'.
Proof.
  induction names as [|n names IH]; intros i req tys req' tys' H Hlen;
    cbn [merge_required] in H.
  - injection H as <- <-. exact Hlen.
  - apply bind_Ok in H as ([|] & _ & H).
    + exact (IH _ _ _ _ _ H Hlen).
    + apply bind_Ok in H as (t & _ & H).
      apply (IH _ _ _ _ _ H). rewrite !length_app. cbn. lia.
Qed.

Lemma allOf_entry_lengths rec fuel dic out req tys out' req' tys' :
  allOf_entry defs rec fuel dic (out, req, tys) = Ok (out', req', tys') ->
  List.length req = List.length tys ->
  List.length req' = List.length tys'.
Proof.
  unfold allOf_entry. intros H Hlen.
  apply bind_Ok in H as (has_properties & _ & H).
  apply bind_Ok in H as (out1 & _ & H).
  apply bind_Ok in H as ([|] & _ & H).
  - apply bind_Ok in H as (r & _ & H). apply bind_Ok in H as (names & _ & H).
    apply bind_Ok in H as ([req1 tys1] & Hm & H). injection H as _ <- <-.
    exact (merge_required_lengths _ _ _ _ _ _ _ Hm Hlen).
  - apply bind_Ok in H as ([|] & _ & H).
    + apply bind_Ok in H as (r & _ & H). apply bind_Ok in H as (n & _ & H).
      apply bind_Ok in H as (s & _ & H). apply bind_Ok in H as (res & _ & H).
      destruct res as [[[tmp_props tmp_req] tmp_req_types]|]; [|discriminate].
      apply bind_Ok in H as (props & _ & H). apply bind_Ok in H as (out2 & _ & H).
      apply bind_Ok in H as (names & _ & H).
      apply bind_Ok in H as ([req1 tys1] & Hm & H). injection H as _ <- <-.
      exact (merge_required_lengths _ _ _ _ _ _ _ Hm Hlen).
    + injection H as _ <- <-. exact Hlen.
Qed.

Lemma allOf_props_lengths rec fuel : forall entries out req tys out' req' tys',
  allOf_props defs rec fuel entries (out, req, tys) = Ok (out', req', tys') ->
  List.length req = List.length tys ->
  List.length req' = List.length tys'.
Proof.
  induction entries as [|dic entries IH]; intros out req tys out' req' tys' H Hlen;
    cbn [allOf_props] in H.
  - injection H as _ <- <-. exact Hlen.
  - apply bind_Ok in H as ([[out1 req1] tys1] & He & H).
    apply (IH _ _ _ _ _ _ H). exact (allOf_entry_lengths _ _ _ _ _ _ _ _ _ He Hlen).
Qed.

(** Whatever triple [_get_properties] returns, iterating over its
    required names yields as many names as there are defaults. *)
Lemma _get_properties_in_step : forall fuel schema props required tys,
  _get_properties defs fuel schema = Ok (Some (props, required, tys)) ->
  exists names, py_iter required = Ok names /\ List.length names = List.length tys.
Proof.
  induction fuel as [|fuel IH]; intros schema props required tys H; [discriminate|].
  cbn [_get_properties] in H.
  apply bind_Ok in H as (v & _ & H).
  destruct (is_dict v).
  2:{ injection H as _ <- <-. exists []. split; reflexivity. }
  apply bind_Ok in H as ([|] & _ & H).
  - apply bind_Ok in H as (has_required & _ & H).
    apply bind_Ok in H as ([required1 tys1] & Hreq & H).
    apply bind_Ok in H as (p & _ & H). apply bind_Ok in H as (pc & _ & H).
    injection H as _ <- <-.
    destruct has_required.
    + apply bind_Ok in Hreq as (r & _ & Hreq).
      apply bind_Ok in Hreq as (rc & _ & Hreq).
      apply bind_Ok in Hreq as (names & Hnames & Hreq).
      apply bind_Ok in Hreq as (ts & Hts & Hreq). injection Hreq as <- <-.
      exists names. split; [exact Hnames|].
      exact (required_defaults_length _ _ _ _ Hts).
    + injection Hreq as <- <-. exists []. split; reflexivity.
  - apply bind_Ok in H as ([|] & _ & H).
    + apply bind_Ok in H as (r & _ & H). apply bind_Ok in H as (n & _ & H).
      apply bind_Ok in H as (s & _ & H). exact (IH _ _ _ _ H).
    + apply bind_Ok in H as ([|] & _ & H); [|discriminate].
      apply bind_Ok in H as (a & _ & H). apply bind_Ok in H as (entries & _ & H).
      apply bind_Ok in H as ([[out req] ts] & Hloop & H). injection H as _ <- <-.
      exists req. split; [reflexivity|].
      exact (allOf_props_lengths _ _ _ _ _ _ _ _ _ Hloop eq_refl).
Qed.

End InStep.

Section Composition.

Variables (defs : dict) (fuel : nat).

(** The first step of the loop body: the entry's own properties. *)
Lemma own_properties_merged out e p (k : dict -> outcome accumulator) :
  own_properties e p ->
  (has_properties <- py_in `"properties" (VDict e) ;;
   out_props <-
     (if has_properties : bool then
        p1 <- py_getitem (VDict e) `"properties" ;;
        props <- py_iter p1 ;;
        merge_props
          (fun prop => p2 <- py_getitem (VDict e) `"properties" ;;
                       py_getitem p2 prop)
          props out
      else Ok out) ;;
   k out_props) = k (first_writer_wins out p).
Proof.
  intros [[Hp ->] | [Hp Hstr]]; probe; [reflexivity|].
  cbn [py_iter]. cbn [bind].
  rewrite (merge_props_dict _ p out Hstr); [reflexivity|].
  intros k0. probe. reflexivity.
Qed.

Lemma allOf_props_app rec entries rest : forall acc,
  allOf_props defs rec (S fuel) (entries ++ rest) acc =
  (acc' <- allOf_props defs rec (S fuel) entries acc ;;
   allOf_props defs rec (S fuel) rest acc').
Proof.
  induction entries as [|dic entries IH]; intros acc; cbn [app allOf_props bind];
    [reflexivity|].
  destruct (allOf_entry defs rec (S fuel) dic acc); cbn [bind]; auto.
Qed.

(** One entry of [allOf] merges what it offers into the accumulator. *)
Lemma allOf_entry_spec dic p nts out req rtys :
  offers defs fuel dic p nts ->
  List.length req = List.length rtys ->
  allOf_entry defs (_get_properties defs fuel) (S fuel) dic (out, req, rtys) =
  Ok (first_writer_wins out p,
      map fst (append_defaults (combine req rtys) nts),
      map snd (append_defaults (combine req rtys) nts)).
Proof.
  intros Hoff Hlen. unfold allOf_entry.
  pose proof (own_properties_merged out) as Hown.
  destruct Hoff as [e p r names tys Hp _ Hr Hn Hd
                   | e p Hp Hr Href
                   | e p r s tp tr names tys Hp Hr Href Hs Hrec Hstr Hn].
  - rewrite (Hown e p _ Hp). probe. rewrite Hn. cbn [bind].
    rewrite (merge_required_spec _ names tys 0 req rtys);
      [reflexivity | eapply Forall2_length; exact Hd | exact Hlen |].
    intros j n t Hj Ht. exact (Forall2_nth_error _ _ _ Hd j n t Hj Ht).
  - rewrite (Hown e p _ Hp). probe. cbn [combine append_defaults fold_left].
    rewrite fst_combine, snd_combine by exact Hlen. reflexivity.
  - assert (Hl : List.length names = List.length tys).
    { destruct (_get_properties_in_step _ _ _ _ _ _ Hrec) as (names' & Hn' & Hl).
      rewrite Hn in Hn'. injection Hn' as <-. exact Hl. }
    rewrite (Hown e p _ Hp). probe.
    unfold split_last; fold (target r). probe.
    rewrite Hrec. cbn [bind py_iter].
    rewrite (merge_props_dict _ tp _ Hstr) by reflexivity. cbn [bind].
    rewrite Hn. cbn [bind].
    rewrite (merge_required_spec _ names tys 0 req rtys);
      [| exact Hl | exact Hlen |].
    + cbn [bind]. rewrite first_writer_wins_app. reflexivity.
    + intros j n t _ Ht. cbn [Nat.add]. rewrite Ht. reflexivity.
Qed.

(** The loop over the entries folds the two merges over what the
    entries offer. *)
Lemma allOf_props_spec entries ps ntss :
  all_offers defs fuel entries ps ntss ->
  forall out req rtys,
    List.length req = List.length rtys ->
    allOf_props defs (_get_properties defs fuel) (S fuel) entries (out, req, rtys) =
    Ok (fold_left first_writer_wins ps out,
        map fst (fold_left append_defaults ntss (combine req rtys)),
        map snd (fold_left append_defaults ntss (combine req rtys))).
Proof.
  induction 1 as [|dic p nts entries ps ntss Hoff _ IH]; intros out req rtys Hlen.
  - cbn. rewrite fst_combine, snd_combine by exact Hlen. reflexivity.
  - cbn [allOf_props fold_left].
    rewrite (allOf_entry_spec _ _ _ _ _ _ Hoff Hlen). cbn [bind].
    rewrite IH by (rewrite !length_map; reflexivity).
    rewrite combine_fst_snd. reflexivity.
Qed.

(** The composition case of [_get_properties]. *)
Lemma _get_properties_allOf d v0 entries ps ntss :
  key "properties" d = None ->
  key "$ref" d = None ->
  key "allOf" d = Some (VList entries) ->
  _get_type defs (S fuel) (VDict d) = Ok (VDict v0) ->
  all_offers defs fuel entries ps ntss ->
  _get_properties defs (S fuel) (VDict d) =
  Ok (Some (VDict (fold_left first_writer_wins ps []),
            VList (map fst (fold_left append_defaults ntss [])),
            map snd (fold_left append_defaults ntss []))).
Proof.
  intros Hp Hr Ha Ht Hoff. cbn [_get_properties]. rewrite Ht.
  cbn [bind is_dict]. probe. cbn [py_iter bind].
  rewrite (allOf_props_spec _ _ _ Hoff [] [] []) by reflexivity.
  reflexivity.
Qed.

End Composition.

(** ** Required names without duplicates *)

Lemma existsb_map_fst (f : value -> bool) (l : list (value * value)) :
  existsb (fun e => f (fst e)) l = existsb f (map fst l).
Proof. induction l as [|a l IH]; cbn; [reflexivity|]. rewrite IH. reflexivity. Qed.

Lemma fst_append_defaults nts : forall acc,
  map fst (append_defaults acc nts) = append_if_absent (map fst acc) (map fst nts).
Proof.
  unfold append_defaults, append_if_absent.
  induction nts as [|nt nts IH]; intros acc; cbn [fold_left map]; [reflexivity|].
  rewrite IH, (existsb_map_fst (fun e => py_eq e (fst nt))).
  destruct (existsb _ (map fst acc)); [reflexivity|].
  rewrite map_app. reflexivity.
Qed.

Lemma fst_fold_append_defaults ntss : forall acc,
  map fst (fold_left append_defaults ntss acc) =
  fold_left append_if_absent (map (map fst) ntss) (map fst acc).
Proof.
  induction ntss as [|nts ntss IH]; intros acc; cbn [fold_left map]; [reflexivity|].
  rewrite IH, fst_append_defaults. reflexivity.
Qed.

Lemma distinct_snoc l n :
  distinct l -> existsb (fun e => py_eq e n) l = false -> distinct (l ++ [n]).
Proof.
  unfold distinct. induction 1 as [|a l Ha _ IH]; cbn; intros Hn.
  - constructor; constructor.
  - apply orb_false_iff in Hn as [Han Hn]. constructor; [|exact (IH Hn)].
    apply Forall_app. split; [exact Ha|]. constructor; [exact Han|constructor].
Qed.

Lemma distinct_append_if_absent names : forall acc,
  distinct acc -> distinct (append_if_absent acc names).
Proof.
  unfold append_if_absent.
  induction names as [|n names IH]; intros acc Hacc; cbn [fold_left]; [exact Hacc|].
  apply IH. destruct (existsb _ acc) eqn:E; [exact Hacc|].
  apply distinct_snoc; assumption.
Qed.

Lemma distinct_fold_append_if_absent nss : forall acc,
  distinct acc -> distinct (fold_left append_if_absent nss acc).
Proof.
  induction nss as [|ns nss IH]; intros acc Hacc; cbn [fold_left]; [exact Hacc|].
  apply IH, distinct_append_if_absent, Hacc.
Qed.

Lemma distinct_strings_NoDup l : distinct l -> all_strings l -> NoDup l.
Proof.
  unfold distinct, all_strings.
  induction 1 as [|a l Ha _ IH]; intros Hstr; [constructor|].
  inversion Hstr as [|a' l' [s ->] Hl]; subst.
  constructor; [|exact (IH Hl)].
  intros Hin. rewrite Forall_forall in Ha. specialize (Ha _ Hin).
  cbn in Ha. rewrite String.eqb_refl in Ha. discriminate.
Qed.

(** C1, as the code has it.  On an object node that carries [allOf]
    and neither [properties] nor [$ref], which are looked at first, and
    whose entries each offer properties and required names (an object
    without [$ref], or one with [$ref] and without [required] that
    refers to a definition with a triple), the returned property map is
    the first-writer-wins merge of what the entries offer, in listed
    order, and the returned required list is their append-if-absent
    union: no two of its names are equal under [==], so a list of
    strings has no duplicates, and a property name is bound to what the
    first entry that offers it binds it to, whatever later entries bind
    it to.  The result is the same at any greater depth. *)
Theorem allOf_merges_first_writer_wins defs fuel d v0 entries ps ntss :
  key "properties" d = None ->
  key "$ref" d = None ->
  key "allOf" d = Some (VList entries) ->
  _get_type defs (S fuel) (VDict d) = Ok (VDict v0) ->
  all_offers defs fuel entries ps ntss ->
  (exists tys, forall fuel', S fuel <= fuel' ->
     _get_properties defs fuel' (VDict d) =
     Ok (Some (VDict (fold_left first_writer_wins ps []),
               VList (fold_left append_if_absent (map (map fst) ntss) []),
               tys))) /\
  distinct (fold_left append_if_absent (map (map fst) ntss) []) /\
  (all_strings (fold_left append_if_absent (map (map fst) ntss) []) ->
   NoDup (fold_left append_if_absent (map (map fst) ntss) [])) /\
  (forall pre p post k v,
     ps = pre ++ p :: post ->
     Forall (fun q => dict_get k q = None) pre ->
     dict_get k p = Some v ->
     dict_get k (fold_left first_writer_wins ps []) = Some v).
Proof.
  intros Hp Hr Ha Ht Hoff. split; [|split; [|split]].
  - eexists. intros fuel' Hle.
    apply (settled_Ok _ _ _ (_get_properties_deeper defs _ _ _ Hle)).
    rewrite (_get_properties_allOf _ _ _ _ _ _ _ Hp Hr Ha Ht Hoff).
    rewrite fst_fold_append_defaults. reflexivity.
  - apply distinct_fold_append_if_absent. constructor.
  - apply distinct_strings_NoDup, distinct_fold_append_if_absent. constructor.
  - intros pre p post k v -> Hpre Hk. apply dict_get_merged; trivial.
Qed.

(** C1 as stated fails.  A node that carries [properties] next to
    [allOf] returns its own properties and nothing of the entries; a
    node that carries [$ref] next to [allOf] returns the triple of the
    referenced definition; and a node with an entry that refers to a
    definition for which [_get_properties] returns no triple raises
    [TypeError]. *)
Lemma merges_every_entry_fails :
  (~ merges_every_entry [] 1 allOf_beside_properties /\
   ~ merges_every_entry base_defs 2 allOf_beside_ref /\
   ~ merges_every_entry bare_defs 2 allOf_of_bare) /\
  _get_properties [] 1 allOf_beside_properties
  = Ok (Some (obj [("own", obj [("type", `"string")])], VList [], [])) /\
  _get_properties base_defs 2 allOf_beside_ref
  = Ok (Some (obj [("a", obj [("type", `"string")])], strs ["a"], [`""])) /\
  _get_properties bare_defs 2 allOf_of_bare = Raise TypeError.
Proof.
  split; [|split; [|split]]; try reflexivity.
  split; [|split]; intros H.
  - destruct (H _ [] [entry_A] eq_refl eq_refl eq_refl)
      as (props & required & tys & Hrun & Hprops & _).
    injection Hrun as <- _ _.
    specialize (Hprops _ [(`"x", obj [("type", `"string")])] `"x"
                  (or_introl eq_refl) eq_refl eq_refl).
    discriminate Hprops.
  - destruct (H _ [] [entry_A] eq_refl eq_refl eq_refl)
      as (props & required & tys & Hrun & Hprops & _).
    injection Hrun as <- _ _.
    specialize (Hprops _ [(`"x", obj [("type", `"string")])] `"x"
                  (or_introl eq_refl) eq_refl eq_refl).
    discriminate Hprops.
  - destruct (H _ [] [obj [("$ref", `"#/definitions/Bare")]] eq_refl eq_refl eq_refl)
      as (props & required & tys & Hrun & _).
    discriminate Hrun.
Qed.

Lemma entry_A_offers :
  offers [] 0 entry_A [(`"x", obj [("type", `"string")])] [(`"x", `"")].
Proof.
  apply (offers_required [] 0
           [(`"properties", obj [("x", obj [("type", `"string")])]);
            (`"required", strs ["x"])]
           [(`"x", obj [("type", `"string")])]
           (strs ["x"]) [`"x"] [`""]).
  - right. split; [reflexivity|]. repeat constructor. exists "x". reflexivity.
  - reflexivity.
  - reflexivity.
  - reflexivity.
  - repeat constructor.
Defined.

Lemma entry_B_offers :
  offers [] 0 entry_B
    [(`"x", obj [("type", `"array")]); (`"y", obj [("type", `"array")])]
    [(`"x", VList []); (`"y", VList [])].
Proof.
  apply (offers_required [] 0
           [(`"properties", obj [("x", obj [("type", `"array")]);
                                 ("y", obj [("type", `"array")])]);
            (`"required", strs ["x"; "y"])]
           [(`"x", obj [("type", `"array")]); (`"y", obj [("type", `"array")])]
           (strs ["x"; "y"]) [`"x"; `"y"] [VList []; VList []]).
  - right. split; [reflexivity|].
    repeat constructor; [exists "x" | exists "y"]; reflexivity.
  - reflexivity.
  - reflexivity.
  - reflexivity.
  - repeat constructor.
Defined.

Lemma base_entry_offers :
  offers base_defs 1 (obj [("$ref", `"#/definitions/Base")])
    [(`"a", obj [("type", `"string")])] [(`"a", `"")].
Proof.
  apply (offers_ref base_defs 1 [(`"$ref", `"#/definitions/Base")] []
           "#/definitions/Base"
           (obj [("properties", obj [("a", obj [("type", `"string")])]);
                 ("required", strs ["a"])])
           [(`"a", obj [("type", `"string")])] (strs ["a"]) [`"a"] [`""]).
  - left. split; reflexivity.
  - reflexivity.
  - reflexivity.
  - reflexivity.
  - reflexivity.
  - repeat constructor. exists "a". reflexivity.
  - reflexivity.
Defined.

Lemma allOf_merges_first_writer_wins_witness :
  (exists tys,
     _get_properties [] 1 (obj [("allOf", VList [entry_A; entry_B])]) =
     Ok (Some (obj [("x", obj [("type", `"string")]);
                    ("y", obj [("type", `"array")])],
               strs ["x"; "y"], tys))) /\
  (exists tys,
     _get_properties base_defs 2
       (obj [("allOf", VList [obj [("$ref", `"#/definitions/Base")]])]) =
     Ok (Some (obj [("a", obj [("type", `"string")])], strs ["a"], tys))).
Proof.
  split.
  - destruct (allOf_merges_first_writer_wins [] 0
                [(`"allOf", VList [entry_A; entry_B])] []
                [entry_A; entry_B]
                [[(`"x", obj [("type", `"string")])];
                 [(`"x", obj [("type", `"array")]); (`"y", obj [("type", `"array")])]]
                [[(`"x", `"")]; [(`"x", VList []); (`"y", VList [])]]
                eq_refl eq_refl eq_refl eq_refl) as [[tys H] _].
    + constructor; [exact entry_A_offers|].
      constructor; [exact entry_B_offers|]. constructor.
    + exists tys. exact (H 1 (le_n 1)).
  - destruct (allOf_merges_first_writer_wins base_defs 1
                [(`"allOf", VList [obj [("$ref", `"#/definitions/Base")]])] []
                [obj [("$ref", `"#/definitions/Base")]]
                [[(`"a", obj [("type", `"string")])]]
                [[(`"a", `"")]]
                eq_refl eq_refl eq_refl eq_refl) as [[tys H] _].
    + constructor; [exact base_entry_offers|]. constructor.
    + exists tys. exact (H 2 (le_n 2)).
Defined.

(** ** An [allOf] entry with [$ref] and [required] *)

(** C5.  An [allOf] entry that carries a [required] list next to its
    [$ref] is not resolved: the properties and required names of [Base]
    are missing from the result, although the type chain of the same node
    names [Base] as a parent.  The same entry without [required] is
    resolved. *)
Example allOf_ref_with_required_not_resolved :
  _get_properties base_defs 2
    (obj [("allOf", VList [obj [("$ref", `"#/definitions/Base");
                                ("required", strs ["b"])]])])
  = Ok (Some (VDict [], strs ["b"], [`""])) /\
  _get_ndrm_type base_defs 2 "Derived"
    (obj [("allOf", VList [obj [("$ref", `"#/definitions/Base");
                                ("required", strs ["b"])]])])
  = Ok [`"ndrm:Derived"; `"ndrm:Base"] /\
  _get_properties base_defs 2
    (obj [("allOf", VList [obj [("$ref", `"#/definitions/Base")]])])
  = Ok (Some (obj [("a", obj [("type", `"string")])], strs ["a"], [`""])).
Proof. repeat split. Qed.

(** ** A property whose [anyOf] alternative is a [$ref] *)

(** C7.  When the alternative that is left after the [null] one carries a
    [$ref], the second loop subscripts the property instead of the
    alternative: the call raises [KeyError] on ["$ref"] and the default of
    the referenced definition, the empty list, is not returned.
    [_get_type] on the referenced definition returns it. *)
Example anyOf_ref_alternative_raises :
  _get_prop_type bar_defs 2 `"x"
    (obj [("properties",
           obj [("x", obj [("anyOf", VList [obj [("type", `"null")];
                                            obj [("$ref", `"#/definitions/Bar")]])])])])
  = Raise (KeyError `"$ref") /\
  _get_type bar_defs 2 (obj [("$ref", `"#/definitions/Bar")]) = Ok (VList []).
Proof. split; reflexivity. Qed.

(** ** The defaults of the required properties *)

Lemma required_defaults_spec defs fuel schema names tys :
  Forall2 (fun n t => _get_prop_type defs fuel n schema = Ok t) names tys ->
  required_defaults defs fuel schema names = Ok tys.
Proof.
  induction 1 as [|n t names tys Hn _ IH]; cbn [required_defaults]; [reflexivity|].
  rewrite Hn, IH. reflexivity.
Qed.

Lemma In_combine_nth_error (n t : value) : forall names tys,
  In (n, t) (combine names tys) ->
  exists i, nth_error names i = Some n /\ nth_error tys i = Some t.
Proof.
  induction names as [|a names IH]; intros [|b tys] Hin; cbn in Hin;
    try contradiction.
  destruct Hin as [[= -> ->] | Hin].
  - exists 0. split; reflexivity.
  - destruct (IH _ Hin) as (i & Hn & Ht). exists (S i). split; assumption.
Qed.

Lemma In_append_defaults nt nts : forall acc,
  In nt (append_defaults acc nts) -> In nt acc \/ In nt nts.
Proof.
  unfold append_defaults.
  induction nts as [|a nts IH]; intros acc Hin; cbn [fold_left] in Hin; [auto|].
  apply IH in Hin as [Hin | Hin]; [|right; right; exact Hin].
  destruct (existsb _ acc); [auto|].
  apply in_app_or in Hin as [Hin | [<- | []]]; [auto | right; left; reflexivity].
Qed.

Lemma In_fold_append_defaults nt ntss : forall acc,
  In nt (fold_left append_defaults ntss acc) ->
  In nt acc \/ exists nts, In nts ntss /\ In nt nts.
Proof.
  induction ntss as [|nts ntss IH]; intros acc Hin; cbn [fold_left] in Hin; [auto|].
  apply IH in Hin as [Hin | (nts' & Hnts & Hin)].
  - apply In_append_defaults in Hin as [Hin | Hin]; [auto|].
    right. exists nts. split; [left; reflexivity | exact Hin].
  - right. exists nts'. split; [right; exact Hnts | exact Hin].
Qed.

Lemma all_offers_In defs fuel entries ps ntss nts :
  all_offers defs fuel entries ps ntss ->
  In nts ntss ->
  exists dic p, In dic entries /\ offers defs fuel dic p nts.
Proof.
  induction 1 as [|dic p nts0 entries ps ntss Hoff _ IH]; cbn; [contradiction|].
  intros [<- | Hin].
  - exists dic, p. auto.
  - destruct (IH Hin) as (dic' & p' & Hd & Ho). exists dic', p'. auto.
Qed.

Lemma offers_default defs fuel dic p nts n t :
  offers defs fuel dic p nts ->
  In (n, t) nts ->
  default_from_entry defs fuel dic n t.
Proof.
  intros [e p0 r names tys Hp _ Hr Hn Hd
         | e p0 Hp Hr Href
         | e p0 r s tp tr names tys Hp Hr Href Hs Hrec Hstr Hn] Hin.
  - left. exists e, r, names.
    destruct (In_combine_nth_error _ _ _ _ Hin) as (i & Hi & Ht).
    repeat split; trivial.
    + eapply nth_error_In, Hi.
    + exact (Forall2_nth_error _ _ _ Hd i n t Hi Ht).
  - contradiction.
  - right. exists e, r, s, (VDict tp), tr, tys, names.
    destruct (In_combine_nth_error _ _ _ _ Hin) as (i & Hi & Ht).
    exists i. repeat split; trivial.
Qed.

(** Where a pair of the append-if-absent union comes from: either it
    was there, or it is the first pair of the added list with its name,
    and no pair before it has that name. *)
Lemma existsb_name_true (acc : list (value * value)) s :
  existsb (fun e => py_eq (fst e) `s) acc = true ->
  exists e, In e acc /\ fst e = `s.
Proof.
  intros H. apply existsb_exists in H as (e & Hin & He).
  exists e. split; [exact Hin | apply py_eq_str, He].
Qed.

Lemma existsb_name_false (acc : list (value * value)) s :
  existsb (fun e => py_eq (fst e) `s) acc = false ->
  forall e, In e acc -> fst e <> `s.
Proof.
  intros H e Hin He.
  assert (Ht : existsb (fun e => py_eq (fst e) `s) acc = true).
  { apply existsb_exists. exists e. split; [exact Hin | apply py_eq_str, He]. }
  congruence.
Qed.

Lemma append_defaults_cons acc nt nts :
  append_defaults acc (nt :: nts) =
  append_defaults
    (if existsb (fun e => py_eq (fst e) (fst nt)) acc then acc else acc ++ [nt]) nts.
Proof. reflexivity. Qed.

Lemma append_defaults_incl : forall nts acc e,
  In e acc -> In e (append_defaults acc nts).
Proof.
  induction nts as [|nt nts IH]; intros acc e Hin; [exact Hin|].
  rewrite append_defaults_cons. apply IH.
  destruct (existsb _ acc); [exact Hin | apply in_or_app; left; exact Hin].
Qed.

Lemma append_defaults_covers : forall nts acc e,
  all_strings (map fst nts) ->
  In e nts ->
  exists e', In e' (append_defaults acc nts) /\ fst e' = fst e.
Proof.
  induction nts as [|nt nts IH]; intros acc e Hstr Hin; [contradiction|].
  cbn [map] in Hstr. inversion Hstr as [|x l [s Hs] Hstr']; subst.
  rewrite append_defaults_cons. destruct Hin as [<- | Hin].
  - rewrite Hs. destruct (existsb _ acc) eqn:E.
    + apply existsb_name_true in E as (e0 & Hin0 & He0).
      exists e0. split; [apply append_defaults_incl, Hin0 | exact He0].
    + exists nt. split; [|exact Hs].
      apply append_defaults_incl, in_or_app. right. left. reflexivity.
  - apply IH; assumption.
Qed.

Lemma append_defaults_first n t : forall nts acc,
  all_strings (map fst nts) ->
  In (n, t) (append_defaults acc nts) ->
  In (n, t) acc \/
  exists a b, nts = a ++ (n, t) :: b /\ forall e, In e (acc ++ a) -> fst e <> n.
Proof.
  induction nts as [|nt nts IH]; intros acc Hstr Hin; [left; exact Hin|].
  cbn [map] in Hstr. inversion Hstr as [|x l [s Hs] Hstr']; subst.
  rewrite append_defaults_cons, Hs in Hin.
  destruct (existsb (fun e => py_eq (fst e) `s) acc) eqn:E.
  - destruct (IH _ Hstr' Hin) as [Hacc | (a & b & -> & Hfirst)]; [left; exact Hacc|].
    right. exists (nt :: a), b. split; [reflexivity|].
    intros e He. apply in_app_or in He as [He | [<- | He]].
    + apply Hfirst, in_or_app. left. exact He.
    + apply existsb_name_true in E as (e0 & Hin0 & He0).
      rewrite Hs, <- He0. apply Hfirst, in_or_app. left. exact Hin0.
    + apply Hfirst, in_or_app. right. exact He.
  - destruct (IH _ Hstr' Hin) as [Hacc | (a & b & -> & Hfirst)].
    + apply in_app_or in Hacc as [Hacc | [-> | []]]; [left; exact Hacc|].
      right. exists [], nts. split; [reflexivity|].
      rewrite app_nil_r. cbn [fst] in Hs. subst n.
      exact (existsb_name_false _ _ E).
    + right. exists (nt :: a), b. split; [reflexivity|].
      intros e He. apply Hfirst. rewrite <- app_assoc. exact He.
Qed.

Lemma fold_append_defaults_first n t : forall ntss acc,
  Forall (fun nts => all_strings (map fst nts)) ntss ->
  In (n, t) (fold_left append_defaults ntss acc) ->
  In (n, t) acc \/
  exists pre nts post a b,
    ntss = pre ++ nts :: post /\ nts = a ++ (n, t) :: b /\
    forall e, In e (acc ++ List.concat pre ++ a) -> fst e <> n.
Proof.
  induction ntss as [|nts ntss IH]; intros acc Hstr Hin; [left; exact Hin|].
  inversion Hstr as [|x l Hnts Hstr']; subst. cbn [fold_left] in Hin.
  destruct (IH _ Hstr' Hin) as [Hacc | (pre & nts' & post & a & b & -> & -> & Hfirst)].
  - destruct (append_defaults_first _ _ _ _ Hnts Hacc) as [Hacc' | (a & b & -> & Hfirst)];
      [left; exact Hacc'|].
    right. exists [], (a ++ (n, t) :: b), ntss, a, b.
    split; [reflexivity|]. split; [reflexivity|]. exact Hfirst.
  - right. exists (nts :: pre), (a ++ (n, t) :: b), post, a, b.
    split; [reflexivity|]. split; [reflexivity|].
    intros e He. cbn [List.concat] in He. rewrite <- app_assoc in He.
    apply in_app_or in He as [He | He].
    + apply Hfirst, in_or_app. left. apply append_defaults_incl, He.
    + apply in_app_or in He as [He | He].
      * destruct (append_defaults_covers _ acc _ Hnts He) as (e' & He' & <-).
        apply Hfirst, in_or_app. left. exact He'.
      * apply Hfirst, in_or_app. right. exact He.
Qed.

(** What an entry offers is determined by the entry. *)
Lemma own_properties_functional e p p' :
  own_properties e p -> own_properties e p' -> p = p'.
Proof.
  intros [[H ->] | [H _]] [[H' ->] | [H' _]]; congruence.
Qed.

Lemma Forall2_functional {A B : Type} (R : A -> B -> Prop) :
  (forall a b b', R a b -> R a b' -> b = b') ->
  forall l l1 l2, Forall2 R l l1 -> Forall2 R l l2 -> l1 = l2.
Proof.
  intros HR l l1 l2 H1. revert l2.
  induction H1 as [|a b l l1 Hab _ IH]; intros l2 H2; inversion H2; subst;
    [reflexivity|].
  f_equal; [eapply HR; eassumption | apply IH; assumption].
Qed.

Lemma offers_functional defs fuel dic p nts p' nts' :
  offers defs fuel dic p nts -> offers defs fuel dic p' nts' ->
  p = p' /\ nts = nts'.
Proof.
  intros [e p0 r names tys Hp Href Hr Hn Hd
         | e p0 Hp Hr Href
         | e p0 r s tp tr names tys Hp Hr Href Hs Hrec Hstr Hn] H';
    inversion H' as [e' p1 r' names' tys' Hp' Href' Hr' Hn' Hd'
                    | e' p1 Hp' Hr' Href'
                    | e' p1 r' s' tp' tr' names' tys' Hp' Hr' Href' Hs' Hrec' Hstr' Hn'];
    subst; try congruence.
  - rewrite Hr in Hr'. injection Hr' as <-.
    rewrite Hn in Hn'. injection Hn' as <-.
    rewrite (own_properties_functional _ _ _ Hp Hp').
    split; [reflexivity|]. f_equal.
    refine (Forall2_functional _ _ _ _ _ Hd Hd').
    intros a b b' H1 H2. cbn beta in H1, H2. congruence.
  - split; [exact (own_properties_functional _ _ _ Hp Hp') | reflexivity].
  - rewrite Href in Href'. injection Href' as <-.
    rewrite Hs in Hs'. injection Hs' as <-.
    rewrite Hrec in Hrec'. injection Hrec' as <- <- <-.
    rewrite Hn in Hn'. injection Hn' as <-.
    rewrite (own_properties_functional _ _ _ Hp Hp'). split; reflexivity.
Qed.

Lemma all_offers_split defs fuel : forall pre entries ps ntss nts post,
  all_offers defs fuel entries ps ntss ->
  ntss = pre ++ nts :: post ->
  exists epre dic epost ppre p ppost,
    entries = epre ++ dic :: epost /\
    ps = ppre ++ p :: ppost /\
    all_offers defs fuel epre ppre pre /\
    offers defs fuel dic p nts /\
    all_offers defs fuel epost ppost post.
Proof.
  induction pre as [|nts0 pre IH]; intros entries ps ntss nts post Hoff ->;
    inversion Hoff as [|dic p nts1 entries' ps' ntss' Hdic Hrest]; subst.
  - exists [], dic, entries', [], p, ps'.
    repeat split; trivial. constructor.
  - destruct (IH _ _ _ _ _ Hrest eq_refl)
      as (epre & dic' & epost & ppre & p' & ppost & -> & -> & Hpre & Hd & Hpost).
    exists (dic :: epre), dic', epost, (p :: ppre), p', ppost.
    repeat split; trivial. constructor; assumption.
Qed.

Lemma all_offers_entry defs fuel entries ps ntss dic :
  all_offers defs fuel entries ps ntss ->
  In dic entries ->
  exists p nts, In nts ntss /\ offers defs fuel dic p nts.
Proof.
  induction 1 as [|dic0 p nts0 entries ps ntss Hoff _ IH]; cbn; [contradiction|].
  intros [<- | Hin].
  - exists p, nts0. auto.
  - destruct (IH Hin) as (p' & nts' & Hn & Ho). exists p', nts'. auto.
Qed.

(** In a property's own sub-schema: where the property type is the
    default value of the sub-schema. *)
Lemma anyOf_prop_type_skip_prefix pre rest :
  Forall skipped pre -> anyOf_prop_type (pre ++ rest) = anyOf_prop_type rest.
Proof.
  induction 1 as [|alt pre (a & -> & [Ht | Ht]) _ IH]; [reflexivity| |];
    rewrite <- app_comm_cons; cbn [anyOf_prop_type]; probe; exact IH.
Qed.

(** C6, as the code has it.  The default of a required name is its
    [_get_prop_type] in the node that lists it, not the [_get_type] of
    the sub-schema the property map binds to it.  In the direct case the
    defaults are the property types of the required names in the node.
    A [$ref] node returns what the referenced definition returns.  In
    the composition case the default of a name comes from the first
    entry that offers the name, the entries before it not listing it:
    it is the property type of the name in that entry when the entry
    lists it as required, and the default the referenced definition
    returned for the first occurrence of the name when the entry is a
    [$ref].  The property type is the [_get_type] of the property's own
    sub-schema when the listing node declares the property with a [type]
    and without [properties], with a [$ref] and without [type],
    [properties] and [anyOf], with [allOf] and without [type], [$ref]
    and [anyOf], or with an [anyOf] that has an alternative with a type
    other than ["null"], and without [type], [$ref], [allOf] and
    [properties]. *)
Theorem required_defaults_are_property_types defs fuel :
  (forall d p names tys,
     key "properties" d = Some (VDict p) ->
     key "required" d = Some (VList names) ->
     Forall2 (fun n t => _get_prop_type defs (S fuel) n (VDict d) = Ok t)
       names tys ->
     _get_properties defs (S fuel) (VDict d) =
     Ok (Some (VDict p, VList names, tys))) /\
  (forall d r s v0,
     key "properties" d = None ->
     key "$ref" d = Some `r ->
     key (target r) defs = Some s ->
     _get_type defs (S fuel) (VDict d) = Ok (VDict v0) ->
     _get_properties defs (S fuel) (VDict d) = _get_properties defs fuel s) /\
  (forall d v0 entries ps ntss,
     key "properties" d = None ->
     key "$ref" d = None ->
     key "allOf" d = Some (VList entries) ->
     _get_type defs (S fuel) (VDict d) = Ok (VDict v0) ->
     all_offers defs fuel entries ps ntss ->
     exists props required tys,
       _get_properties defs (S fuel) (VDict d) =
       Ok (Some (props, VList required, tys)) /\
       List.length required = List.length tys /\
       forall i n t,
         nth_error required i = Some n ->
         nth_error tys i = Some t ->
         (exists dic, In dic entries /\ default_from_entry defs fuel dic n t) /\
         (Forall (fun nts => all_strings (map fst nts)) ntss ->
          exists epre dic epost p nts a b,
            entries = epre ++ dic :: epost /\
            Forall (fun dic' => ~ lists_required defs fuel dic' n) epre /\
            offers defs fuel dic p nts /\
            nts = a ++ (n, t) :: b /\
            (forall e, In e a -> fst e <> n) /\
            default_from_entry defs fuel dic n t)) /\
  (forall d p x sub,
     key "properties" d = Some (VDict p) ->
     key x p = Some (VDict sub) ->
     (forall t,
        key "type" sub = Some t ->
        key "properties" sub = None ->
        _get_prop_type defs (S fuel) `x (VDict d) =
        _get_type defs (S fuel) (VDict sub)) /\
     (forall r,
        key "type" sub = None ->
        key "$ref" sub = Some r ->
        key "properties" sub = None ->
        key "anyOf" sub = None ->
        _get_prop_type defs fuel `x (VDict d) =
        _get_type defs (S fuel) (VDict sub)) /\
     (forall a,
        key "type" sub = None ->
        key "$ref" sub = None ->
        key "allOf" sub = Some a ->
        key "anyOf" sub = None ->
        _get_prop_type defs (S fuel) `x (VDict d) =
        _get_type defs (S fuel) (VDict sub)) /\
     (forall pre alt t post,
        key "type" sub = None ->
        key "$ref" sub = None ->
        key "allOf" sub = None ->
        key "properties" sub = None ->
        key "anyOf" sub = Some (VList (pre ++ VDict alt :: post)) ->
        Forall skipped pre ->
        key "type" alt = Some t ->
        t <> `"null" ->
        _get_prop_type defs (S fuel) `x (VDict d) =
        _get_type defs (S fuel) (VDict sub))).
Proof.
  split; [|split; [|split]].
  - intros d p names tys Hp Hr Hd.
    cbn [_get_properties _get_type]. probe. cbn [is_dict]. probe.
    cbn [py_copy py_iter bind].
    rewrite (required_defaults_spec _ _ _ _ _ Hd). probe. reflexivity.
  - intros d r s v0 Hp Hr Hs Ht.
    cbn [_get_properties]. rewrite Ht. cbn [bind is_dict]. probe.
    unfold split_last; fold (target r). probe. reflexivity.
  - intros d v0 entries ps ntss Hp Hr Ha Ht Hoff.
    exists (VDict (fold_left first_writer_wins ps [])),
      (map fst (fold_left append_defaults ntss [])),
      (map snd (fold_left append_defaults ntss [])).
    split; [apply (_get_properties_allOf _ _ _ _ _ _ _ Hp Hr Ha Ht Hoff)|].
    split; [rewrite !length_map; reflexivity|].
    intros i n t Hn Htt.
    rewrite nth_error_map in Hn, Htt.
    destruct (nth_error (fold_left append_defaults ntss []) i) as [[n' t']|] eqn:E;
      cbn in Hn, Htt; [|discriminate].
    injection Hn as ->. injection Htt as ->.
    apply nth_error_In in E. split.
    { apply In_fold_append_defaults in E as [[] | (nts & Hnts & Hin)].
      destruct (all_offers_In _ _ _ _ _ _ Hoff Hnts) as (dic & p & Hdic & Ho).
      exists dic. split; [exact Hdic|]. exact (offers_default _ _ _ _ _ _ _ Ho Hin). }
    intros Hstr.
    apply fold_append_defaults_first in E
      as [[] | (pre & nts & post & a & b & Hsplit & -> & Hfirst)]; [|exact Hstr].
    destruct (all_offers_split _ _ _ _ _ _ _ _ Hoff Hsplit)
      as (epre & dic & epost & ppre & p & ppost & -> & _ & Hpre & Hdic & _).
    exists epre, dic, epost, p, (a ++ (n, t) :: b), a, b.
    split; [reflexivity|]. split; [|split; [exact Hdic|split; [reflexivity|split]]].
    + apply Forall_forall. intros dic' Hin (p' & nts' & t' & Ho' & Hin').
      destruct (all_offers_entry _ _ _ _ _ _ Hpre Hin) as (p0 & nts0 & Hnts0 & Ho0).
      destruct (offers_functional _ _ _ _ _ _ _ Ho' Ho0) as [_ ->].
      apply (Hfirst (n, t')); [|reflexivity].
      cbn [app]. apply in_or_app. left. apply in_concat. exists nts0. auto.
    + intros e He. apply Hfirst. cbn [app]. apply in_or_app. right. exact He.
    + apply (offers_default _ _ _ _ _ _ _ Hdic).
      apply in_or_app. right. left. reflexivity.
  - intros d p x sub Hp Hx. split; [|split; [|split]].
    + intros t Ht Hsub.
      unfold _get_prop_type. probe. cbn [_get_type]. probe. reflexivity.
    + intros r Ht Hr Hsub Hany.
      unfold _get_prop_type. probe. cbn [_get_type]. probe. reflexivity.
    + intros a Ht Hr Ha Hany.
      unfold _get_prop_type. probe. cbn [_get_type].
      destruct (key "properties" sub) eqn:Hsub; probe; reflexivity.
    + intros pre alt t post Ht Hr Ha Hsub Hany Hpre Halt Hnull.
      unfold _get_prop_type. probe. cbn [py_iter bind].
      rewrite (anyOf_prop_type_skip_prefix _ _ Hpre).
      cbn [anyOf_prop_type]. probe. rewrite (py_eq_str_neq _ _ Hnull).
      cbn [bind].
      rewrite (_get_type_anyOf defs _ _ _ Hsub Ht Hany).
      rewrite (anyOf_type_skip_all _ _ _ Hpre).
      rewrite (anyOf_type_hit _ _ _ _ Halt Hnull). reflexivity.
Qed.

(** C6 as stated fails.  The default returned for [x] is the property
    type of [x] in the entry that lists it, the empty string of a
    property the entry does not declare, while the [_get_type] of the
    sub-schema bound to [x] is the empty list. *)
Lemma defaults_by_defaultValue_fails :
  ~ defaults_by_defaultValue [] 1 split_required.
Proof.
  intros H.
  specialize (H (obj [("x", obj [("type", `"array")])]) (strs ["x"]) [`""] [`"x"]
                eq_refl eq_refl).
  inversion H as [|n t names tys (sub & Hsub & Ht) _]; subst.
  cbn in Hsub. injection Hsub as <-.
  cbn in Ht. discriminate Ht.
Qed.

Lemma required_defaults_are_property_types_witness :
  _get_properties person_defs 1
    (obj [("properties", obj [("name", obj [("type", `"string")]);
                              ("age", obj [("type", `"string")])]);
          ("required", strs ["name"])])
  = Ok (Some (obj [("name", obj [("type", `"string")]);
                   ("age", obj [("type", `"string")])],
              strs ["name"], [`""])) /\
  _get_properties person_defs 2 (obj [("$ref", `"#/definitions/Person")])
  = _get_properties person_defs 1
      (obj [("properties", obj [("name", obj [("type", `"string")]);
                                ("age", obj [("type", `"string")])]);
            ("required", strs ["name"])]) /\
  (exists props,
     _get_properties [] 1 (obj [("allOf", VList [entry_A; entry_B])])
     = Ok (Some (props, strs ["x"; "y"], [`""; VList []])) /\
     exists epre dic epost,
       [entry_A; entry_B] = epre ++ dic :: epost /\
       Forall (fun dic' => ~ lists_required [] 0 dic' `"y") epre /\
       default_from_entry [] 0 dic `"y" (VList [])) /\
  _get_prop_type [] 1 `"x" (obj [("properties", obj [("x", obj [("type", `"string")])])])
  = _get_type [] 1 (obj [("type", `"string")]) /\
  _get_prop_type bar_defs 1 `"x"
    (obj [("properties", obj [("x", obj [("$ref", `"#/definitions/Bar")])])])
  = _get_type bar_defs 2 (obj [("$ref", `"#/definitions/Bar")]) /\
  _get_prop_type [] 1 `"x"
    (obj [("properties", obj [("x", obj [("allOf", VList [entry_A])])])])
  = _get_type [] 1 (obj [("allOf", VList [entry_A])]) /\
  _get_prop_type [] 1 `"x"
    (obj [("properties",
           obj [("x", obj [("anyOf", VList [obj [("type", `"null")];
                                            obj [("type", `"array")]])])])])
  = _get_type [] 1
      (obj [("anyOf", VList [obj [("type", `"null")]; obj [("type", `"array")]])]).
Proof.
  split; [|split; [|split; [|split; [|split; [|split]]]]].
  - destruct (required_defaults_are_property_types person_defs 0) as (Hd & _).
    apply (Hd [(`"properties", obj [("name", obj [("type", `"string")]);
                                    ("age", obj [("type", `"string")])]);
               (`"required", strs ["name"])]
              [(`"name", obj [("type", `"string")]);
               (`"age", obj [("type", `"string")])]
              [`"name"] [`""]); try reflexivity.
    repeat constructor.
  - destruct (required_defaults_are_property_types person_defs 1) as (_ & Hr & _).
    apply (Hr [(`"$ref", `"#/definitions/Person")] "#/definitions/Person" _ []);
      reflexivity.
  - destruct (required_defaults_are_property_types [] 0) as (_ & _ & Hc & _).
    destruct (Hc [(`"allOf", VList [entry_A; entry_B])] []
                [entry_A; entry_B]
                [[(`"x", obj [("type", `"string")])];
                 [(`"x", obj [("type", `"array")]); (`"y", obj [("type", `"array")])]]
                [[(`"x", `"")]; [(`"x", VList []); (`"y", VList [])]]
                eq_refl eq_refl eq_refl eq_refl)
      as (props & required & tys & Hrun & _ & Hfrom).
    + constructor; [exact entry_A_offers|].
      constructor; [exact entry_B_offers|]. constructor.
    + assert (E : _get_properties [] 1 (obj [("allOf", VList [entry_A; entry_B])])
                  = Ok (Some (obj [("x", obj [("type", `"string")]);
                                   ("y", obj [("type", `"array")])],
                              strs ["x"; "y"], [`""; VList []]))) by reflexivity.
      change (VDict [(`"allOf", VList [entry_A; entry_B])])
        with (obj [("allOf", VList [entry_A; entry_B])]) in Hrun.
      rewrite E in Hrun. injection Hrun as <- <- <-.
      exists (obj [("x", obj [("type", `"string")]); ("y", obj [("type", `"array")])]).
      split; [reflexivity|].
      destruct (Hfrom 1 `"y" (VList []) eq_refl eq_refl) as [_ Hfirst].
      destruct Hfirst
        as (epre & dic & epost & p & nts & a & b & Hsplit & Hpre & _ & _ & _ & Hdef).
      { repeat constructor; [exists "x" | exists "x" | exists "y"]; reflexivity. }
      exists epre, dic, epost. split; [exact Hsplit|]. split; [exact Hpre | exact Hdef].
  - destruct (required_defaults_are_property_types [] 0) as (_ & _ & _ & Ht).
    destruct (Ht [(`"properties", obj [("x", obj [("type", `"string")])])]
                 [(`"x", obj [("type", `"string")])] "x" [(`"type", `"string")]
                 eq_refl eq_refl) as (Htyped & _).
    apply (Htyped `"string"); reflexivity.
  - destruct (required_defaults_are_property_types bar_defs 1) as (_ & _ & _ & Ht).
    destruct (Ht [(`"properties", obj [("x", obj [("$ref", `"#/definitions/Bar")])])]
                 [(`"x", obj [("$ref", `"#/definitions/Bar")])] "x"
                 [(`"$ref", `"#/definitions/Bar")]
                 eq_refl eq_refl) as (_ & Href & _).
    apply (Href `"#/definitions/Bar"); reflexivity.
  - destruct (required_defaults_are_property_types [] 0) as (_ & _ & _ & Ht).
    destruct (Ht [(`"properties", obj [("x", obj [("allOf", VList [entry_A])])])]
                 [(`"x", obj [("allOf", VList [entry_A])])] "x"
                 [(`"allOf", VList [entry_A])]
                 eq_refl eq_refl) as (_ & _ & Hall & _).
    apply (Hall (VList [entry_A])); reflexivity.
  - destruct (required_defaults_are_property_types [] 0) as (_ & _ & _ & Ht).
    destruct (Ht [(`"properties",
                   obj [("x", obj [("anyOf", VList [obj [("type", `"null")];
                                                    obj [("type", `"array")]])])])]
                 [(`"x", obj [("anyOf", VList [obj [("type", `"null")];
                                               obj [("type", `"array")]])])] "x"
                 [(`"anyOf", VList [obj [("type", `"null")]; obj [("type", `"array")]])]
                 eq_refl eq_refl) as (_ & _ & _ & Hany).
    apply (Hany [obj [("type", `"null")]] [(`"type", `"array")] `"array" []);
      try reflexivity.
    + constructor; [|constructor].
      exists [(`"type", `"null")]. split; [reflexivity | right; reflexivity].
    + discriminate.
Defined.

(** ** Unknown definitions *)

Section Unknown.

Variables (defs : dict) (fuel : nat) (name : string).

Hypothesis unknown : key name defs = None.

Lemma allOf_chain_inline_prefix rec pre rest v :
  Forall inline pre ->
  allOf_chain defs rec (pre ++ rest) v = allOf_chain defs rec rest v.
Proof.
  induction 1 as [|entry pre (e & -> & Hr) _ IH]; [reflexivity|].
  rewrite <- app_comm_cons, allOf_chain_plain by exact Hr. exact IH.
Qed.

(** C8, as the code has it.  A name that is not a key of the
    definitions raises [KeyError], a [LookupError], wherever a reference
    to it is followed: as the definition [create_obj] is asked for, as
    the [$ref] target [_get_type] follows, as the target
    [_get_properties] delegates to or an [allOf] entry of it refers to,
    as the parent [_get_ndrm_type] walks to, and as the target of a
    property's [$ref] in [_get_prop_type].  None of these calls returns
    a value. *)
Theorem unknown_definition_raises :
  is_LookupError (KeyError `name) = true /\
  create_obj defs fuel name = Raise (KeyError `name) /\
  (forall d r,
     key "properties" d = None -> key "type" d = None ->
     key "anyOf" d = None ->
     key "$ref" d = Some `r -> target r = name ->
     _get_type defs (S fuel) (VDict d) = Raise (KeyError `name) /\
     _get_properties defs (S fuel) (VDict d) = Raise (KeyError `name)) /\
  (forall d r v0,
     key "properties" d = None ->
     key "$ref" d = Some `r -> target r = name ->
     _get_type defs (S fuel) (VDict d) = Ok (VDict v0) ->
     _get_properties defs (S fuel) (VDict d) = Raise (KeyError `name)) /\
  (forall d v0 pre ps ntss e p r post,
     key "properties" d = None ->
     key "$ref" d = None ->
     key "allOf" d = Some (VList (pre ++ VDict e :: post)) ->
     _get_type defs (S fuel) (VDict d) = Ok (VDict v0) ->
     all_offers defs fuel pre ps ntss ->
     own_properties e p ->
     key "required" e = None ->
     key "$ref" e = Some `r -> target r = name ->
     _get_properties defs (S fuel) (VDict d) = Raise (KeyError `name)) /\
  (forall n d r,
     key "allOf" d = None ->
     key "$ref" d = Some `r -> target r = name ->
     _get_ndrm_type defs (S fuel) n (VDict d) = Raise (KeyError `name)) /\
  (forall n d pre e r post,
     key "allOf" d = Some (VList (pre ++ VDict e :: post)) ->
     Forall inline pre ->
     key "$ref" e = Some `r -> target r = name ->
     _get_ndrm_type defs (S fuel) n (VDict d) = Raise (KeyError `name)) /\
  (forall d p x prop r,
     key "properties" d = Some (VDict p) ->
     key x p = Some (VDict prop) ->
     key "type" prop = None ->
     key "$ref" prop = Some `r -> target r = name ->
     _get_prop_type defs fuel `x (VDict d) = Raise (KeyError `name)).
Proof.
  split; [reflexivity|].
  split; [|split; [|split; [|split; [|split; [|split]]]]].
  - unfold create_obj. probe. reflexivity.
  - intros d r Hp Ht Ha Hr Hn.
    assert (E : _get_type defs (S fuel) (VDict d) = Raise (KeyError `name)).
    { rewrite (_get_type_ref _ _ _ _ Hp Ht Ha Hr), Hn. probe. reflexivity. }
    split; [exact E|].
    cbn [_get_properties]. rewrite E. reflexivity.
  - intros d r v0 Hp Hr Hn Ht.
    cbn [_get_properties]. rewrite Ht. cbn [bind is_dict]. probe.
    unfold split_last; fold (target r). rewrite Hn. probe. reflexivity.
  - intros d v0 pre ps ntss e p r post Hp Hr Ha Ht Hoff Hown Hreq Href Hn.
    cbn [_get_properties]. rewrite Ht. cbn [bind is_dict]. probe.
    cbn [py_iter bind].
    rewrite allOf_props_app, (allOf_props_spec _ _ _ _ _ Hoff [] [] []) by reflexivity.
    cbn [bind allOf_props]. unfold allOf_entry.
    rewrite (own_properties_merged _ e p _ Hown). probe.
    unfold split_last; fold (target r). rewrite Hn. probe. reflexivity.
  - intros n d r Ha Hr Hn.
    rewrite (_get_ndrm_type_ref_lookup _ _ _ _ _ Ha Hr), Hn. probe. reflexivity.
  - intros n d pre e r post Ha Hpre Hr Hn.
    rewrite (_get_ndrm_type_allOf _ _ _ _ _ Ha).
    rewrite (allOf_chain_inline_prefix _ _ _ _ Hpre).
    rewrite (allOf_chain_ref_lookup _ _ _ _ _ _ Hr), Hn. probe. reflexivity.
  - intros d p x prop r Hp Hx Ht Hr Hn.
    unfold _get_prop_type. probe.
    unfold split_last; fold (target r). rewrite Hn. probe. reflexivity.
Qed.

End Unknown.

(** C8 as stated fails.  A [$ref] to a name that is not defined is
    not followed when the node carries [type] or [properties] as well:
    [_get_type] returns the default of the [type], and the empty mapping
    next to [properties]; [_get_properties] returns the empty triple for
    a node of the string kind, and the node's own properties next to
    [properties]. *)
Lemma unknown_target_signals_fails :
  (~ unknown_target_signals [] 1 ghost_string /\
   ~ unknown_target_signals [] 1 ghost_object /\
   ~ unknown_target_signals [] 1 ghost_properties) /\
  _get_type [] 1 ghost_string = Ok `"" /\
  _get_properties [] 1 ghost_string = Ok (Some (VDict [], VList [], [])) /\
  _get_type [] 1 ghost_object = Ok (VDict []) /\
  _get_type [] 1 ghost_properties = Ok (VDict []) /\
  _get_properties [] 1 ghost_properties
  = Ok (Some (obj [("a", obj [("type", `"string")])], VList [], [])).
Proof.
  split; [|repeat split].
  split; [|split]; intros H;
    destruct (H _ "#/definitions/Ghost" eq_refl eq_refl eq_refl)
      as [(e & He & _) _];
    discriminate He.
Qed.

Lemma unknown_definition_raises_witness :
  create_obj person_defs 1 "Ghost" = Raise (KeyError `"Ghost") /\
  _get_type person_defs 1 (obj [("$ref", `"#/definitions/Ghost")])
  = Raise (KeyError `"Ghost").
Proof.
  pose proof (unknown_definition_raises person_defs 0 "Ghost" eq_refl)
    as (_ & Hc & Hr & _).
  split; [exact Hc|].
  apply (Hr [(`"$ref", `"#/definitions/Ghost")] "#/definitions/Ghost");
    reflexivity.
Defined.

(** * Further properties of the resolver *)

Section Kinds.

Variable defs : dict.

Lemma translate_kind t : default_kind (_translate_type t).
Proof.
  unfold _translate_type, default_kind.
  destruct (py_eq t `"array"); [auto|]. destruct (py_eq t `"string"); auto.
Qed.

Lemma anyOf_type_kind : forall alts v r,
  default_kind v -> anyOf_type alts v = Ok r -> default_kind r.
Proof.
  induction alts as [|dic alts IH]; intros v r Hv H; cbn [anyOf_type] in H.
  - injection H as <-. exact Hv.
  - apply bind_Ok in H as ([|] & _ & H); [|exact (IH _ _ Hv H)].
    apply bind_Ok in H as (t & _ & H).
    destruct (py_eq t `"null"); [exact (IH _ _ Hv H)|].
    injection H as <-. apply translate_kind.
Qed.

Lemma _get_type_kind : forall fuel schema v,
  _get_type defs fuel schema = Ok v -> default_kind v.
Proof.
  induction fuel as [|fuel IH]; intros schema v H; [discriminate|].
  cbn [_get_type] in H.
  apply bind_Ok in H as ([|] & _ & H).
  { injection H as <-. right. right. reflexivity. }
  apply bind_Ok in H as ([|] & _ & H).
  { apply bind_Ok in H as (t & _ & H). injection H as <-. apply translate_kind. }
  apply bind_Ok in H as ([|] & _ & H).
  { apply bind_Ok in H as (a & _ & H). apply bind_Ok in H as (alts & _ & H).
    apply (anyOf_type_kind _ _ _ (or_intror (or_intror eq_refl)) H). }
  apply bind_Ok in H as ([|] & _ & H).
  { apply bind_Ok in H as (r & _ & H). apply bind_Ok in H as (n & _ & H).
    apply bind_Ok in H as (s & _ & H). exact (IH _ _ H). }
  injection H as <-. right. right. reflexivity.
Qed.

(** Whatever the node and however deep the references go, a default that
    [_get_type] returns is the empty list, the empty string or the empty
    dict, as its docstring says. *)
Theorem _get_type_returns_a_default_kind fuel schema v :
  _get_type defs fuel schema = Ok v -> default_kind v.
Proof. apply _get_type_kind. Qed.

End Kinds.

Lemma _get_type_returns_a_default_kind_witness :
  default_kind (VList []).
Proof.
  apply (_get_type_returns_a_default_kind bar_defs 2
           (obj [("$ref", `"#/definitions/Bar")]) (VList [])).
  reflexivity.
Defined.

(** ** References that never end *)

Section Cycles.

Variables (defs : dict) (nodes : value -> Prop).

Hypothesis cycle : ref_cycle defs nodes.

Lemma _get_type_on_cycle : forall fuel schema,
  nodes schema -> _get_type defs fuel schema = OutOfFuel.
Proof.
  induction fuel as [|fuel IH]; intros schema Hn; [reflexivity|].
  destruct (cycle _ Hn) as (next & (d & r & -> & Hp & Ht & Ha & _ & Hr & Hs) & Hnext).
  rewrite (_get_type_ref _ _ _ _ Hp Ht Ha Hr). probe. apply IH, Hnext.
Qed.

(** There is no guard against references that lead back to where they
    started: on a node of such a cycle none of [_get_type],
    [_get_ndrm_type] and [_get_properties] returns or raises, whatever
    depth it is given; each call only ends when the depth is used up. *)
Theorem cyclic_references_never_resolve : forall fuel name schema,
  nodes schema ->
  _get_type defs fuel schema = OutOfFuel /\
  _get_ndrm_type defs fuel name schema = OutOfFuel /\
  _get_properties defs fuel schema = OutOfFuel.
Proof.
  intros fuel name schema Hn. split; [exact (_get_type_on_cycle _ _ Hn)|]. split.
  - revert name schema Hn. induction fuel as [|fuel IH]; intros name schema Hn;
      [reflexivity|].
    destruct (cycle _ Hn)
      as (next & (d & r & -> & Hp & Ht & Ha & Hall & Hr & Hs) & Hnext).
    rewrite (_get_ndrm_type_ref_lookup _ _ _ _ _ Hall Hr). probe.
    rewrite (IH _ _ Hnext). reflexivity.
  - destruct fuel as [|fuel]; [reflexivity|].
    cbn [_get_properties]. rewrite (_get_type_on_cycle _ _ Hn). reflexivity.
Qed.

End Cycles.

Lemma cyclic_references_never_resolve_witness :
  _get_type ping_pong 1000 (obj [("$ref", `"#/definitions/Pong")]) = OutOfFuel.
Proof.
  refine (proj1 (cyclic_references_never_resolve ping_pong
            (fun s => s = obj [("$ref", `"#/definitions/Pong")] \/
                      s = obj [("$ref", `"#/definitions/Ping")])
            _ 1000 "Ping" _ (or_introl eq_refl))).
  intros schema [-> | ->].
  - exists (obj [("$ref", `"#/definitions/Ping")]). split; [|right; reflexivity].
    exists [(`"$ref", `"#/definitions/Pong")], "#/definitions/Pong".
    repeat split; reflexivity.
  - exists (obj [("$ref", `"#/definitions/Pong")]). split; [|left; reflexivity].
    exists [(`"$ref", `"#/definitions/Ping")], "#/definitions/Ping".
    repeat split; reflexivity.
Defined.

(** ** Property types that are no default *)

Section NoDefault.

Variable defs : dict.




End NoDefault.


(** ** Names and defaults in step *)

(** Whatever triple [_get_properties] returns, for any node and at any
    depth, iterating over its required names yields exactly as many names
    as the triple has defaults, so the subscript [this_types[i]] in
    [create_obj] and [tmp_req_types[i]] in the composition never leave
    the list. *)
Theorem required_names_and_defaults_in_step defs fuel schema props required tys :
  _get_properties defs fuel schema = Ok (Some (props, required, tys)) ->
  exists names,
    py_iter required = Ok names /\ List.length names = List.length tys.
Proof. apply _get_properties_in_step. Qed.

Lemma required_names_and_defaults_in_step_witness :
  exists names,
    py_iter (strs ["name"]) = Ok names /\ List.length names = List.length [`""].
Proof.
  apply (required_names_and_defaults_in_step person_defs 2
           (obj [("$ref", `"#/definitions/Person")])
           (obj [("name", obj [("type", `"string")]);
                 ("age", obj [("type", `"string")])])).
  reflexivity.
Defined.

(** ** The members of a type chain *)

Section ChainMembers.

Variable defs : dict.

Lemma allOf_chain_members rec :
  (forall n s l, rec n s = Ok l -> dict_has `n defs = true ->
                 Forall (names_a_definition defs) l) ->
  forall entries v l,
    allOf_chain defs rec entries v = Ok l ->
    exists more, l = v ++ more /\ Forall (names_a_definition defs) more.
Proof.
  intros Hrec. induction entries as [|dic entries IH]; intros v l H;
    cbn [allOf_chain] in H.
  - injection H as <-. exists []. split; [rewrite app_nil_r; reflexivity|constructor].
  - apply bind_Ok in H as ([|] & _ & H); [|exact (IH _ _ H)].
    apply bind_Ok in H as (r & _ & H). apply bind_Ok in H as (n & _ & H).
    apply bind_Ok in H as (s & Hs & H). apply bind_Ok in H as (ns & Hns & H).
    destruct (IH _ _ H) as (more & -> & Hmore).
    exists (ns ++ more). split; [rewrite app_assoc; reflexivity|].
    apply Forall_app. split; [|exact Hmore].
    apply (Hrec _ _ _ Hns). cbn in Hs. unfold dict_has.
    destruct (dict_get `n defs); [reflexivity | discriminate].
Qed.

(** A type chain that [_get_ndrm_type] returns, for any node, starts
    with the qualified name it was asked for, and every further member is
    the qualified name of a definition that exists. *)
Theorem type_chain_names_definitions : forall fuel name schema l,
  _get_ndrm_type defs fuel name schema = Ok l ->
  exists parents_chain,
    l = qualified name :: parents_chain /\
    Forall (names_a_definition defs) parents_chain.
Proof.
  induction fuel as [|fuel IH]; intros name schema l H; [discriminate|].
  assert (Hrec : forall n s l0, _get_ndrm_type defs fuel n s = Ok l0 ->
                   dict_has `n defs = true -> Forall (names_a_definition defs) l0).
  { intros n s l0 Hl0 Hn. destruct (IH _ _ _ Hl0) as (rest & -> & Hrest).
    constructor; [|exact Hrest]. exists n. auto. }
  cbn [_get_ndrm_type] in H.
  apply bind_Ok in H as ([|] & _ & H).
  - apply bind_Ok in H as (a & _ & H). apply bind_Ok in H as (entries & _ & H).
    destruct (allOf_chain_members _ Hrec _ _ _ H) as (more & -> & Hmore).
    exists more. auto.
  - apply bind_Ok in H as ([|] & _ & H).
    + apply bind_Ok in H as (r & _ & H). apply bind_Ok in H as (n & _ & H).
      apply bind_Ok in H as (s & Hs & H). apply bind_Ok in H as (ns & Hns & H).
      injection H as <-. exists ns. split; [reflexivity|].
      apply (Hrec _ _ _ Hns). cbn in Hs. unfold dict_has.
      destruct (dict_get `n defs); [reflexivity | discriminate].
    + injection H as <-. exists []. split; [reflexivity|constructor].
Qed.

End ChainMembers.

Lemma type_chain_names_definitions_witness :
  exists parents_chain,
    [`"ndrm:Foo"; `"ndrm:Bar"; `"ndrm:Baz"] = qualified "Foo" :: parents_chain /\
    Forall (names_a_definition foo_bar_baz) parents_chain.
Proof.
  apply (type_chain_names_definitions foo_bar_baz 3 "Foo"
           (obj [("$ref", `"#/definitions/Bar")])).
  reflexivity.
Defined.

(** ** Declared properties shadow the composition *)

Section Shadow.

Variable defs : dict.

Lemma _get_prop_type_reads_properties fuel n d d' :
  key "properties" d = key "properties" d' ->
  _get_prop_type defs fuel n (VDict d) = _get_prop_type defs fuel n (VDict d').
Proof.
  intros H. unfold _get_prop_type, py_getitem at 1 3.
  cbn [hashable]. unfold key in H. rewrite H. reflexivity.
Qed.

Lemma required_defaults_reads_properties fuel d d' names :
  key "properties" d = key "properties" d' ->
  required_defaults defs fuel (VDict d) names =
  required_defaults defs fuel (VDict d') names.
Proof.
  intros H. induction names as [|n names IH]; cbn [required_defaults];
    [reflexivity|].
  rewrite (_get_prop_type_reads_properties _ _ _ _ H), IH. reflexivity.
Qed.

(** Of a node with [properties], [_get_properties] reads [properties] and
    [required] and nothing else: two such nodes that agree on these two
    members have the same result, so an [allOf] or a [$ref] beside
    [properties] contributes nothing. *)
Theorem declared_properties_shadow_composition fuel d d' p :
  key "properties" d = Some p ->
  key "properties" d' = Some p ->
  key "required" d = key "required" d' ->
  _get_properties defs (S fuel) (VDict d) = _get_properties defs (S fuel) (VDict d').
Proof.
  intros Hp Hp' Hr. cbn [_get_properties _get_type]. probe. cbn [is_dict]. probe.
  assert (Hpp : key "properties" d = key "properties" d') by congruence.
  destruct (key "required" d) as [r|] eqn:Hd; symmetry in Hr; probe.
  - destruct (py_copy r); cbn [bind]; try reflexivity.
    destruct (py_iter a); cbn [bind]; try reflexivity.
    rewrite (required_defaults_reads_properties _ _ _ _ Hpp). reflexivity.
  - reflexivity.
Qed.

End Shadow.

Lemma declared_properties_shadow_composition_witness :
  _get_properties base_defs 2
    (obj [("allOf", VList [obj [("$ref", `"#/definitions/Base")]]);
          ("properties", obj [("b", obj [("type", `"array")])])])
  = _get_properties base_defs 2
      (obj [("properties", obj [("b", obj [("type", `"array")])])]).
Proof.
  apply (declared_properties_shadow_composition base_defs 1
           [(`"allOf", VList [obj [("$ref", `"#/definitions/Base")]]);
            (`"properties", obj [("b", obj [("type", `"array")])])]
           [(`"properties", obj [("b", obj [("type", `"array")])])]
           (obj [("b", obj [("type", `"array")])]));
    reflexivity.
Defined.

(** * The object [create_obj] builds *)

Lemma key_eq_sym a b : key_eq a b = key_eq b a.
Proof.
  destruct a, b; cbn; try reflexivity.
  - destruct b, b0; reflexivity.
  - apply Z.eqb_sym.
  - apply Z.eqb_sym.
  - apply Z.eqb_sym.
  - apply String.eqb_sym.
Qed.

(** Reading a dict after an assignment. *)
Lemma dict_get_set n t k : forall d,
  dict_get k (dict_set n t d) = if key_eq n k then Some t else dict_get k d.
Proof.
  induction d as [|[k' v'] d IH]; cbn [dict_set dict_get].
  - reflexivity.
  - destruct (key_eq k' n) eqn:E; cbn [dict_get].
    + rewrite (key_eq_sym k' k), (key_eq_compat _ _ k E), (key_eq_sym k n).
      destruct (key_eq n k); reflexivity.
    + rewrite IH. destruct (key_eq k' k) eqn:E'; [|reflexivity].
      destruct (key_eq n k) eqn:E''; [|reflexivity].
      rewrite key_eq_sym in E''.
      rewrite (key_eq_compat _ _ k' E''), E in E'. discriminate.
Qed.

Section SetRequired.

Variable tys : list value.

Lemma set_required_other : forall names i v v' k,
  set_required i names tys v = Ok v' ->
  (forall n, In n names -> key_eq n k = false) ->
  dict_get k v' = dict_get k v.
Proof.
  induction names as [|n names IH]; intros i v v' k H Hk; cbn [set_required] in H.
  - injection H as <-. reflexivity.
  - apply bind_Ok in H as (t & _ & H).
    destruct (hashable n); [|discriminate].
    rewrite (IH _ _ _ _ H) by (intros; apply Hk; right; assumption).
    rewrite dict_get_set, (Hk n) by (left; reflexivity). reflexivity.
Qed.

(** The last assignment to a name decides what it is bound to. *)
Lemma set_required_last : forall names i v v' j n t,
  set_required i names tys v = Ok v' ->
  nth_error names j = Some n ->
  nth_error tys (i + j) = Some t ->
  (forall j' n', j < j' -> nth_error names j' = Some n' -> key_eq n' n = false) ->
  dict_get n v' = Some t.
Proof.
  induction names as [|n0 names IH]; intros i v v' j n t H Hn Ht Hlast;
    [destruct j; discriminate|].
  cbn [set_required] in H. apply bind_Ok in H as (t0 & Ht0 & H).
  destruct (hashable n0) eqn:Hh; [|discriminate].
  destruct j as [|j]; cbn [nth_error] in Hn.
  - injection Hn as ->. rewrite Nat.add_0_r in Ht. rewrite Ht in Ht0.
    injection Ht0 as <-.
    rewrite (set_required_other _ _ _ _ _ H).
    + rewrite dict_get_set, (key_eq_refl _ Hh). reflexivity.
    + intros n' Hin. apply In_nth_error in Hin as [j' Hj'].
      apply (Hlast (S j') n'); [lia | exact Hj'].
  - apply (IH _ _ _ j n t H Hn).
    + rewrite <- Ht. f_equal. lia.
    + intros j' n' Hlt Hj'. apply (Hlast (S j') n'); [lia | exact Hj'].
Qed.

Lemma set_required_runs : forall names i v,
  Forall (fun n => hashable n = true) names ->
  i + List.length names <= List.length tys ->
  exists v', set_required i names tys v = Ok v'.
Proof.
  induction names as [|n names IH]; intros i v Hh Hlen; cbn [set_required].
  - eauto.
  - inversion Hh as [|n' names' Hn Hnames]; subst. cbn in Hlen.
    destruct (nth_error tys i) as [t|] eqn:Ht.
    + cbn [bind]. rewrite Hn. apply IH; [exact Hnames | lia].
    + apply nth_error_None in Ht. lia.
Qed.

End SetRequired.

Section Created.

Variables (defs : dict) (fuel : nat) (name : string).

Lemma create_obj_steps d v0 p req tys names chain :
  key name defs = Some (VDict d) ->
  _get_type defs fuel (VDict d) = Ok (VDict v0) ->
  _get_properties defs fuel (VDict d) = Ok (Some (VDict p, req, tys)) ->
  py_iter req = Ok names ->
  Forall (fun n => hashable n = true) names ->
  key "@type" p = None \/ _get_ndrm_type defs fuel name (VDict d) = Ok chain ->
  exists v,
    set_required 0 names tys (preset p chain) = Ok v /\
    create_obj defs fuel name =
    (_ <- match key "notes" d with
          | Some notes => py_copy notes
          | None => Ok VNone
          end ;;
     Ok (VDict v)).
Proof.
  intros Hd Ht Hp Hn Hh Hchain.
  assert (Hv0 : v0 = []).
  { destruct (_get_type_kind _ _ _ _ Ht) as [H | [H | H]];
      [discriminate | discriminate | injection H as ->; reflexivity]. }
  subst v0.
  destruct (_get_properties_in_step _ _ _ _ _ _ Hp) as (names' & Hn' & Hlen).
  rewrite Hn in Hn'. injection Hn' as <-.
  destruct (set_required_runs tys names 0 (preset p chain) Hh) as [v Hv]; [lia|].
  exists v. split; [exact Hv|].
  assert (Hrest : forall v1 : dict,
    set_required 0 names tys
      (if dict_has `"@id" p then dict_set `"@id" `"" v1 else v1) = Ok v ->
    (v <- (has_id <- py_in `"@id" (VDict p) ;;
           names <- py_iter req ;;
           v3 <- set_required 0 names tys
                   (if has_id : bool then dict_set `"@id" `"" v1 else v1) ;;
           has_notes <- py_in `"notes" (VDict d) ;;
           _ <- (if has_notes : bool then
                   notes <- py_getitem (VDict d) `"notes" ;; py_copy notes
                 else Ok VNone) ;;
           Ok (VDict v3)) ;;
     s <- py_setitem (VDict d) `"definitions" (VDict defs) ;;
     _ <- py_setitem s `"title" `name ;;
     Ok v)
    = (_ <- match key "notes" d with
            | Some notes => py_copy notes
            | None => Ok VNone
            end ;;
       Ok (VDict v))).
  { intros v1 Hv1. unfold py_in at 1. cbn [hashable bind]. rewrite Hn.
    cbn [bind]. rewrite Hv1. cbn [bind].
    destruct (key "notes" d) as [notes|] eqn:Enotes; probe.
    - destruct (py_copy notes); reflexivity.
    - reflexivity. }
  unfold create_obj. probe. cbn [py_copy bind]. rewrite Ht. cbn [bind].
  rewrite Hp. cbn [bind]. unfold py_in at 1. cbn [hashable bind].
  unfold preset in Hv.
  destruct (dict_has `"@type" p) eqn:Etype.
  - destruct Hchain as [Hnone | Hchain].
    { unfold key in Hnone. unfold dict_has in Etype. rewrite Hnone in Etype.
      discriminate. }
    rewrite Hchain. cbn [bind]. apply Hrest. exact Hv.
  - cbn [bind]. apply Hrest. exact Hv.
Qed.

Lemma create_obj_runs d v0 p req tys names chain :
  key name defs = Some (VDict d) ->
  _get_type defs fuel (VDict d) = Ok (VDict v0) ->
  _get_properties defs fuel (VDict d) = Ok (Some (VDict p, req, tys)) ->
  py_iter req = Ok names ->
  Forall (fun n => hashable n = true) names ->
  key "@type" p = None \/ _get_ndrm_type defs fuel name (VDict d) = Ok chain ->
  notes_can_be_copied d ->
  exists v,
    create_obj defs fuel name = Ok (VDict v) /\
    set_required 0 names tys (preset p chain) = Ok v.
Proof.
  intros Hd Ht Hp Hn Hh Hchain Hnotes.
  destruct (create_obj_steps _ _ _ _ _ _ _ Hd Ht Hp Hn Hh Hchain) as (v & Hv & Hrun).
  exists v. split; [|exact Hv].
  rewrite Hrun.
  unfold notes_can_be_copied in Hnotes.
  destruct (key "notes" d) as [notes|]; [|reflexivity].
  rewrite (Hnotes notes eq_refl). reflexivity.
Qed.

(** In the object [create_obj] builds for an object definition whose
    [notes], if any, are a list or a dict, every required name is bound
    to its default, the last occurrence of a name deciding; ["@id"] is
    bound to the empty string and ["@type"] to the type chain when the
    definition has such a property and does not require it; and no other
    key is bound.  When the [notes] are of another kind, copying them for
    the notes view raises [AttributeError] and no object reaches the
    editor. *)
Theorem created_object_binds_required_names d v0 p req tys names chain :
  key name defs = Some (VDict d) ->
  _get_type defs fuel (VDict d) = Ok (VDict v0) ->
  _get_properties defs fuel (VDict d) = Ok (Some (VDict p, req, tys)) ->
  py_iter req = Ok names ->
  Forall (fun n => hashable n = true) names ->
  key "@type" p = None \/ _get_ndrm_type defs fuel name (VDict d) = Ok chain ->
  (notes_can_be_copied d ->
   exists v,
     create_obj defs fuel name = Ok (VDict v) /\
     (forall j n t,
        nth_error names j = Some n ->
        nth_error tys j = Some t ->
        (forall j' n', j < j' -> nth_error names j' = Some n' ->
                       key_eq n' n = false) ->
        dict_get n v = Some t) /\
     (forall k, (forall n, In n names -> key_eq n k = false) ->
        dict_get k v =
        if key_eq `"@id" k then (if dict_has `"@id" p then Some `"" else None)
        else if key_eq `"@type" k
             then (if dict_has `"@type" p then Some (VList chain) else None)
             else None)) /\
  (forall notes,
     key "notes" d = Some notes ->
     (forall l, notes <> VList l) -> (forall m, notes <> VDict m) ->
     create_obj defs fuel name = Raise AttributeError).
Proof.
  intros Hd Ht Hp Hn Hh Hchain. split.
  - intros Hnotes.
    destruct (create_obj_runs _ _ _ _ _ _ _ Hd Ht Hp Hn Hh Hchain Hnotes)
      as (v & Hrun & Hv).
    exists v. split; [exact Hrun|]. split.
    + intros j n t Hj Htj Hlast.
      exact (set_required_last _ _ _ _ _ _ _ _ Hv Hj Htj Hlast).
    + intros k Hk. rewrite (set_required_other _ _ _ _ _ _ Hv Hk).
      unfold preset.
      destruct (dict_has `"@id" p), (dict_has `"@type" p);
        rewrite ?dict_get_set; cbn [dict_get];
        destruct (key_eq `"@id" k) eqn:Eid, (key_eq `"@type" k) eqn:Etype;
        try reflexivity;
        destruct k; cbn [key_eq] in Eid, Etype; try discriminate;
        apply String.eqb_eq in Eid, Etype; congruence.
  - intros notes Hnotes Hl Hm.
    destruct (create_obj_steps _ _ _ _ _ _ _ Hd Ht Hp Hn Hh Hchain) as (v & _ & Hrun).
    rewrite Hrun, Hnotes.
    destruct notes; try reflexivity; [elim (Hl l) | elim (Hm d0)]; reflexivity.
Qed.

(** When ["@type"] is itself a required name, the object is built with
    the required default of ["@type"]: the type chain, which [create_obj]
    computes and assigns first, is overwritten.  The [notes] of the
    definition, if any, are a list or a dict. *)
Theorem required_type_overwrites_type_chain d v0 p req tys names chain j t :
  key name defs = Some (VDict d) ->
  _get_type defs fuel (VDict d) = Ok (VDict v0) ->
  _get_properties defs fuel (VDict d) = Ok (Some (VDict p, req, tys)) ->
  py_iter req = Ok names ->
  all_strings names ->
  NoDup names ->
  _get_ndrm_type defs fuel name (VDict d) = Ok chain ->
  notes_can_be_copied d ->
  nth_error names j = Some `"@type" ->
  nth_error tys j = Some t ->
  exists v,
    create_obj defs fuel name = Ok (VDict v) /\ key "@type" v = Some t.
Proof.
  intros Hd Ht Hp Hn Hstr Hnd Hchain Hnotes Hj Htj.
  assert (Hh : Forall (fun n => hashable n = true) names).
  { eapply Forall_impl; [|exact Hstr]. intros n [s ->]. reflexivity. }
  destruct (create_obj_runs _ _ _ _ _ _ _ Hd Ht Hp Hn Hh (or_intror Hchain) Hnotes)
    as (v & Hrun & Hv).
  exists v. split; [exact Hrun|].
  apply (set_required_last _ _ _ _ _ _ _ _ Hv Hj Htj).
  intros j' n' Hlt Hj'.
  unfold all_strings in Hstr. rewrite Forall_forall in Hstr.
  destruct (Hstr n' (nth_error_In _ _ Hj')) as [s ->]. cbn.
  apply String.eqb_neq. intros ->.
  rewrite NoDup_nth_error in Hnd.
  assert (j = j'); [|lia].
  apply Hnd; [apply nth_error_Some; congruence | congruence].
Qed.

(** For a definition of the string or the array kind [create_obj] builds
    the plain default.  For a definition of the object kind without
    [properties], [$ref] and [allOf], [_get_properties] returns no
    triple, and unpacking it raises [TypeError]. *)
Theorem created_value_without_properties d :
  key name defs = Some (VDict d) ->
  (forall v, _get_type defs fuel (VDict d) = Ok v -> is_dict v = false ->
     create_obj defs fuel name = Ok v) /\
  (forall v0, _get_type defs fuel (VDict d) = Ok (VDict v0) ->
     key "properties" d = None -> key "$ref" d = None -> key "allOf" d = None ->
     create_obj defs fuel name = Raise TypeError).
Proof.
  intros Hd. split.
  - intros v Ht Hv. unfold create_obj. probe. cbn [py_copy bind]. rewrite Ht.
    cbn [bind py_setitem hashable].
    destruct v; try reflexivity; discriminate.
  - intros v0 Ht Hp Hr Ha. unfold create_obj. probe. cbn [py_copy bind].
    rewrite Ht. cbn [bind].
    destruct fuel as [|fuel']; [discriminate|].
    cbn [_get_properties]. rewrite Ht. cbn [bind is_dict]. probe. reflexivity.
Qed.

End Created.

Lemma created_object_binds_required_names_witness :
  (exists v,
     create_obj noted_defs 2 "Noted" = Ok (VDict v) /\
     key "name" v = Some `"" /\ key "@id" v = Some `"") /\
  create_obj noted_defs 2 "Scribbled" = Raise AttributeError.
Proof.
  split.
  - destruct (created_object_binds_required_names noted_defs 2 "Noted"
                noted [] thing_properties
                (strs ["@type"; "name"]) [VList []; `""] [`"@type"; `"name"]
                [`"ndrm:Noted"]
                eq_refl eq_refl eq_refl eq_refl)
      as [Hbuilt _].
    + repeat constructor.
    + right. reflexivity.
    + destruct Hbuilt as (v & Hrun & Hreq & Hother).
      { intros notes Hnotes. injection Hnotes as <-. reflexivity. }
      exists v. split; [exact Hrun|]. split.
      * apply (Hreq 1 `"name" `""); try reflexivity.
        intros [|[|[|j']]] n' Hlt Hj'; try lia; discriminate.
      * apply (Hother `"@id"). intros n [<- | [<- | []]]; reflexivity.
  - destruct (created_object_binds_required_names noted_defs 2 "Scribbled"
                scribbled [] thing_properties
                (strs ["@type"; "name"]) [VList []; `""] [`"@type"; `"name"]
                [`"ndrm:Scribbled"]
                eq_refl eq_refl eq_refl eq_refl)
      as [_ Hraises].
    + repeat constructor.
    + right. reflexivity.
    + apply (Hraises `"A thing."); [reflexivity | discriminate | discriminate].
Defined.

Lemma required_type_overwrites_type_chain_witness :
  exists v,
    create_obj noted_defs 2 "Noted" = Ok (VDict v) /\
    key "@type" v = Some (VList []).
Proof.
  apply (required_type_overwrites_type_chain noted_defs 2 "Noted"
           noted [] thing_properties
           (strs ["@type"; "name"]) [VList []; `""] [`"@type"; `"name"]
           [`"ndrm:Noted"] 0 (VList []));
    try reflexivity.
  - repeat constructor; [exists "@type" | exists "name"]; reflexivity.
  - repeat constructor; cbn; intuition discriminate.
  - intros notes Hnotes. injection Hnotes as <-. reflexivity.
Defined.

Lemma created_value_without_properties_witness :
  create_obj typed_defs 1 "Text" = Ok `"" /\
  create_obj typed_defs 1 "Bare" = Raise TypeError.
Proof.
  split.
  - apply (created_value_without_properties typed_defs 1 "Text"
             [(`"type", `"string")] eq_refl); reflexivity.
  - apply (created_value_without_properties typed_defs 1 "Bare"
             [(`"type", `"object")] eq_refl) with (v0 := []); reflexivity.
Defined.

(** * The merged schema and the output schema *)

(** ** Strings *)

Lemma length_append (a b : string) :
  String.length (a ++ b) = String.length a + String.length b.
Proof. induction a as [|c a IH]; cbn; [reflexivity|]. rewrite IH. reflexivity. Qed.

Lemma append_cancel_r (c : string) : forall a b : string,
  (a ++ c)%string = (b ++ c)%string -> a = b.
Proof.
  induction a as [|x a IH]; intros [|y b] H; cbn in H.
  - reflexivity.
  - apply (f_equal String.length) in H. cbn in H. rewrite length_append in H. lia.
  - apply (f_equal String.length) in H. cbn in H. rewrite length_append in H. lia.
  - injection H as -> H. rewrite (IH _ H). reflexivity.
Qed.

Lemma list_key_eqb k n : String.eqb (list_key k) (list_key n) = String.eqb k n.
Proof.
  destruct (String.eqb k n) eqn:E.
  - apply String.eqb_eq in E as ->. apply String.eqb_refl.
  - apply String.eqb_neq. intros H. apply String.eqb_neq in E. apply E.
    exact (append_cancel_r _ _ _ H).
Qed.

Lemma list_key_not_title k : String.eqb (list_key k) "title" = false.
Proof.
  apply String.eqb_neq. intros H. destruct k as [|c k]; [discriminate H|].
  apply (f_equal String.length) in H. unfold list_key in H.
  rewrite length_append in H. cbn in H. lia.
Qed.

Lemma split_no_slash s : no_slash s = true -> split "/"%char s = [s].
Proof.
  induction s as [|c s IH]; cbn; [reflexivity|].
  intros H. apply andb_true_iff in H as [Hc Hs].
  apply negb_true_iff in Hc. rewrite Hc, (IH Hs). reflexivity.
Qed.

Lemma split_segments_no_slash s :
  Forall (fun seg => no_slash seg = true) (split "/"%char s).
Proof.
  induction s as [|c s IH]; cbn.
  - repeat constructor.
  - destruct (Ascii.eqb c "/"%char) eqn:Hc.
    + constructor; [reflexivity | exact IH].
    + destruct (split "/"%char s) as [|h t].
      * constructor; [|constructor]. cbn. rewrite Hc. reflexivity.
      * inversion IH; subst. constructor; [|assumption].
        cbn. rewrite Hc. assumption.
Qed.

Lemma last_split_after_slash b : forall a,
  exists h t,
    split "/"%char (a ++ String "/"%char b) = h :: t /\ t <> [] /\
    last t EmptyString = last (split "/"%char b) EmptyString.
Proof.
  assert (Hb : split "/"%char b <> []).
  { destruct b as [|c b]; cbn; [discriminate|].
    destruct (Ascii.eqb c "/"%char); [discriminate|].
    destruct (split "/"%char b); discriminate. }
  induction a as [|c a (h & t & E & Ht & Hl)]; cbn [append split].
  - rewrite Ascii.eqb_refl. exists EmptyString, (split "/"%char b). auto.
  - rewrite E. destruct (Ascii.eqb c "/"%char).
    + exists EmptyString, (h :: t). repeat split; [discriminate|].
      rewrite <- Hl. destruct t; [contradiction | reflexivity].
    + exists (String c h), t. auto.
Qed.

(** A path is read by its last segment only. *)
Lemma target_after_slash a b : target (a ++ String "/"%char b) = target b.
Proof.
  unfold target. destruct (last_split_after_slash b a) as (h & t & -> & Ht & Hl).
  rewrite <- Hl. destruct t; [contradiction | reflexivity].
Qed.

Lemma target_no_slash r : no_slash (target r) = true.
Proof.
  unfold target. pose proof (split_segments_no_slash r) as H.
  induction H as [|seg l Hseg _ IH]; [reflexivity|].
  destruct l; [exact Hseg | exact IH].
Qed.

(** ** Dicts with string keys *)

Lemma str_key_absent d n k :
  str_keys d -> key_eq (VStr n) k = true -> ~ In (VStr n) (map fst d) ->
  dict_get k d = None.
Proof.
  intros Hstr Hk Hin. induction Hstr as [|[k' v'] d [s Hs] _ IH]; [reflexivity|].
  cbn in Hs. subst k'. cbn [dict_get]. cbn [map fst] in Hin.
  destruct (key_eq `s k) eqn:E.
  - exfalso. apply Hin. left.
    destruct k; cbn in Hk, E; try discriminate.
    apply String.eqb_eq in Hk, E. congruence.
  - apply IH. intros H. apply Hin. right. exact H.
Qed.

(** Assigning the bindings of a well-keyed dict one after the other: a
    key is bound to what the assigned dict binds it to, and otherwise to
    what it was bound to before. *)
Lemma dict_get_assigned k : forall items acc,
  well_keyed items ->
  dict_get k (fold_left (fun acc kv => dict_set (fst kv) (snd kv) acc) items acc) =
  match dict_get k items with
  | Some v => Some v
  | None => dict_get k acc
  end.
Proof.
  induction items as [|[n t] items IH]; intros acc [Hstr Hnd]; [reflexivity|].
  cbn [fold_left fst snd dict_get].
  inversion Hstr as [|kv items' [s Hs] Hstr']; subst. cbn in Hs. subst n.
  cbn [map fst] in Hnd. inversion Hnd as [|x l Hnotin Hnd']; subst.
  rewrite (IH _ (conj Hstr' Hnd')), dict_get_set.
  destruct (key_eq `s k) eqn:E; [|reflexivity].
  rewrite (str_key_absent _ _ _ Hstr' E Hnotin). reflexivity.
Qed.

Lemma str_keys_set n t d : str_keys d -> str_keys (dict_set (VStr n) t d).
Proof.
  unfold str_keys. induction 1 as [|[k' v'] d Hk Hd IH]; cbn [dict_set].
  - repeat constructor. exists n. reflexivity.
  - destruct (key_eq k' `n); constructor; auto.
Qed.

Lemma keys_set_NoDup n t d :
  str_keys d -> NoDup (map fst d) -> NoDup (map fst (dict_set (VStr n) t d)).
Proof.
  intros Hstr Hnd.
  destruct (dict_get `n d) as [v|] eqn:E.
  - assert (Hkeys : map fst (dict_set `n t d) = map fst d); [|rewrite Hkeys; exact Hnd].
    clear Hnd Hstr. revert E.
    induction d as [|[k' v'] d IH]; cbn; [discriminate|].
    destruct (key_eq k' `n); cbn; [reflexivity|].
    intros E. rewrite (IH E). reflexivity.
  - rewrite (dict_set_fresh _ _ _ E), map_app. cbn.
    apply NoDup_app; [exact Hnd | repeat constructor; intros [] |].
    intros k Hin [<- | []].
    apply in_map_iff in Hin as ([k' v'] & Hk & Hin). cbn in Hk. subst k'.
    clear Hnd. induction Hstr as [|[k' v0] d _ _ IH]; [contradiction|].
    cbn in E. destruct Hin as [[= -> ->] | Hin].
    + cbn in E. rewrite String.eqb_refl in E. discriminate.
    + destruct (key_eq k' `n); [discriminate|]. exact (IH E Hin).
Qed.

Lemma well_keyed_assigned : forall items acc,
  str_keys items -> well_keyed acc ->
  well_keyed (fold_left (fun acc kv => dict_set (fst kv) (snd kv) acc) items acc).
Proof.
  induction items as [|[n t] items IH]; intros acc Hstr Hacc; [exact Hacc|].
  cbn [fold_left fst snd].
  inversion Hstr as [|kv items' [s Hs] Hstr']; subst. cbn in Hs. subst n.
  apply IH; [exact Hstr'|]. destruct Hacc as [Ha Hnd]. split.
  - apply str_keys_set, Ha.
  - apply keys_set_NoDup; assumption.
Qed.

(** ** [set_schema] *)

Lemma include_definitions_spec : forall items sd core,
  key "definitions" sd = Some (VDict core) ->
  str_keys items ->
  exists sd',
    include_definitions items (VDict sd) = Ok (VDict sd') /\
    key "definitions" sd' = Some (VDict (assign_all items core)) /\
    (forall k, key_eq `"definitions" k = false -> dict_get k sd' = dict_get k sd).
Proof.
  induction items as [|[n t] items IH]; intros sd core Hd Hstr.
  - exists sd. split; [reflexivity|]. split; [exact Hd|]. reflexivity.
  - inversion Hstr as [|kv items' [s Hs] Hstr']; subst. cbn in Hs. subst n.
    cbn [include_definitions]. probe. cbn [py_setitem hashable bind].
    destruct (IH (dict_set `"definitions" (VDict (dict_set `s t core)) sd)
                 (dict_set `s t core)) as (sd' & Hrun & Hdefs & Hother).
    + unfold key. rewrite dict_get_set. reflexivity.
    + exact Hstr'.
    + exists sd'. split; [exact Hrun|]. split; [exact Hdefs|].
      intros k Hk. rewrite (Hother k Hk), dict_get_set, Hk. reflexivity.
Qed.

Lemma declare_lists_spec : forall items pl od,
  str_keys items ->
  exists pl',
    declare_lists items pl od = Ok (pl', assign_all items od) /\
    (forall n, key (list_key n) pl' =
               if dict_has `n items then Some (list_property n)
               else key (list_key n) pl) /\
    (forall k, (forall n, String.eqb (list_key n) k = false) ->
               key k pl' = key k pl).
Proof.
  induction items as [|[n t] items IH]; intros pl od Hstr.
  - exists pl. split; [reflexivity|]. split; reflexivity.
  - inversion Hstr as [|kv items' [s Hs] Hstr']; subst. cbn in Hs. subst n.
    cbn [declare_lists].
    destruct (IH (dict_set (VStr (list_key s)) (list_property s) pl)
                 (dict_set `s t od) Hstr') as (pl' & Hrun & Hlist & Hother).
    exists pl'. split; [exact Hrun|]. split.
    + intros n. rewrite Hlist. unfold dict_has, key. cbn [dict_get key_eq].
      rewrite dict_get_set. cbn [key_eq]. rewrite list_key_eqb.
      destruct (String.eqb s n) eqn:E.
      * apply String.eqb_eq in E as ->.
        destruct (dict_get `n items); reflexivity.
      * destruct (dict_get `n items); reflexivity.
    + intros k Hk. rewrite (Hother k Hk). unfold key. rewrite dict_get_set.
      cbn [key_eq]. rewrite (Hk s). reflexivity.
Qed.

Lemma assign_all_fresh : forall items acc,
  well_keyed (acc ++ items) -> assign_all items acc = acc ++ items.
Proof.
  unfold assign_all.
  induction items as [|[n t] items IH]; intros acc Hwk; cbn [fold_left fst snd].
  - rewrite app_nil_r. reflexivity.
  - destruct Hwk as [Hstr Hnd].
    assert (Hs : exists s, n = VStr s).
    { unfold str_keys in Hstr. rewrite Forall_forall in Hstr.
      apply (Hstr (n, t)). apply in_or_app. right. left. reflexivity. }
    destruct Hs as [s ->].
    assert (Hnone : dict_get `s acc = None).
    { apply (str_key_absent acc s `s).
      - unfold str_keys in *. apply Forall_app in Hstr. apply Hstr.
      - cbn. apply String.eqb_refl.
      - rewrite map_app in Hnd. cbn in Hnd.
        apply NoDup_remove_2 in Hnd. intros H. apply Hnd.
        apply in_or_app. left. exact H. }
    rewrite (dict_set_fresh _ _ _ Hnone), IH.
    + rewrite <- app_assoc. reflexivity.
    + rewrite <- app_assoc. split; assumption.
Qed.

Lemma declare_lists_exact : forall names items pl od,
  map fst items = map VStr names ->
  NoDup names ->
  (forall n, In n names -> key (list_key n) pl = None) ->
  declare_lists items pl od = Ok (pl ++ declared_lists names, assign_all items od).
Proof.
  induction names as [|s names IH]; intros [|[k t] items] pl od Hkeys Hnd Hfresh;
    try discriminate Hkeys.
  - cbn [declare_lists declared_lists map]. rewrite app_nil_r. reflexivity.
  - cbn [map fst] in Hkeys. injection Hkeys as -> Hkeys.
    inversion Hnd as [|x l Hnotin Hnd']; subst.
    cbn [declare_lists].
    rewrite (dict_set_fresh (VStr (list_key s)) (list_property s) pl)
      by (apply Hfresh; left; reflexivity).
    rewrite (IH items _ (dict_set `s t od) Hkeys Hnd').
    + cbn [declared_lists map]. rewrite <- app_assoc. reflexivity.
    + intros n Hn. unfold key. rewrite dict_get_app.
      fold (key (list_key n) pl). rewrite (Hfresh n) by (right; exact Hn).
      cbn [dict_get key_eq]. rewrite list_key_eqb.
      destruct (String.eqb s n) eqn:E; [|reflexivity].
      apply String.eqb_eq in E. subst n. contradiction.
Qed.

Lemma well_keyed_names d :
  well_keyed d -> exists names, map fst d = map VStr names /\ NoDup names.
Proof.
  intros [Hstr Hnd]. induction Hstr as [|[k v] d [s Hs] _ IH].
  - exists []. split; [reflexivity | constructor].
  - cbn in Hs. subst k. cbn [map fst] in Hnd |- *.
    inversion Hnd as [|x l Hnotin Hnd']; subst.
    destruct (IH Hnd') as (names & Hkeys & Hnames).
    exists (s :: names). split; [cbn [map]; rewrite Hkeys; reflexivity|].
    constructor; [|exact Hnames].
    intros Hin. apply Hnotin. rewrite Hkeys. apply in_map. exact Hin.
Qed.

Section SetSchema.

Variables (sd ed core ext : dict).

Hypothesis core_definitions : key "definitions" sd = Some (VDict core).
Hypothesis ext_definitions : key "definitions" ed = Some (VDict ext).
Hypothesis core_well_keyed : well_keyed core.
Hypothesis ext_well_keyed : well_keyed ext.

Lemma merged_well_keyed : well_keyed (assign_all ext core).
Proof. apply well_keyed_assigned; [apply ext_well_keyed | exact core_well_keyed]. Qed.

Lemma set_schema_runs :
  exists sd' pl,
    set_schema (VDict sd) (VDict ed) =
    Ok (VDict sd',
        VDict [(`"title", `"MetaData");
               (`"MetaData", VDict [(`"properties", VDict pl)]);
               (`"definitions", VDict (assign_all ext core));
               (`"$ref", `"#/MetaData")]) /\
    key "definitions" sd' = Some (VDict (assign_all ext core)) /\
    (forall k, key_eq `"definitions" k = false -> dict_get k sd' = dict_get k sd) /\
    (forall n, key (list_key n) pl =
               if dict_has `n (assign_all ext core) then Some (list_property n)
               else None) /\
    key "title" pl = Some `"Meta Data".
Proof.
  destruct (include_definitions_spec ext sd core core_definitions
              (proj1 ext_well_keyed)) as (sd' & Hrun & Hdefs & Hother).
  destruct (declare_lists_spec (assign_all ext core) [(`"title", `"Meta Data")] []
              (proj1 merged_well_keyed)) as (pl & Hdecl & Hlist & Hrest).
  exists sd', pl. split; [|split; [exact Hdefs | split; [exact Hother | split]]].
  - unfold set_schema. probe. cbn [py_items bind]. rewrite Hrun. cbn [bind].
    probe. cbn [py_items bind]. rewrite Hdecl. cbn [bind].
    rewrite (assign_all_fresh (assign_all ext core) []) by exact merged_well_keyed.
    reflexivity.
  - intros n. rewrite Hlist. unfold key. cbn [dict_get key_eq].
    rewrite (String.eqb_sym "title"), list_key_not_title. reflexivity.
  - rewrite Hrest; [reflexivity|]. intros n. apply list_key_not_title.
Qed.

(** The definitions of the extension schema are assigned over those of
    the core schema: in the merged schema a name is bound to the
    extension's definition when the extension has one, and to the core's
    otherwise; the keys stay strings, each once; and no other member of
    the core schema changes. *)
Theorem extension_definitions_override_core :
  exists sd' out merged,
    set_schema (VDict sd) (VDict ed) = Ok (VDict sd', out) /\
    key "definitions" sd' = Some (VDict merged) /\
    well_keyed merged /\
    (forall n, key n merged =
               match key n ext with Some v => Some v | None => key n core end) /\
    (forall k, k <> "definitions" -> key k sd' = key k sd).
Proof.
  destruct set_schema_runs as (sd' & pl & Hrun & Hdefs & Hother & _).
  eexists sd', _, (assign_all ext core).
  split; [exact Hrun|]. split; [exact Hdefs|]. split; [exact merged_well_keyed|].
  split.
  - intros n. apply dict_get_assigned, ext_well_keyed.
  - intros k Hk. apply Hother. cbn [key_eq]. apply String.eqb_neq. congruence.
Qed.

(** The output schema holds the merged definitions as they are, and the
    [properties] of its [MetaData] are exactly its title followed by one
    property for each definition, in the order of the definitions:
    [name list], an array whose items refer to the definition.  So a
    [list] key is bound just when its name is a definition, and no other
    key than these and ["title"] is bound.  When the name has no ["/"],
    the resolver reads the reference of the items back to the
    definition. *)
Theorem output_schema_declares_a_list_per_definition :
  exists sd' pl merged names,
    set_schema (VDict sd) (VDict ed) =
    Ok (VDict sd',
        VDict [(`"title", `"MetaData");
               (`"MetaData", VDict [(`"properties", VDict pl)]);
               (`"definitions", VDict merged);
               (`"$ref", `"#/MetaData")]) /\
    key "definitions" sd' = Some (VDict merged) /\
    map fst merged = map VStr names /\
    NoDup names /\
    pl = (`"title", `"Meta Data") :: declared_lists names /\
    key "title" pl = Some `"Meta Data" /\
    (forall n, key (list_key n) pl =
               if dict_has `n merged then Some (list_property n) else None) /\
    (forall k, k <> "title" -> (forall n, k <> list_key n) -> key k pl = None) /\
    (forall n s fuel,
       key n merged = Some s ->
       no_slash n = true ->
       exists items,
         py_getitem (list_property n) `"items" = Ok items /\
         _get_type merged (S fuel) items = _get_type merged fuel s).
Proof.
  destruct set_schema_runs as (sd' & pl & Hrun & Hdefs & _ & Hlist & Htitle).
  destruct (well_keyed_names _ merged_well_keyed) as (names & Hkeys & Hnames).
  assert (Hpl : pl = (`"title", `"Meta Data") :: declared_lists names).
  { destruct (include_definitions_spec ext sd core core_definitions
                (proj1 ext_well_keyed)) as (sd2 & Hrun2 & Hdefs2 & _).
    revert Hrun. unfold set_schema. probe. cbn [py_items bind].
    rewrite Hrun2. cbn [bind]. probe. cbn [py_items bind].
    rewrite (declare_lists_exact names _ [(`"title", `"Meta Data")] [] Hkeys Hnames).
    - cbn [bind app]. intros [= _ <-]. reflexivity.
    - intros n _. unfold key. cbn [dict_get key_eq].
      rewrite (String.eqb_sym "title"), list_key_not_title. reflexivity. }
  exists sd', pl, (assign_all ext core), names.
  split; [exact Hrun|]. split; [exact Hdefs|]. split; [exact Hkeys|].
  split; [exact Hnames|]. split; [exact Hpl|]. split; [exact Htitle|].
  split; [exact Hlist|]. split.
  - intros k Hk Hlists. rewrite Hpl. unfold key. cbn [dict_get key_eq].
    replace (String.eqb "title" k) with false
      by (symmetry; apply String.eqb_neq; congruence).
    clear Hpl Hkeys Hnames. induction names as [|n names IH]; [reflexivity|].
    cbn [declared_lists map dict_get key_eq].
    replace (String.eqb (list_key n) k) with false
      by (symmetry; apply String.eqb_neq; intros E; exact (Hlists n (eq_sym E))).
    exact IH.
  - intros n s fuel Hn Hslash. eexists. split; [reflexivity|].
    rewrite (_get_type_ref _ _ [(`"$ref", VStr ("#/definitions/" ++ n)%string)]
               ("#/definitions/" ++ n)%string) by reflexivity.
    change ("#/definitions/" ++ n)%string
      with ("#/definitions" ++ String "/"%char n)%string.
    rewrite target_after_slash. unfold target.
    rewrite (split_no_slash _ Hslash). cbn [last]. probe. reflexivity.
Qed.

End SetSchema.

Lemma core_well_keyed_example :
  well_keyed [(`"A", obj [("type", `"string")]); (`"B", obj [("type", `"string")])].
Proof.
  split.
  - repeat constructor; [exists "A" | exists "B"]; reflexivity.
  - repeat constructor; cbn; intuition discriminate.
Defined.

Lemma ext_well_keyed_example :
  well_keyed [(`"B", obj [("type", `"array")]);
              (`"C", obj [("$ref", `"#/definitions/A")])].
Proof.
  split.
  - repeat constructor; [exists "B" | exists "C"]; reflexivity.
  - repeat constructor; cbn; intuition discriminate.
Defined.

Lemma extension_definitions_override_core_witness :
  exists sd' out merged,
    set_schema (VDict core_members) (VDict ext_members) = Ok (VDict sd', out) /\
    key "definitions" sd' = Some (VDict merged) /\
    key "B" merged = Some (obj [("type", `"array")]) /\
    key "A" merged = Some (obj [("type", `"string")]).
Proof.
  destruct (extension_definitions_override_core core_members ext_members _ _
              eq_refl eq_refl core_well_keyed_example ext_well_keyed_example)
    as (sd' & out & merged & Hrun & Hdefs & _ & Hlookup & _).
  exists sd', out, merged. repeat split; trivial; rewrite Hlookup; reflexivity.
Defined.

Lemma output_schema_declares_a_list_per_definition_witness :
  exists sd' merged,
    set_schema (VDict core_members) (VDict ext_members) =
    Ok (VDict sd',
        VDict [(`"title", `"MetaData");
               (`"MetaData",
                VDict [(`"properties",
                        VDict [(`"title", `"Meta Data");
                               (`"A list", list_property "A");
                               (`"B list", list_property "B");
                               (`"C list", list_property "C")])]);
               (`"definitions", VDict merged);
               (`"$ref", `"#/MetaData")]).
Proof.
  destruct (output_schema_declares_a_list_per_definition
              core_members ext_members _ _
              eq_refl eq_refl core_well_keyed_example ext_well_keyed_example)
    as (sd' & pl & merged & names & Hrun & Hdefs & Hkeys & _ & Hpl & _).
  exists sd', merged. rewrite Hrun, Hpl. do 5 f_equal.
  assert (E : merged =
              [(`"A", obj [("type", `"string")]); (`"B", obj [("type", `"array")]);
               (`"C", obj [("$ref", `"#/definitions/A")])]).
  { vm_compute in Hrun. injection Hrun as <- _ <-. reflexivity. }
  rewrite E in Hkeys.
  destruct names as [|a [|b [|c [|e names]]]]; try discriminate Hkeys.
  injection Hkeys as <- <- <-. reflexivity.
Defined.

(** * The options of the selector *)

Section Sorting.

Lemma ltb_asym x y : String.ltb y x = true -> String.ltb x y = false.
Proof.
  unfold String.ltb. rewrite (String.compare_antisym x y).
  destruct (String.compare y x); cbn; congruence.
Qed.

Lemma insert_sorted_strings x : forall l,
  all_strings (x :: l) ->
  exists l',
    insert_sorted x l = Ok l' /\
    Permutation (x :: l) l' /\
    (Sorted ascending l -> Sorted ascending l') /\
    (forall y, HdRel ascending y l -> ascending y x -> HdRel ascending y l').
Proof.
  induction l as [|y l IH]; intros Hstr.
  - exists [x]. split; [reflexivity|]. split; [reflexivity|]. split.
    + intros _. repeat constructor.
    + intros y _ Hy. constructor. exact Hy.
  - inversion Hstr as [|x0 l0 [sx Hx] Hl]; subst.
    inversion Hl as [|y0 l1 [sy Hy] Hl']; subst.
    cbn [insert_sorted py_lt bind].
    destruct (String.ltb sy sx) eqn:E.
    + destruct IH as (l' & Hrun & Hperm & Hsorted & Hhd).
      { constructor; [exists sx; reflexivity | exact Hl']. }
      rewrite Hrun. cbn [bind]. exists (`sy :: l'). split; [reflexivity|]. split.
      * rewrite perm_swap. constructor. exact Hperm.
      * split.
        -- intros Hs. apply Sorted_inv in Hs as [Hs Hh].
           constructor; [exact (Hsorted Hs)|].
           apply Hhd; [exact Hh|]. unfold ascending. cbn.
           rewrite (ltb_asym _ _ E). reflexivity.
        -- intros z Hz _. inversion Hz; subst. constructor. assumption.
    + exists (`sx :: `sy :: l). split; [reflexivity|]. split; [reflexivity|]. split.
      * intros Hs. constructor; [exact Hs|]. constructor.
        unfold ascending. cbn. rewrite E. reflexivity.
      * intros z _ Hz. constructor. exact Hz.
Qed.

Lemma py_sort_strings : forall l,
  all_strings l ->
  exists l', py_sort l = Ok l' /\ Permutation l l' /\ Sorted ascending l'.
Proof.
  induction l as [|x l IH]; intros Hstr.
  - exists []. repeat split; constructor.
  - destruct l as [|y l].
    + exists [x]. split; [reflexivity|]. split; [reflexivity|]. repeat constructor.
    + inversion Hstr as [|x0 l0 Hx Hl]; subst.
      destruct (IH Hl) as (l' & Hrun & Hperm & Hsorted).
      destruct (insert_sorted_strings x l') as (l'' & Hins & Hperm' & Hs & _).
      { constructor; [exact Hx|]. unfold all_strings in *.
        exact (Permutation_Forall Hperm Hl). }
      exists l''. split; [|split].
      * change (py_sort (x :: y :: l))
          with (sorted <- py_sort (y :: l) ;; insert_sorted x sorted).
        rewrite Hrun. exact Hins.
      * rewrite <- Hperm'. constructor. exact Hperm.
      * exact (Hs Hsorted).
Qed.

Lemma bound_key_is_found k v d :
  In (k, v) d -> hashable k = true -> exists v', dict_get k d = Some v'.
Proof.
  intros Hin Hk. induction d as [|[k' v0] d IH]; [contradiction|].
  cbn [dict_get]. destruct (key_eq k' k) eqn:E; [eauto|].
  destruct Hin as [[= -> ->] | Hin]; [|exact (IH Hin)].
  rewrite (key_eq_refl _ Hk) in E. discriminate.
Qed.

(** The options [init_layout] gives the selector are the names of the
    definitions, each as often as it is a key, in ascending order; every
    option is therefore a key of the definitions, and the lookup that
    [create_obj] starts with finds a definition for it. *)
Theorem selector_options_are_the_sorted_names sd defs :
  key "definitions" sd = Some (VDict defs) ->
  str_keys defs ->
  exists options,
    schema_name (VDict sd) = Ok options /\
    Permutation (map fst defs) options /\
    Sorted ascending options /\
    forall o, In o options ->
      exists n s, o = VStr n /\ py_getitem (VDict defs) `n = Ok s.
Proof.
  intros Hd Hstr.
  assert (Hnames : all_strings (map fst defs)).
  { unfold all_strings, str_keys in *. rewrite Forall_map. exact Hstr. }
  destruct (py_sort_strings _ Hnames) as (options & Hrun & Hperm & Hsorted).
  exists options. split; [|split; [exact Hperm | split; [exact Hsorted|]]].
  - unfold schema_name. probe. cbn [py_items py_iter bind]. exact Hrun.
  - intros o Ho. apply (Permutation_in _ (Permutation_sym Hperm)) in Ho.
    unfold all_strings in Hnames. rewrite Forall_forall in Hnames.
    destruct (Hnames o Ho) as [n ->]. exists n.
    apply in_map_iff in Ho as ([k v] & Hk & Hin). cbn in Hk. subst k.
    destruct (bound_key_is_found _ _ _ Hin eq_refl) as [s Hs].
    exists s. split; [reflexivity|]. unfold py_getitem. cbn [hashable].
    rewrite Hs. reflexivity.
Qed.

End Sorting.

Lemma selector_options_are_the_sorted_names_witness :
  exists options,
    schema_name (obj [("definitions", obj [("Person", obj []); ("Agent", obj [])])])
    = Ok options /\
    Sorted ascending options.
Proof.
  destruct (selector_options_are_the_sorted_names
              [(`"definitions", obj [("Person", obj []); ("Agent", obj [])])]
              [(`"Person", obj []); (`"Agent", obj [])] eq_refl)
    as (options & Hrun & _ & Hsorted & _).
  - repeat constructor; [exists "Person" | exists "Agent"]; reflexivity.
  - exists options. split; assumption.
Defined.

(** * Adding an object to the meta data *)

Section Adding.

Variables (d : dict) (selected : string).

Lemma add_obj_step old v :
  listed d selected old ->
  exists d',
    add_obj (VDict d) selected (Some v) = Ok (VDict d') /\
    key (list_key selected) d' = Some (VList (old ++ [v])) /\
    (forall k, k <> list_key selected -> key k d' = key k d).
Proof.
  intros [[Hnone ->] | Hsome]; unfold add_obj; probe.
  - cbn [py_setitem hashable]. eexists. split; [reflexivity|]. split.
    + unfold key. rewrite dict_get_set. cbn. rewrite String.eqb_refl. reflexivity.
    + intros k Hk. unfold key. rewrite dict_get_set. cbn [key_eq].
      apply String.eqb_neq in Hk. rewrite String.eqb_sym, Hk. reflexivity.
  - cbn [append_editor_value bind py_setitem hashable].
    eexists. split; [reflexivity|]. split.
    + unfold key. rewrite dict_get_set. cbn. rewrite String.eqb_refl. reflexivity.
    + intros k Hk. unfold key. rewrite dict_get_set. cbn [key_eq].
      apply String.eqb_neq in Hk. rewrite String.eqb_sym, Hk. reflexivity.
Qed.

(** [add_obj] puts the object of the object's editor at the end of the
    list the meta data keeps under [name list], starting the list when
    there is none, and changes no other member; a second call puts its
    object after that of the first. *)
Theorem add_obj_appends_to_the_list old v1 v2 :
  listed d selected old ->
  exists d1 d2,
    add_obj (VDict d) selected (Some v1) = Ok (VDict d1) /\
    key (list_key selected) d1 = Some (VList (old ++ [v1])) /\
    (forall k, k <> list_key selected -> key k d1 = key k d) /\
    add_obj (VDict d1) selected (Some v2) = Ok (VDict d2) /\
    key (list_key selected) d2 = Some (VList (old ++ [v1; v2])) /\
    (forall k, k <> list_key selected -> key k d2 = key k d).
Proof.
  intros Hold.
  destruct (add_obj_step old v1 Hold) as (d1 & Hrun1 & Hkey1 & Hother1).
  exists d1. revert Hrun1 Hkey1 Hother1. generalize d1. clear d1.
  intros d1 Hrun1 Hkey1 Hother1.
  assert (Hstep : exists d2,
            add_obj (VDict d1) selected (Some v2) = Ok (VDict d2) /\
            key (list_key selected) d2 = Some (VList ((old ++ [v1]) ++ [v2])) /\
            (forall k, k <> list_key selected -> key k d2 = key k d1)).
  { unfold add_obj. probe. cbn [append_editor_value bind py_setitem hashable].
    eexists. split; [reflexivity|]. split.
    - unfold key. rewrite dict_get_set. cbn. rewrite String.eqb_refl. reflexivity.
    - intros k Hk. unfold key. rewrite dict_get_set. cbn [key_eq].
      apply String.eqb_neq in Hk. rewrite String.eqb_sym, Hk. reflexivity. }
  destruct Hstep as (d2 & Hrun2 & Hkey2 & Hother2).
  exists d2. repeat split; trivial.
  - rewrite Hkey2, <- app_assoc. reflexivity.
  - intros k Hk. rewrite (Hother2 k Hk). exact (Hother1 k Hk).
Qed.

(** An [AttributeError] is swallowed: without an object's editor, or
    when what the meta data keeps under [name list] is not a list,
    [add_obj] leaves the meta data as it is and raises nothing.  A
    [TypeError] is not: on meta data that is a list, [add_obj] with an
    object raises it. *)
Theorem add_obj_swallows_attribute_errors :
  add_obj (VDict d) selected None = Ok (VDict d) /\
  (forall x object_editor,
     key (list_key selected) d = Some x ->
     (forall l, x <> VList l) ->
     add_obj (VDict d) selected object_editor = Ok (VDict d)) /\
  (forall l v, add_obj (VList l) selected (Some v) = Raise TypeError).
Proof.
  split; [|split].
  - unfold add_obj. destruct (key (list_key selected) d) as [x|] eqn:Hk; probe.
    + destruct x; reflexivity.
    + reflexivity.
  - intros x object_editor Hk Hx. unfold add_obj. probe.
    destruct x; try reflexivity. exfalso. exact (Hx _ eq_refl).
  - intros l v. unfold add_obj, py_in.
    destruct (existsb _ l); reflexivity.
Qed.

End Adding.

Lemma add_obj_appends_to_the_list_witness :
  exists d1 d2,
    add_obj (obj [("Author", `"me")]) "Person" (Some (obj [("name", `"a")]))
    = Ok (VDict d1) /\
    add_obj (VDict d1) "Person" (Some (obj [("name", `"b")])) = Ok (VDict d2) /\
    key "Person list" d2 = Some (VList [obj [("name", `"a")]; obj [("name", `"b")]]) /\
    key "Author" d2 = Some `"me".
Proof.
  destruct (add_obj_appends_to_the_list [(`"Author", `"me")] "Person" []
              (obj [("name", `"a")]) (obj [("name", `"b")]))
    as (d1 & d2 & H1 & _ & _ & H2 & Hk & Ho).
  - left. split; reflexivity.
  - exists d1, d2. repeat split; trivial.
    rewrite (Ho "Author"); [reflexivity | discriminate].
Defined.

Lemma add_obj_swallows_attribute_errors_witness :
  add_obj (obj [("Person list", `"none yet")]) "Person" (Some (obj []))
  = Ok (obj [("Person list", `"none yet")]).
Proof.
  apply (add_obj_swallows_attribute_errors [(`"Person list", `"none yet")] "Person")
    with (x := `"none yet"); [reflexivity | discriminate].
Defined.

(** * What a reference is read by *)

Section LastSegment.

Variable defs : dict.

Lemma same_but_path_in d d' k :
  same_but_path d d' -> py_in `k (VDict d) = py_in `k (VDict d').
Proof.
  intros (Hother & r & r' & Hr & Hr' & _). unfold py_in, dict_has. cbn [hashable].
  destruct (String.eqb k "$ref") eqn:E.
  - apply String.eqb_eq in E as ->. unfold key in Hr, Hr'. rewrite Hr, Hr'.
    reflexivity.
  - apply String.eqb_neq in E. specialize (Hother k E). unfold key in Hother.
    rewrite Hother. reflexivity.
Qed.

Lemma same_but_path_getitem d d' k :
  same_but_path d d' -> k <> "$ref" ->
  py_getitem (VDict d) `k = py_getitem (VDict d') `k.
Proof.
  intros (Hother & _) Hk. unfold py_getitem. cbn [hashable].
  specialize (Hother k Hk). unfold key in Hother. rewrite Hother. reflexivity.
Qed.

Lemma same_but_path_split {A : Type} d d' (k : value -> outcome A) :
  same_but_path d d' ->
  (r <- py_getitem (VDict d) `"$ref" ;; n <- split_last r ;; k n) =
  (r <- py_getitem (VDict d') `"$ref" ;; n <- split_last r ;; k n).
Proof.
  intros (_ & r & r' & Hr & Hr' & Ht). probe.
  unfold split_last. fold (target r) (target r'). rewrite Ht. reflexivity.
Qed.

Lemma same_but_path_name {A : Type} d d' (k : string -> outcome A) :
  same_but_path d d' ->
  (r <- py_getitem (VDict d) `"$ref" ;; n <- ref_name r ;; k n) =
  (r <- py_getitem (VDict d') `"$ref" ;; n <- ref_name r ;; k n).
Proof.
  intros (_ & r & r' & Hr & Hr' & Ht). probe.
  unfold ref_name. fold (target r) (target r'). rewrite Ht. reflexivity.
Qed.

(** Steps through the two calls, which probe the two nodes alike. *)
Ltac alike H :=
  repeat first
    [ reflexivity
    | rewrite (same_but_path_split _ _ _ H)
    | rewrite (same_but_path_name _ _ _ H)
    | rewrite (same_but_path_in _ _ _ H)
    | rewrite (same_but_path_getitem _ _ _ H) by discriminate
    | match goal with
      | |- bind ?c _ = bind ?c _ => destruct c; cbn [bind]
      | |- (if ?b then _ else _) = (if ?b then _ else _) => destruct b
      | |- match ?x with _ => _ end = match ?x with _ => _ end => destruct x
      end ].

(** A [$ref] is read by the last segment of its path and by nothing
    before it: two nodes that differ only in what precedes the last
    segment are resolved alike by [_get_type], [_get_ndrm_type] and
    [_get_properties], so a reference into another document leads to the
    local definition of that name. *)
Theorem reference_is_read_by_its_last_segment fuel name d d' :
  same_but_path d d' ->
  _get_type defs fuel (VDict d) = _get_type defs fuel (VDict d') /\
  _get_ndrm_type defs fuel name (VDict d) = _get_ndrm_type defs fuel name (VDict d') /\
  _get_properties defs fuel (VDict d) = _get_properties defs fuel (VDict d').
Proof.
  intros H.
  assert (Htype : _get_type defs fuel (VDict d) = _get_type defs fuel (VDict d')).
  { destruct fuel as [|fuel']; [reflexivity|]. cbn [_get_type]. alike H. }
  split; [exact Htype|]. split.
  - destruct fuel as [|fuel']; [reflexivity|]. cbn [_get_ndrm_type]. alike H.
  - destruct fuel as [|fuel']; [reflexivity|]. cbn [_get_properties].
    rewrite Htype.
    assert (Hp : key "properties" d = key "properties" d')
      by (apply H; discriminate).
    alike H.
    match goal with
    | |- bind ?c _ = bind ?c' _ => assert (E : c = c'); [|rewrite E; reflexivity]
    end.
    alike H.
    rewrite (required_defaults_reads_properties _ _ _ _ _ Hp). reflexivity.
Qed.

End LastSegment.

Lemma reference_is_read_by_its_last_segment_witness :
  _get_type bar_defs 2
    (obj [("$ref", `"https://example.org/schema.json#/definitions/Bar")])
  = _get_type bar_defs 2 (obj [("$ref", `"#/definitions/Bar")]).
Proof.
  apply (reference_is_read_by_its_last_segment bar_defs 2 "Bar"
           [(`"$ref", `"https://example.org/schema.json#/definitions/Bar")]
           [(`"$ref", `"#/definitions/Bar")]).
  split.
  - intros k Hk. unfold key. cbn [dict_get key_eq].
    destruct (String.eqb "$ref" k) eqn:E; [|reflexivity].
    apply String.eqb_eq in E. congruence.
  - exists "https://example.org/schema.json#/definitions/Bar", "#/definitions/Bar".
    repeat split; reflexivity.
Defined.

(** * Depth *)

(** The depth a call is given decides only whether it comes to an end:
    a call of [_get_type], [_get_prop_type], [_get_ndrm_type],
    [_get_properties] or [create_obj] that returns or raises with some
    depth returns the same value, or raises the same exception, with any
    greater depth. *)
Theorem deeper_calls_agree defs fuel fuel' :
  fuel <= fuel' ->
  (forall schema,
     settled_in (_get_type defs fuel schema) (_get_type defs fuel' schema)) /\
  (forall name schema,
     settled_in (_get_prop_type defs fuel name schema)
                (_get_prop_type defs fuel' name schema)) /\
  (forall name schema,
     settled_in (_get_ndrm_type defs fuel name schema)
                (_get_ndrm_type defs fuel' name schema)) /\
  (forall schema,
     settled_in (_get_properties defs fuel schema)
                (_get_properties defs fuel' schema)) /\
  (forall name,
     settled_in (create_obj defs fuel name) (create_obj defs fuel' name)).
Proof.
  intros Hle. split; [|split; [|split; [|split]]].
  - intros schema. apply _get_type_deeper, Hle.
  - intros name schema. apply _get_prop_type_deeper, Hle.
  - intros name schema. apply _get_ndrm_type_deeper, Hle.
  - intros schema. apply _get_properties_deeper, Hle.
  - intros name. unfold create_obj.
    settle ltac:(first [ apply _get_type_deeper; exact Hle
                       | apply _get_properties_deeper; exact Hle
                       | apply _get_ndrm_type_deeper; exact Hle ]).
Qed.

Lemma deeper_calls_agree_witness :
  settled_in (create_obj person_defs 1 "Person") (create_obj person_defs 7 "Person").
Proof.
  apply (deeper_calls_agree person_defs 1 7); lia.
Defined.

(** * The kinds of a property type *)

Section PropertyKinds.

Variable defs : dict.

Lemma anyOf_prop_type_kind : forall alts v,
  anyOf_prop_type alts = Ok (Some v) -> default_kind v.
Proof.
  induction alts as [|dic alts IH]; intros v H; cbn [anyOf_prop_type] in H;
    [discriminate|].
  apply bind_Ok in H as ([|] & _ & H); [|exact (IH _ H)].
  apply bind_Ok in H as (t & _ & H).
  destruct (py_eq t `"null"); [exact (IH _ H)|].
  injection H as <-. apply translate_kind.
Qed.

Lemma anyOf_prop_ref_kind fuel prop : forall alts v,
  anyOf_prop_ref defs fuel prop alts = Ok v -> default_kind v \/ v = VNone.
Proof.
  induction alts as [|dic alts IH]; intros v H; cbn [anyOf_prop_ref] in H.
  - injection H as <-. right. reflexivity.
  - apply bind_Ok in H as ([|] & _ & H); [|exact (IH _ H)].
    apply bind_Ok in H as (r & _ & H). apply bind_Ok in H as (m & _ & H).
    apply bind_Ok in H as (s & _ & H). left. exact (_get_type_kind _ _ _ _ H).
Qed.

(** A property type that [_get_prop_type] returns, for any name and any
    schema, is the empty list, the empty string, the empty dict or
    [None]; the docstring names the first three only. *)
Theorem property_type_is_a_default_kind_or_None fuel name schema v :
  _get_prop_type defs fuel name schema = Ok v ->
  default_kind v \/ v = VNone.
Proof.
  unfold _get_prop_type. intros H.
  destruct (p <- py_getitem schema `"properties" ;; py_getitem p name)
    as [prop|e|]; [| |discriminate].
  2:{ destruct e; try discriminate. injection H as <-. left. right. left.
      reflexivity. }
  apply bind_Ok in H as ([|] & _ & H).
  { apply bind_Ok in H as (t & _ & H). injection H as <-. left.
    apply translate_kind. }
  apply bind_Ok in H as ([|] & _ & H).
  { apply bind_Ok in H as (r & _ & H). apply bind_Ok in H as (m & _ & H).
    apply bind_Ok in H as (s & _ & H). left. exact (_get_type_kind _ _ _ _ H). }
  apply bind_Ok in H as ([|] & _ & H).
  { injection H as <-. left. right. right. reflexivity. }
  apply bind_Ok in H as ([|] & _ & H).
  - apply bind_Ok in H as (a & _ & H). apply bind_Ok in H as (alts & _ & H).
    apply bind_Ok in H as ([found|] & Hfound & H).
    + injection H as <-. left. exact (anyOf_prop_type_kind _ _ Hfound).
    + apply bind_Ok in H as (a' & _ & H). apply bind_Ok in H as (alts' & _ & H).
      exact (anyOf_prop_ref_kind _ _ _ _ H).
  - injection H as <-. right. reflexivity.
Qed.

End PropertyKinds.

Lemma property_type_is_a_default_kind_or_None_witness :
  default_kind (VList []) \/ VList [] = VNone.
Proof.
  apply (property_type_is_a_default_kind_or_None bar_defs 1 `"x"
           (obj [("properties", obj [("x", obj [("$ref", `"#/definitions/Bar")])])])).
  reflexivity.
Defined.
